(** * The image-to-platform pipeline of [utils.py], embedded and verified

    The development follows [src/utils.py] function by function:
    [load_models], [sanitize_text], [process_with_gemini],
    [smart_crop_gemini], [optimize_for_platform] and
    [process_image_complete], and the two endpoints of [src/app1.py] that
    call them or serve what they store.

    Conventions of the embedding.
    - A Python [str] is the list of its code points ([list N]).
    - A Python [float] is an IEEE 754 binary64 value, represented by the
      Standard Library's [spec_float] at precision 53 and [emax] 1024; the
      arithmetic is [SFmul], [SFdiv], [SFsub] of [SpecFloat].
    - A Python [int] is a [Z].
    - An exception is a class and the text of [str(e)]; a computation that
      may raise returns a [res]; a computation that also touches the file
      system or creates objects runs in the state-and-exception monad [M]
      over a [world].
    - What the program obtains from outside (the image decoder, the JSON
      decoder, the generated identifier, the clock, failures of the file
      system and of the imaging library's resize) is read from an
      environment record [Env].  Creating an image that is no larger than
      one already in memory, or of a registered size, is taken to
      succeed.
    - [print] calls only write to the standard output and are left out. *)

From Stdlib Require Import ZArith NArith List Bool Lia String Ascii.
From Stdlib Require Import SpecFloat.
Import ListNotations.
Open Scope Z_scope.
Set Warnings "-register-all".

(* ================================================================== *)
(** * Part I: definitions *)
(* ================================================================== *)

(** ** Python strings *)

Definition str := list N.

(** [py "abc"] is the Python string with the characters of the literal. *)
Definition py (s : string) : str := map N_of_ascii (list_ascii_of_string s).

Fixpoint str_eqb (a b : str) : bool :=
  match a, b with
  | [], [] => true
  | x :: a', y :: b' => N.eqb x y && str_eqb a' b'
  | _, _ => false
  end.

(** [s.startswith(prefix)] *)
Fixpoint startswith (pre s : str) : bool :=
  match pre, s with
  | [], _ => true
  | x :: pre', y :: s' => N.eqb x y && startswith pre' s'
  | _ :: _, [] => false
  end.

(** [sub in s] *)
Fixpoint contains (sub s : str) : bool :=
  startswith sub s ||
  match s with
  | [] => false
  | _ :: s' => contains sub s'
  end.

(** [s.split(sep)] for a non-empty separator: [skip] counts the characters
    of a separator that was just matched and is still to be dropped, [cur]
    is the current piece, reversed. *)
Fixpoint split_aux (sep s : str) (skip : nat) (cur : str) : list str :=
  match s with
  | [] => [rev cur]
  | c :: s' =>
      match skip with
      | S k => split_aux sep s' k cur
      | O =>
          if startswith sep s
          then rev cur :: split_aux sep s' (List.length sep - 1) []
          else split_aux sep s' O (c :: cur)
      end
  end.

Definition split (sep s : str) : list str := split_aux sep s O [].

(** The characters [str.isspace] accepts. *)
Definition is_space (c : N) : bool :=
  ((9 <=? c) && (c <=? 13) || (28 <=? c) && (c <=? 32)
   || (c =? 133) || (c =? 160) || (c =? 5760)
   || (8192 <=? c) && (c <=? 8202)
   || (c =? 8232) || (c =? 8233) || (c =? 8239) || (c =? 8287)
   || (c =? 12288))%N.

Fixpoint lstrip (s : str) : str :=
  match s with
  | c :: s' => if is_space c then lstrip s' else s
  | [] => []
  end.

(** [s.strip()] *)
Definition strip (s : str) : str := rev (lstrip (rev (lstrip s))).

(** Case mapping is modelled on the ASCII letters; every other code point
    is treated as uncased and kept.  On ASCII text this is what
    [str.lower], [str.upper] and [str.title] do.  Python also cases the
    letters beyond ASCII (the Kelvin sign U+212A becomes [k] in lower
    case), which these functions leave as they are: a statement that
    depends on the case of a text that need not be a key of the registry
    says that the text is ASCII ([is_ascii]). *)
Definition is_ascii (s : str) : bool := forallb (fun c => (c <? 128)%N) s.

Definition is_lower (c : N) : bool := ((97 <=? c) && (c <=? 122))%N.
Definition is_upper (c : N) : bool := ((65 <=? c) && (c <=? 90))%N.
Definition to_lower (c : N) : N := if is_upper c then (c + 32)%N else c.
Definition to_upper (c : N) : N := if is_lower c then (c - 32)%N else c.

(** [s.lower()], [s.upper()] *)
Definition lower (s : str) : str := map to_lower s.
Definition upper (s : str) : str := map to_upper s.

(** [s.title()]: a cased character that follows an uncased one is put in
    upper case, one that follows a cased one in lower case. *)
Fixpoint title_aux (prev_cased : bool) (s : str) : str :=
  match s with
  | [] => []
  | c :: s' =>
      if is_lower c || is_upper c
      then (if prev_cased then to_lower c else to_upper c) :: title_aux true s'
      else c :: title_aux false s'
  end.

Definition title (s : str) : str := title_aux false s.

(** [s.replace(old, new)] for a one-character [old]. *)
Definition replace_char (old : N) (new : str) (s : str) : str :=
  flat_map (fun c => if N.eqb c old then new else [c]) s.

Definition underscore : N := 95%N.
Definition newline : N := 10%N.
Definition dquote : N := 34%N.

(** [str(n)] for an integer. *)
Fixpoint digits_of_uint (d : Decimal.uint) : str :=
  match d with
  | Decimal.Nil => []
  | Decimal.D0 d' => 48%N :: digits_of_uint d'
  | Decimal.D1 d' => 49%N :: digits_of_uint d'
  | Decimal.D2 d' => 50%N :: digits_of_uint d'
  | Decimal.D3 d' => 51%N :: digits_of_uint d'
  | Decimal.D4 d' => 52%N :: digits_of_uint d'
  | Decimal.D5 d' => 53%N :: digits_of_uint d'
  | Decimal.D6 d' => 54%N :: digits_of_uint d'
  | Decimal.D7 d' => 55%N :: digits_of_uint d'
  | Decimal.D8 d' => 56%N :: digits_of_uint d'
  | Decimal.D9 d' => 57%N :: digits_of_uint d'
  end.

Definition str_of_int (z : Z) : str :=
  match z with
  | Z0 => py "0"
  | Zpos p => digits_of_uint (Pos.to_uint p)
  | Zneg p => py "-" ++ digits_of_uint (Pos.to_uint p)
  end.

(** A dictionary with string keys, as an association list; the first
    binding of a key is the one in force. *)
Fixpoint dict_get {A : Type} (d : list (str * A)) (k : str) : option A :=
  match d with
  | [] => None
  | (k', v) :: d' => if str_eqb k k' then Some v else dict_get d' k
  end.

(** [os.path.join(a, b)] on a POSIX system. *)
Definition path_join (a b : str) : str :=
  if startswith (py "/") b then b
  else match rev a with
       | [] => b
       | c :: _ => if N.eqb c 47 then a ++ b else a ++ py "/" ++ b
       end.

(** ** Exceptions *)

Inductive exn_class : Type :=
  | ValueError | ZeroDivisionError | OverflowError | KeyError | IndexError
  | TypeError | AttributeError | UnicodeEncodeError | OSError
  | OtherException.

(** [exn_msg] is [str(e)]. *)
Record exn : Type := Exn { exn_cls : exn_class; exn_msg : str }.

(** [isinstance(e, UnicodeError)] *)
Definition is_UnicodeError (e : exn) : bool :=
  match exn_cls e with UnicodeEncodeError => true | _ => false end.

Inductive res (A : Type) : Type :=
  | Ok (a : A)
  | Raise (e : exn).
Arguments Ok {A} a.
Arguments Raise {A} e.

Definition rbind {A B : Type} (r : res A) (f : A -> res B) : res B :=
  match r with
  | Ok a => f a
  | Raise e => Raise e
  end.

(** ** Floating-point numbers *)

Definition prec : Z := 53.
Definition emax : Z := 1024.
Definition float : Type := spec_float.

Definition fmul : float -> float -> float := SFmul prec emax.
Definition fdiv : float -> float -> float := SFdiv prec emax.
Definition fsub : float -> float -> float := SFsub prec emax.
Definition fabs : float -> float := SFabs.
(** [x < y], [x <= y], [x > y]; all false on a NaN. *)
Definition fltb : float -> float -> bool := SFltb.
Definition fleb : float -> float -> bool := SFleb.
Definition fgtb (x y : float) : bool := SFltb y x.

Definition f0 : float := S754_zero false.
(** 1.0 is 2^52 * 2^-52. *)
Definition fone : float := S754_finite false 4503599627370496 (-52).

(** An integer as a mantissa with exponent 0: the exact value. *)
Definition exact_of_Z (z : Z) : float :=
  match z with
  | Z0 => S754_zero false
  | Zpos p => S754_finite false p 0
  | Zneg p => S754_finite true p 0
  end.

(** The literals [0.01] and [0.2] are the doubles nearest to 1/100 and to
    2/10. *)
Definition f0_01 : float :=
  Eval vm_compute in fdiv (exact_of_Z 1) (exact_of_Z 100).
Definition f0_2 : float :=
  Eval vm_compute in fdiv (exact_of_Z 2) (exact_of_Z 10).

Definition is_inf (f : float) : bool :=
  match f with S754_infinity _ => true | _ => false end.

Definition is_zero (f : float) : bool :=
  match f with S754_zero _ => true | _ => false end.

(** The nearest double of an integer (ties to even). *)
Definition float_of_Z (z : Z) : float := binary_normalize prec emax z 0 false.

(** [float(n)]: raises when the integer is beyond the doubles. *)
Definition float_of_int (z : Z) : res float :=
  let f := float_of_Z z in
  if is_inf f
  then Raise (Exn OverflowError (py "int too large to convert to float"))
  else Ok f.

(** The integer part of a finite double, towards zero. *)
Definition trunc (f : float) : option Z :=
  match f with
  | S754_zero _ => Some 0
  | S754_finite s m e =>
      Some (cond_Zopp s
              (if 0 <=? e then Z.pos m * 2 ^ e else Z.pos m / 2 ^ (- e)))
  | _ => None
  end.

(** [int(x)] for a float. *)
Definition int_of_float (f : float) : res Z :=
  match f with
  | S754_nan =>
      Raise (Exn ValueError (py "cannot convert float NaN to integer"))
  | S754_infinity _ =>
      Raise (Exn OverflowError (py "cannot convert float infinity to integer"))
  | _ => match trunc f with
         | Some z => Ok z
         | None => Raise (Exn ValueError (py "cannot convert float to integer"))
         end
  end.

(** [a / b] for two integers: the correctly rounded quotient. *)
Definition int_truediv (a b : Z) : res float :=
  if b =? 0 then Raise (Exn ZeroDivisionError (py "division by zero"))
  else
    let q := fdiv (exact_of_Z a) (exact_of_Z b) in
    if is_inf q
    then Raise (Exn OverflowError
                  (py "integer division result too large for a float"))
    else Ok q.

(** [n * x] and [x * n] for an integer and a float. *)
Definition int_mul_float (n : Z) (x : float) : res float :=
  rbind (float_of_int n) (fun fn => Ok (fmul fn x)).

Definition float_mul_int (x : float) (n : Z) : res float :=
  rbind (float_of_int n) (fun fn => Ok (fmul x fn)).

(** [n / x] for an integer and a float. *)
Definition int_div_float (n : Z) (x : float) : res float :=
  rbind (float_of_int n) (fun fn =>
    if is_zero x
    then Raise (Exn ZeroDivisionError (py "float division by zero"))
    else Ok (fdiv fn x)).

(** ** Numbers, and the values a JSON document decodes to *)

Inductive num : Type :=
  | NInt (z : Z)
  | NFloat (f : float).

(** Python compares an integer with a float by their exact values. *)
Definition float_of_num (x : num) : float :=
  match x with
  | NInt z => exact_of_Z z
  | NFloat f => f
  end.

(** Comparison of the values of two floats whose finite mantissas need not
    be normalised: both are brought to the smaller exponent first. *)
Definition align (f : float) (e : Z) : float :=
  match f with
  | S754_finite s m e' => S754_finite s (fst (shl_align m e' e)) e
  | _ => f
  end.

Definition exponent (f : float) : option Z :=
  match f with S754_finite _ _ e => Some e | _ => None end.

Definition value_compare (x y : float) : option comparison :=
  match exponent x, exponent y with
  | Some ex, Some ey =>
      let e := Z.min ex ey in SFcompare (align x e) (align y e)
  | _, _ => SFcompare x y
  end.

Definition num_ltb (x y : num) : bool :=
  match value_compare (float_of_num x) (float_of_num y) with
  | Some Lt => true
  | _ => false
  end.

Definition num_leb (x y : num) : bool :=
  match value_compare (float_of_num x) (float_of_num y) with
  | Some (Lt | Eq) => true
  | _ => false
  end.

Definition num_gtb (x y : num) : bool := num_ltb y x.

(** [min(a, b)] returns [b] when [b < a] and [a] otherwise; [max(a, b)]
    returns [b] when [b > a] and [a] otherwise. *)
Definition py_min (a b : num) : num := if num_ltb b a then b else a.
Definition py_max (a b : num) : num := if num_gtb b a then b else a.

(** [x * n] for a number and an integer, and [int(x)]. *)
Definition num_mul_int (x : num) (n : Z) : res num :=
  match x with
  | NInt z => Ok (NInt (z * n))
  | NFloat f => rbind (float_mul_int f n) (fun r => Ok (NFloat r))
  end.

Definition int_of_num (x : num) : res Z :=
  match x with
  | NInt z => Ok z
  | NFloat f => int_of_float f
  end.

Inductive json : Type :=
  | JNull
  | JBool (b : bool)
  | JInt (z : Z)
  | JFloat (f : float)
  | JStr (s : str)
  | JList (l : list json)
  | JDict (d : list (str * json)).

(** The truth value of an object. *)
Definition truthy (v : json) : bool :=
  match v with
  | JNull => false
  | JBool b => b
  | JInt z => negb (z =? 0)
  | JFloat f => negb (is_zero f)
  | JStr s => match s with [] => false | _ => true end
  | JList l => match l with [] => false | _ => true end
  | JDict d => match d with [] => false | _ => true end
  end.

(** The objects that order against a float: numbers, and the booleans,
    which are the integers 0 and 1. *)
Definition num_of_json (v : json) : res num :=
  match v with
  | JInt z => Ok (NInt z)
  | JFloat f => Ok (NFloat f)
  | JBool b => Ok (NInt (if b then 1 else 0))
  | _ => Raise (Exn TypeError
                  (py "'<' not supported between instances of these types"))
  end.

(** ** Images, files and the world *)

(** An image object: its identity, its mode and its size in pixels.  The
    pixel data is not represented. *)
Record image : Type := Image {
  obj_id : N;
  mode : str;
  width : Z;
  height : Z
}.

(** [a is b] *)
Definition same_object (a b : image) : bool := N.eqb (obj_id a) (obj_id b).

(** The keyword arguments of [image.save]. *)
Record save_params : Type := SaveParams {
  quality : option Z;
  optimize : bool;
  subsampling : option Z
}.

Definition no_params : save_params := SaveParams None false None.

Inductive file : Type :=
  | ImageFile (img : image) (params : save_params)
  | TextFile (content : str).

(** The mutable part of a run: the files on disk, by path, and the
    identity the next created object receives. *)
Record world : Type := World {
  files : str -> option file;
  next_id : N
}.

Definition set_file (p : str) (f : option file) (w : world) : world :=
  World (fun q => if str_eqb q p then f else files w q) (next_id w).

(** ** The state-and-exception monad *)

Definition M (A : Type) : Type := world -> res A * world.

Definition ret {A : Type} (a : A) : M A := fun w => (Ok a, w).

Definition raise {A : Type} (e : exn) : M A := fun w => (Raise e, w).

Definition bind {A B : Type} (m : M A) (f : A -> M B) : M B :=
  fun w =>
    match m w with
    | (Ok a, w') => f a w'
    | (Raise e, w') => (Raise e, w')
    end.

Definition lift {A : Type} (r : res A) : M A := fun w => (r, w).

(** [try: m  except Exception as e: h e] *)
Definition try_except {A : Type} (m : M A) (h : exn -> M A) : M A :=
  fun w =>
    match m w with
    | (Ok a, w') => (Ok a, w')
    | (Raise e, w') => h e w'
    end.

Declare Scope monad_scope.
Delimit Scope monad_scope with monad.
Notation "x <- m ;; k" := (bind m (fun x => k))
  (at level 61, m at next level, right associativity) : monad_scope.
Notation "' pat <- m ;; k" := (bind m (fun x => match x with pat => k end))
  (at level 61, pat pattern, m at next level, right associativity) : monad_scope.
Notation "m ;;; k" := (bind m (fun _ => k))
  (at level 61, right associativity) : monad_scope.
Open Scope monad_scope.

(** ** The environment of a run *)

(** The reply of the external model; reading [response.text] may raise. *)
Record response : Type := Response { text : res str }.

(** The dictionary [load_models] returns: the keys ["gemini"] (a handle
    whose [generate_content] takes the prompt and the image file) and
    ["gemini_loaded"], either of which may be absent. *)
Record models : Type := Models {
  gemini : option (str -> file -> res response);
  gemini_loaded : option bool
}.

Record Env : Type := {
  (** [str(uuid.uuid4())] *)
  uuid4 : str;
  (** [time.time()] *)
  time_time : float;
  (** [Image.open(io.BytesIO(b))]: the mode and the size, or the error *)
  Image_open : list Byte.byte -> res (str * Z * Z);
  (** the error [image.save(path, ...)] ends with, if any *)
  save_fault : image -> str -> save_params -> option exn;
  (** the error [image.resize(size)] ends with, if any, for a size the
      library takes in: want of memory for the new image, or a mode the
      filter does not handle *)
  resize_fault : image -> Z * Z -> option exn;
  (** the error opening or writing a text file ends with, if any *)
  write_fault : str -> option exn;
  (** the error [os.remove(path)] ends with, if any *)
  remove_fault : str -> option exn;
  (** [json.loads] *)
  json_loads : str -> res json
}.

(** ** Objects and files *)

Definition new_image (md : str) (w h : Z) : M image :=
  fun st => (Ok (Image (next_id st) md w h),
             World (files st) (N.succ (next_id st))).

Definition pil_open (env : Env) (b : list Byte.byte) : M image :=
  '(md, w, h) <- lift (Image_open env b) ;;
  new_image md w h.

(** [image.convert(md)] *)
Definition pil_convert (img : image) (md : str) : M image :=
  new_image md (width img) (height img).

(** The largest C [int] and the largest C [long]. *)
Definition INT_MAX : Z := 2147483647.
Definition LONG_MAX : Z := 9223372036854775807.

(** What reading a Python int as a C [int] ends with when the value does
    not fit. *)
Definition c_int_error (z : Z) : option exn :=
  if (z <? - LONG_MAX - 1) || (LONG_MAX <? z)
  then Some (Exn OverflowError (py "Python int too large to convert to C long"))
  else if INT_MAX <? z
  then Some (Exn OverflowError (py "signed integer is greater than maximum"))
  else if z <? - INT_MAX - 1
  then Some (Exn OverflowError (py "signed integer is less than minimum"))
  else None.

(** [image.resize((w, h), LANCZOS)].  A resize to the size the image has
    is a copy.  Otherwise the library reads the two sides as C ints, which
    fails on a side that does not fit, and refuses a side below 1; for a
    size it takes in, the call may still fail for a reason the
    environment gives ([resize_fault]); if it does not, the result is a
    new image of that size. *)
Definition pil_resize (env : Env) (img : image) (size : Z * Z) : M image :=
  let '(w, h) := size in
  if (w =? width img) && (h =? height img)
  then new_image (mode img) w h
  else
    match c_int_error w, c_int_error h with
    | Some e, _ => raise e
    | None, Some e => raise e
    | None, None =>
        if (w <? 1) || (h <? 1)
        then raise (Exn ValueError (py "height and width must be > 0"))
        else
          match resize_fault env img size with
          | Some e => raise e
          | None => new_image (mode img) w h
          end
    end.

(** [image.crop((left, top, right, bottom))]: a new image of size
    [(right - left, bottom - top)]. *)
Definition pil_crop (img : image) (box : Z * Z * Z * Z) : M image :=
  let '(x0, y0, x1, y1) := box in
  if x1 <? x0
  then raise (Exn ValueError (py "Coordinate 'right' is less than 'left'"))
  else if y1 <? y0
  then raise (Exn ValueError (py "Coordinate 'lower' is less than 'upper'"))
  else new_image (mode img) (x1 - x0) (y1 - y0).

(** The mode [Image.fromarray] gives to the array of an image: the array
    keeps the number of bands and the type of the samples, not the
    meaning of the bands, so an array of bytes comes back as [L], [LA],
    [RGB] or [RGBA] by its number of bands. *)
Definition array_mode (md : str) : str :=
  if str_eqb md (py "P") then py "L"
  else if str_eqb md (py "La") || str_eqb md (py "PA") then py "LA"
  else if str_eqb md (py "CMYK") || str_eqb md (py "RGBX")
          || str_eqb md (py "RGBa") then py "RGBA"
  else if str_eqb md (py "YCbCr") || str_eqb md (py "LAB")
          || str_eqb md (py "HSV") then py "RGB"
  else md.

(** The modes of the images the common file formats decode to. *)
Definition common_modes : list str :=
  [py "L"; py "LA"; py "P"; py "RGB"; py "RGBA"; py "CMYK"].

(** [Image.fromarray(np.array(img)[y1:y2, x1:x2])] for a window inside
    the image. *)
Definition pil_fromarray_slice (img : image) (x1 y1 x2 y2 : Z) : M image :=
  new_image (array_mode (mode img)) (x2 - x1) (y2 - y1).

Definition pil_save (env : Env) (img : image) (path : str)
    (params : save_params) : M unit :=
  fun w =>
    match save_fault env img path params with
    | Some e => (Raise e, w)
    | None => (Ok tt, set_file path (Some (ImageFile img params)) w)
    end.

(** A code point UTF-8 cannot encode: a surrogate. *)
Definition is_surrogate (c : N) : bool := ((55296 <=? c) && (c <=? 57343))%N.

(** [s.encode('utf-8').decode('utf-8')] *)
Definition encode_decode_utf8 (s : str) : res str :=
  if existsb is_surrogate s
  then Raise (Exn UnicodeEncodeError
                (py "'utf-8' codec can't encode character: surrogates not allowed"))
  else Ok s.

(** [with open(path, "w", encoding="utf-8") as f: f.write(s)] *)
Definition write_text (env : Env) (path : str) (s : str) : M unit :=
  fun w =>
    match write_fault env path with
    | Some e => (Raise e, w)
    | None =>
        match encode_decode_utf8 s with
        | Raise e => (Raise e, set_file path (Some (TextFile [])) w)
        | Ok s' => (Ok tt, set_file path (Some (TextFile s')) w)
        end
    end.

(** [with open(path, "rb") as f: f.read()] *)
Definition read_file (path : str) : M file :=
  fun w =>
    match files w path with
    | Some f => (Ok f, w)
    | None => (Raise (Exn OSError (py "No such file or directory")), w)
    end.

(** [os.path.exists(path)] *)
Definition path_exists (path : str) : M bool :=
  fun w => (Ok (match files w path with Some _ => true | None => false end), w).

(** [os.remove(path)] *)
Definition os_remove (env : Env) (path : str) : M unit :=
  fun w =>
    match remove_fault env path with
    | Some e => (Raise e, w)
    | None =>
        match files w path with
        | Some _ => (Ok tt, set_file path None w)
        | None => (Raise (Exn OSError (py "No such file or directory")), w)
        end
    end.

(** ** Constants of the module *)

Definition OUTPUT_FOLDER : str := py "media/optimized/".
Definition CAPTION_FOLDER : str := py "output_captions/".
Definition TEMP_FOLDER : str := py "temp/".

Definition SOCIAL_MEDIA_SIZES : list (str * (Z * Z)) :=
  [ (py "instagram", (1080, 1080));
    (py "instagram_story", (1080, 1920));
    (py "twitter", (1600, 900));
    (py "linkedin", (1200, 627));
    (py "facebook", (1080, 1920));
    (py "facebook_story", (1080, 1920));
    (py "pinterest", (1000, 1500));
    (py "youtube_thumbnail", (1280, 720)) ].

Definition MIN_RESOLUTION_HEIGHT : Z := 720.
Definition MIN_QUALITY : Z := 98.

(** The full-image region [[0.0, 0.0, 1.0, 1.0]]. *)
Definition full_box : list num := [NFloat f0; NFloat f0; NFloat fone; NFloat fone].

(** ** [sanitize_text] *)

Definition sanitize_text (v : json) : res str :=
  if negb (truthy v) then Ok []
  else
    match v with
    | JStr s =>
        match encode_decode_utf8 s with
        | Ok s' => Ok s'
        | Raise e =>
            if is_UnicodeError e
            then Ok (map (fun c => if (c <? 65536)%N then c else 63%N) s)
            else Raise e
        end
    | _ => Raise (Exn AttributeError (py "object has no attribute 'encode'"))
    end.

(** ** [process_with_gemini] *)

Definition platform_prompts : list (str * str) :=
  [ (py "instagram", py "Create an engaging, conversational caption with emojis that would perform well on Instagram. Focus on lifestyle aspects and emotions.");
    (py "instagram_story", py "Create a brief, attention-grabbing caption suitable for Instagram Stories with relevant emojis.");
    (py "twitter", py "Create a concise, witty caption under 280 characters that would work well on Twitter/X.");
    (py "linkedin", py "Create a professional-sounding caption that highlights business value, industry insights or professional development aspects.");
    (py "facebook", py "Create a casual, descriptive caption that encourages engagement and conversation.");
    (py "facebook_story", py "Create a short, engaging caption suitable for Facebook Stories.");
    (py "pinterest", py "Create an inspirational caption that describes DIY, home decor, recipe, or lifestyle aspects with searchable keywords.");
    (py "youtube_thumbnail", py "Create an attention-grabbing title for a YouTube video that drives clicks while accurately describing the content.") ].

Definition join_lines (ls : list str) : str :=
  match ls with
  | [] => []
  | l :: ls' => l ++ flat_map (fun x => newline :: x) ls'
  end.

(** The text part of the request. *)
Definition prompt_text (platform_instruction platform : str) : str :=
  join_lines
    [ py "Analyze this image and provide:";
      py "1. " ++ platform_instruction ++ py " (5-6 sentences max)";
      py "2. Bounding box coordinates of the main subject in format [x1, y1, x2, y2]";
      py "   where coordinates are normalized from 0 to 1";
      py "3. 8-10 relevant hashtags specific to "
        ++ replace_char underscore (py " ") platform
        ++ py ", matching the platform's typical hashtag style and audience preferences";
      [];
      py "Format your response as JSON:";
      py "{";
      py "  " ++ [dquote] ++ py "caption" ++ [dquote] ++ py ": " ++ [dquote]
        ++ py "your detailed caption here" ++ [dquote] ++ py ",";
      py "  " ++ [dquote] ++ py "bounding_box" ++ [dquote]
        ++ py ": [x1, y1, x2, y2],";
      py "  " ++ [dquote] ++ py "hashtags" ++ [dquote] ++ py ": " ++ [dquote]
        ++ py "#hashtag1 #hashtag2 #hashtag3" ++ [dquote];
      py "}";
      [];
      py "Your response must be valid JSON only, with no additional text." ].

Definition fence_json : str := py "```json".
Definition fence : str := py "```".

(** [l[i]] *)
Definition index {A : Type} (l : list A) (i : nat) : res A :=
  match nth_error l i with
  | Some a => Ok a
  | None => Raise (Exn IndexError (py "list index out of range"))
  end.

(** Lines 134-139: the JSON text inside the reply. *)
Definition extract_json (response_text : str) : res str :=
  if contains fence_json response_text then
    rbind (index (split fence_json response_text) 1) (fun a =>
    rbind (index (split fence a) 0) (fun b => Ok (strip b)))
  else if contains fence response_text then
    rbind (index (split fence response_text) 1) (fun a => Ok (strip a))
  else Ok (strip response_text).

(** [result.get(key, default)]: only a dictionary has the method. *)
Definition json_get (result : json) (key : str) (default : json) : res json :=
  match result with
  | JDict d =>
      Ok (match dict_get d key with Some v => v | None => default end)
  | _ => Raise (Exn AttributeError (py "object has no attribute 'get'"))
  end.

Definition full_box_json : list json :=
  [JFloat f0; JFloat f0; JFloat fone; JFloat fone].

(** Lines 148-149: anything but a list of four elements is replaced. *)
Definition check_box_format (bounding_box : json) : list json :=
  match bounding_box with
  | JList l => if Nat.eqb (List.length l) 4 then l else full_box_json
  | _ => full_box_json
  end.

(** [max(0.0, min(1.0, x))] on a number. *)
Definition clamp_num (x : num) : num :=
  py_max (NFloat f0) (py_min (NFloat fone) x).

(** [max(0.0, min(1.0, v))] on an element of the decoded list: the
    comparison raises on an element that is not a number. *)
Definition clamp01 (v : json) : res num :=
  rbind (num_of_json v) (fun x => Ok (clamp_num x)).

(** Lines 152-157. *)
Definition clamp_box (l : list json) : res (list num) :=
  rbind (index l 0) (fun a => rbind (clamp01 a) (fun c0 =>
  rbind (index l 1) (fun b => rbind (clamp01 b) (fun c1 =>
  rbind (index l 2) (fun c => rbind (clamp01 c) (fun c2 =>
  rbind (index l 3) (fun d => rbind (clamp01 d) (fun c3 =>
  Ok [c0; c1; c2; c3])))))))).

(** [bb[2] <= bb[0] or bb[3] <= bb[1]] on a list of four numbers. *)
Definition degenerate_box (bb : list num) : bool :=
  match bb with
  | [b0; b1; b2; b3] => num_leb b2 b0 || num_leb b3 b1
  | _ => false
  end.

(** Lines 160-161. *)
Definition fix_degenerate (bb : list num) : list num :=
  if degenerate_box bb then full_box else bb.

(** Lines 147-161 together. *)
Definition validate_bounding_box (bounding_box : json) : res (list num) :=
  rbind (clamp_box (check_box_format bounding_box)) (fun bb =>
  Ok (fix_degenerate bb)).

(** The invariant of a focus region: four coordinates in [[0, 1]] with
    [x2 > x1] and [y2 > y1]. *)
Definition in_unit (r : num) : bool :=
  num_leb (NFloat f0) r && num_leb r (NFloat fone).

Definition valid_region (bb : list num) : bool :=
  match bb with
  | [x1; y1; x2; y2] =>
      in_unit x1 && in_unit y1 && in_unit x2 && in_unit y2
      && num_gtb x2 x1 && num_gtb y2 y1
  | _ => false
  end.

(** A number as the decoder delivers it. *)
Definition json_of_num (x : num) : json :=
  match x with
  | NInt z => JInt z
  | NFloat f => JFloat f
  end.

(** The caption, the bounding box and the hashtags. *)
Definition triple : Type := json * list num * json.

Definition not_loaded_triple : triple :=
  (JStr (py "No caption could be generated. Gemini model not loaded."),
   full_box, JStr (py "#ai #image")).

(** The value returned when the reply cannot be used (line 167). *)
Definition parse_failure_triple (platform : str) : triple :=
  (JStr (py "Image analysis failed due to processing error."),
   full_box, JStr (py "#" ++ platform)).

(** The value returned on any other failure (line 170). *)
Definition failure_triple (platform : str) : triple :=
  (JStr (py "Image analysis failed."), full_box, JStr (py "#" ++ platform)).

(** Lines 134-163: the text of the reply turned into a triple. *)
Definition parse_text (env : Env) (response_text platform : str) : res triple :=
  rbind (extract_json response_text) (fun json_str =>
  rbind (json_loads env json_str) (fun result =>
  rbind (json_get result (py "caption") (JStr (py "No caption generated.")))
    (fun caption =>
  rbind (json_get result (py "bounding_box") (JList full_box_json))
    (fun bounding_box =>
  rbind (json_get result (py "hashtags") (JStr (py "#" ++ platform)))
    (fun hashtags =>
  rbind (validate_bounding_box bounding_box) (fun bb =>
  Ok (caption, bb, hashtags))))))).

(** Lines 130-163, from [response.text] on. *)
Definition parse_response (env : Env) (r : response) (platform : str)
    : res triple :=
  rbind (text r) (fun response_text => parse_text env response_text platform).

(** [models.get("gemini_loaded", False)] *)
Definition loaded (m : models) : bool :=
  match gemini_loaded m with
  | Some b => b
  | None => false
  end.

Definition process_with_gemini (env : Env) (image_path : str) (m : models)
    (platform : str) : M triple :=
  try_except
    (if negb (loaded m) then ret not_loaded_triple
     else
       image_bytes <- read_file image_path ;;
       let platform_instruction :=
         match dict_get platform_prompts platform with
         | Some p => p
         | None => py "Create a general caption for social media"
         end in
       let contents := prompt_text platform_instruction platform in
       generate_content <-
         lift (match gemini m with
               | Some g => Ok g
               | None => Raise (Exn KeyError (py "'gemini'"))
               end) ;;
       response <- lift (generate_content contents image_bytes) ;;
       try_except
         (lift (parse_response env response platform))
         (fun _ =>
            (* the handler prints [response.text] before it returns *)
            lift (text response) ;;;
            ret (parse_failure_triple platform)))
    (fun _ => ret (failure_triple platform)).

(** The model is loaded and answers the request for the image at
    [image_path] with a reply whose text is [response_text]. *)
Definition model_replies (m : models) (image_path platform : str) (w : world)
    (response_text : str) : Prop :=
  loaded m = true /\
  exists f g r,
    files w image_path = Some f /\ gemini m = Some g /\
    g (prompt_text
         (match dict_get platform_prompts platform with
          | Some p => p
          | None => py "Create a general caption for social media"
          end) platform) f = Ok r /\
    text r = Ok response_text.

(** ** [smart_crop_gemini] *)

(** Lines 184-197: the padded window, clamped to the image. *)
Definition crop_window (img : image) (bounding_box : list num)
    : res (Z * Z * Z * Z) :=
  rbind (index bounding_box 0) (fun b0 =>
  rbind (index bounding_box 1) (fun b1 =>
  rbind (index bounding_box 2) (fun b2 =>
  rbind (index bounding_box 3) (fun b3 =>
  rbind (rbind (num_mul_int b0 (width img)) int_of_num) (fun x1 =>
  rbind (rbind (num_mul_int b1 (height img)) int_of_num) (fun y1 =>
  rbind (rbind (num_mul_int b2 (width img)) int_of_num) (fun x2 =>
  rbind (rbind (num_mul_int b3 (height img)) int_of_num) (fun y2 =>
  rbind (rbind (int_mul_float (x2 - x1) f0_2) int_of_float) (fun pad_x =>
  rbind (rbind (int_mul_float (y2 - y1) f0_2) int_of_float) (fun pad_y =>
  Ok (Z.max 0 (x1 - pad_x), Z.max 0 (y1 - pad_y),
      Z.min (width img) (x2 + pad_x), Z.min (height img) (y2 + pad_y)))))))))))).

(** Line 200. *)
Definition invalid_window (win : Z * Z * Z * Z) : bool :=
  let '(x1, y1, x2, y2) := win in
  (x2 <=? x1) || (y2 <=? y1) || (x2 <=? 0) || (y2 <=? 0).

Definition smart_crop_gemini (img : image) (bounding_box : list num) : M image :=
  try_except
    (if match bounding_box with [] => true | _ => false end
        || negb (Nat.eqb (List.length bounding_box) 4)
     then ret img
     else
       win <- lift (crop_window img bounding_box) ;;
       if invalid_window win then ret img
       else
         let '(x1, y1, x2, y2) := win in
         pil_fromarray_slice img x1 y1 x2 y2)
    (fun _ => ret img).

(** ** [optimize_for_platform] *)

Definition needs_rgb (md : str) : bool :=
  str_eqb md (py "RGBA") || str_eqb md (py "P").

(** Lines 223-254: the resize and the centre crop to the target size
    (the specification's [fitToTarget]). *)
Definition fit_to_target (env : Env) (img : image) (target_size : Z * Z)
    : M image :=
  let '(tw, th) := target_size in
  img_aspect <- lift (int_truediv (width img) (height img)) ;;
  target_aspect <- lift (int_truediv tw th) ;;
  image <-
    (if height img <? MIN_RESOLUTION_HEIGHT then
       new_width <- lift (rbind (int_mul_float MIN_RESOLUTION_HEIGHT img_aspect)
                            int_of_float) ;;
       pil_resize env img (new_width, MIN_RESOLUTION_HEIGHT)
     else ret img) ;;
  if fgtb (fabs (fsub img_aspect target_aspect)) f0_01 then
    image <-
      (if fgtb img_aspect target_aspect then
         new_width <- lift (rbind (int_mul_float th img_aspect) int_of_float) ;;
         pil_resize env image (new_width, th)
       else
         new_height <- lift (rbind (int_div_float tw img_aspect) int_of_float) ;;
         pil_resize env image (tw, new_height)) ;;
    let left := (width image - tw) / 2 in
    let top := (height image - th) / 2 in
    let right := left + tw in
    let bottom := top + th in
    pil_crop image (left, top, right, bottom)
  else
    pil_resize env image target_size.

Definition optimize_for_platform (env : Env) (img : image) (platform : str)
    : M image :=
  try_except
    (match dict_get SOCIAL_MEDIA_SIZES (lower platform) with
     | None => raise (Exn ValueError (py "Unsupported platform: " ++ platform))
     | Some target_size =>
         image <- (if needs_rgb (mode img) then pil_convert img (py "RGB")
                   else ret img) ;;
         fit_to_target env image target_size
     end)
    (fun e => raise e).

(** ** [process_image_complete] *)

(** The dictionary the function returns; [pr_error] is present in the
    error record only and [pr_optimized_image] in the success record
    only. *)
Record ProcessingResult : Type := {
  pr_error : option str;
  pr_platform : str;
  pr_size : Z * Z;
  pr_optimized_image : option str;
  pr_caption_text : str;
  pr_hashtags : str;
  pr_enhanced : bool;
  pr_smart_cropped : bool
}.

(** The triple used when the locator call raises (lines 282-284). *)
Definition pipeline_fallback_triple (platform : str) : triple :=
  (JStr (py "An image showing scenery or objects."), full_box,
   JStr (py "#" ++ platform ++ py " #photo #image")).

(** The triple used when no model is loaded (lines 286-288). *)
Definition pipeline_not_loaded_triple (platform : str) : triple :=
  (JStr (py "Image analysis not available. Gemini model not loaded."),
   full_box, JStr (py "#" ++ platform)).

(** [AI_MODELS and AI_MODELS.get("gemini_loaded", False)]: [None] and the
    empty dictionary are false. *)
Definition models_ready (AI_MODELS : option models) : bool :=
  match AI_MODELS with
  | None => false
  | Some m =>
      match gemini m, gemini_loaded m with
      | None, None => false
      | _, _ => loaded m
      end
  end.

(** STEP 1 (lines 276-288), for a locator [locate]. *)
Definition locate_step (locate : str -> models -> str -> M triple)
    (original_path : str) (AI_MODELS : option models) (platform : str)
    : M triple :=
  match AI_MODELS with
  | Some m =>
      if models_ready AI_MODELS
      then try_except (locate original_path m platform)
             (fun _ => ret (pipeline_fallback_triple platform))
      else ret (pipeline_not_loaded_triple platform)
  | None => ret (pipeline_not_loaded_triple platform)
  end.

(** STEP 2 (lines 291-299): the image to continue with, and
    [smart_cropped]. *)
Definition smart_crop_step (smart_crop_enabled : bool) (img : image)
    (bounding_box : list num) : M (image * bool) :=
  if smart_crop_enabled && match bounding_box with [] => false | _ => true end
  then
    try_except
      (new_image <- smart_crop_gemini img bounding_box ;;
       if negb (same_object new_image img) then ret (new_image, true)
       else ret (img, false))
      (fun _ => ret (img, false))
  else ret (img, false).

Definition sidecar_text (caption hashtags : str) : str :=
  caption ++ [newline; newline] ++ hashtags.

Definition display_name (platform : str) : str :=
  title (replace_char underscore (py " ") platform).

Definition error_record (platform : str) (e : exn) : ProcessingResult :=
  {| pr_error := Some (py "Processing failed: " ++ exn_msg e);
     pr_platform := display_name platform;
     pr_size := match dict_get SOCIAL_MEDIA_SIZES platform with
                | Some s => s
                | None => (0, 0)
                end;
     pr_optimized_image := None;
     pr_caption_text := py "Image processing failed.";
     pr_hashtags := py "#" ++ platform;
     pr_enhanced := false;
     pr_smart_cropped := false |}.

(** The paths of a run (lines 271-272, 313-314 and 323-324). *)
Definition original_path (env : Env) (format : str) : str :=
  path_join TEMP_FOLDER (py "original_" ++ uuid4 env ++ py "." ++ lower format).

Definition output_filename (env : Env) (platform format : str)
    (timestamp_val : Z) : str :=
  platform ++ py "_" ++ uuid4 env ++ py "_" ++ str_of_int timestamp_val
  ++ py "." ++ lower format.

Definition caption_path (env : Env) (platform : str) (timestamp_val : Z) : str :=
  path_join CAPTION_FOLDER
    (platform ++ py "_" ++ uuid4 env ++ py "_" ++ str_of_int timestamp_val
     ++ py ".txt").

(** Lines 317-320. *)
Definition output_params (format : str) : save_params :=
  if str_eqb (upper format) (py "JPEG")
  then SaveParams (Some MIN_QUALITY) true (Some 0)
  else SaveParams (Some MIN_QUALITY) true None.

(** [SOCIAL_MEDIA_SIZES[platform]] *)
Definition registered_size (platform : str) : res (Z * Z) :=
  match dict_get SOCIAL_MEDIA_SIZES platform with
  | Some s => Ok s
  | None => Raise (Exn KeyError (py "'" ++ platform ++ py "'"))
  end.

(** The body of the outer [try] (lines 263-345). *)
Definition pipeline_body (locate : str -> models -> str -> M triple)
    (env : Env) (image_bytes : list Byte.byte) (platform format : str)
    (smart_crop_enabled : bool) (AI_MODELS : option models)
    : M ProcessingResult :=
  timestamp_val <- lift (rbind (float_mul_int (time_time env) 1000) int_of_float) ;;
  image <- pil_open env image_bytes ;;
  pil_save env image (original_path env format) no_params ;;;
  '(caption, bounding_box, hashtags) <-
     locate_step locate (original_path env format) AI_MODELS platform ;;
  '(image, smart_cropped) <-
     smart_crop_step smart_crop_enabled image bounding_box ;;
  image <- optimize_for_platform env image platform ;;
  let enhanced := false in
  caption <- lift (sanitize_text caption) ;;
  hashtags <- lift (sanitize_text hashtags) ;;
  pil_save env image
    (path_join OUTPUT_FOLDER (output_filename env platform format timestamp_val))
    (output_params format) ;;;
  write_text env (caption_path env platform timestamp_val)
    (sidecar_text caption hashtags) ;;;
  present <- path_exists (original_path env format) ;;
  (if present
   then try_except (os_remove env (original_path env format)) (fun _ => ret tt)
   else ret tt) ;;;
  size <- lift (registered_size platform) ;;
  ret {| pr_error := None;
         pr_platform := display_name platform;
         pr_size := size;
         pr_optimized_image :=
           Some (py "/media/optimized/"
                 ++ output_filename env platform format timestamp_val);
         pr_caption_text := caption;
         pr_hashtags := hashtags;
         pr_enhanced := enhanced;
         pr_smart_cropped := smart_cropped |}.

(** [process_image_complete] with the locator it calls as a parameter; the
    arguments [enhance_image_enabled] and [confidence] are accepted and not
    used. *)
Definition process_image_complete_with
    (locate : str -> models -> str -> M triple)
    (env : Env) (image_bytes : list Byte.byte) (platform format : str)
    (smart_crop_enabled enhance_image_enabled : bool) (confidence : float)
    (AI_MODELS : option models) : M ProcessingResult :=
  try_except
    (pipeline_body locate env image_bytes platform format smart_crop_enabled
       AI_MODELS)
    (fun e => ret (error_record platform e)).

Definition process_image_complete (env : Env) :=
  process_image_complete_with (process_with_gemini env) env.

(** ** Reading a caption sidecar back *)

(** The text up to the first line break, and what follows the break. *)
Fixpoint break_line (s : str) : str * option str :=
  match s with
  | [] => ([], None)
  | c :: s' =>
      if N.eqb c newline then ([], Some s')
      else let '(l, rest) := break_line s' in (c :: l, rest)
  end.

(** The reader of the round trip.  It follows the words of the
    specification (section 8), not the source, which writes the sidecar and
    never reads it: "first line / blank / remaining line", that is, the
    first line is the caption, the second line is empty, and what remains
    is the hashtags. *)
Definition parse_sidecar (content : str) : option (str * str) :=
  match break_line content with
  | (first, Some rest) =>
      match rest with
      | c :: remaining => if N.eqb c newline then Some (first, remaining) else None
      | [] => None
      end
  | (_, None) => None
  end.

(** [newline in s] *)
Definition has_newline (s : str) : bool := existsb (N.eqb newline) s.

(** ** A concrete environment, for the examples *)

Definition empty_world : world := World (fun _ => None) 0.

Definition backslash_n : str := [92%N; 110%N].

(** The reply [{}]. *)
Definition reply_empty_object : str := py "{}".

(** The reply
    [{"caption": "Golden hour.\nNo filter.",
      "bounding_box": [0.25, 0.25, 0.75, 0.75], "hashtags": "#sunset"}],
    in which the caption has the escape of a line break. *)
Definition reply_two_lines : str :=
  py "{" ++ [dquote] ++ py "caption" ++ [dquote] ++ py ": " ++ [dquote]
  ++ py "Golden hour." ++ backslash_n ++ py "No filter." ++ [dquote]
  ++ py ", " ++ [dquote] ++ py "bounding_box" ++ [dquote]
  ++ py ": [0.25, 0.25, 0.75, 0.75], " ++ [dquote] ++ py "hashtags" ++ [dquote]
  ++ py ": " ++ [dquote] ++ py "#sunset" ++ [dquote] ++ py "}".

Definition f0_25 : float := Eval vm_compute in fdiv (exact_of_Z 1) (exact_of_Z 4).
Definition f0_75 : float := Eval vm_compute in fdiv (exact_of_Z 3) (exact_of_Z 4).

(** [json.loads] on the replies of the examples; any other text is taken
    not to be a JSON document. *)
Definition demo_json_loads (s : str) : res json :=
  if str_eqb s reply_empty_object then Ok (JDict [])
  else if str_eqb s reply_two_lines then
    Ok (JDict
          [ (py "caption",
             JStr (py "Golden hour." ++ [newline] ++ py "No filter."));
            (py "bounding_box",
             JList [JFloat f0_25; JFloat f0_25; JFloat f0_75; JFloat f0_75]);
            (py "hashtags", JStr (py "#sunset")) ])
  else Raise (Exn ValueError (py "Expecting value: line 1 column 1 (char 0)")).

(** An environment without faults: the empty blob does not decode, every
    other blob decodes to an RGB image of 1920 by 1080 pixels. *)
Definition demo_env : Env :=
  {| uuid4 := py "0f8fad5b-d9cb-469f-a165-70867728950e";
     time_time := float_of_Z 1700000000;
     Image_open := fun b =>
       match b with
       | [] => Raise (Exn OSError (py "cannot identify image file"))
       | _ => Ok (py "RGB", 1920, 1080)
       end;
     save_fault := fun _ _ _ => None;
     resize_fault := fun _ _ => None;
     write_fault := fun _ => None;
     remove_fault := fun _ => None;
     json_loads := demo_json_loads |}.

(** A loaded model that answers every request with the text [reply]. *)
Definition demo_models (reply : str) : models :=
  Models (Some (fun _ _ => Ok (Response (Ok reply)))) (Some true).

(** The dictionary [{"gemini_loaded": False}]. *)
Definition models_not_loaded : models := Models None (Some false).

(** A locator that raises. *)
Definition raising_locator (image_path : str) (m : models) (platform : str)
    : M triple :=
  raise (Exn OtherException (py "locator fault")).

Definition demo_blob : list Byte.byte := [Byte.xff; Byte.xd8].

Definition demo_image : image := Image 0 (py "RGB") 1920 1080.

(** The temporary copy of the upload, and a world that holds it. *)
Definition demo_path : str := original_path demo_env (py "JPEG").

Definition demo_world : world :=
  World (fun q => if str_eqb q demo_path
                  then Some (ImageFile demo_image no_params) else None) 1.

(** A reply that is not a JSON document. *)
Definition reply_prose : str := py "I cannot help with that.".

(** Two runs of the pipeline on the demo blob for Instagram, with smart
    cropping: one with a model that answers [reply_two_lines], one with a
    model that answers [reply_empty_object]. *)
Definition run_two_lines : res ProcessingResult * world :=
  process_image_complete demo_env demo_blob (py "instagram") (py "JPEG")
    true false f0 (Some (demo_models reply_two_lines)) empty_world.

Definition run_empty_object : res ProcessingResult * world :=
  process_image_complete demo_env demo_blob (py "instagram") (py "JPEG")
    true false f0 (Some (demo_models reply_empty_object)) empty_world.

(** The millisecond timestamp of the demo clock. *)
Definition demo_timestamp : Z := 1700000000000.


(** The record of a run, or a placeholder when the run raised. *)
Definition record_of (run : res ProcessingResult * world) : ProcessingResult :=
  match fst run with
  | Ok r => r
  | Raise e => error_record [] e
  end.

(* ------------------------------------------------------------------ *)
(** ** Further notions: coordinates, requests and fences *)

(** A coordinate that is a NaN or an infinity. *)
Definition nonfinite (x : num) : bool :=
  match x with
  | NFloat S754_nan => true
  | NFloat (S754_infinity _) => true
  | _ => false
  end.

(** The text of the request [process_with_gemini] sends for a platform
    (lines 100-118). *)
Definition request_text (platform : str) : str :=
  prompt_text
    (match dict_get platform_prompts platform with
     | Some p => p
     | None => py "Create a general caption for social media"
     end) platform.

(** An element of a decoded list that orders against a float. *)
Definition is_number (v : json) : bool :=
  match num_of_json v with
  | Ok _ => true
  | Raise _ => false
  end.

Definition backtick : N := 96%N.

(** A text without a backtick. *)
Definition no_backtick (s : str) : bool :=
  forallb (fun c => negb (N.eqb c backtick)) s.

(** A text that does not begin with a backtick. *)
Definition no_leading_backtick (s : str) : bool :=
  match s with
  | c :: _ => negb (N.eqb c backtick)
  | [] => true
  end.

(** ** [load_models] *)

(** The part of [google.generativeai] the module uses: [configure] ends
    normally or with an error; [GenerativeModel] returns a handle or
    ends with an error. *)
Record GenAI : Type := {
  configure : str -> option exn;
  GenerativeModel : str -> res (str -> file -> res response)
}.

(** [if api_key]: [None] and the empty string are false. *)
Definition key_given (api_key : option str) : bool :=
  match api_key with
  | Some (_ :: _) => true
  | _ => false
  end.

(** Lines 43-62.  The dictionary under construction is dropped when a
    call raises: the [except] branch returns a new one. *)
Definition load_models (genai : GenAI) (api_key : option str) : models :=
  match
    (if key_given api_key then
       rbind (match configure genai
                      (match api_key with Some k => k | None => [] end) with
              | Some e => Raise e
              | None => Ok tt
              end) (fun _ =>
       rbind (GenerativeModel genai (py "gemini-1.5-pro")) (fun g =>
       Ok (Models (Some g) (Some true))))
     else Ok (Models None (Some false)))
  with
  | Ok m => m
  | Raise _ => Models None (Some false)
  end.

(** ** The endpoints of [app1.py] *)

(** The upload as the endpoint uses it: the declared content type, which
    may be absent, and what reading the body gives. *)
Record UploadFile : Type := {
  content_type : option str;
  read : res (list Byte.byte)
}.

(** The three shapes of a JSON body the endpoint sends. *)
Inductive content : Type :=
  | ErrorContent (error : str)
  | ResultContent (result : ProcessingResult)
  | FailureContent (error platform : str) (size : Z * Z).

(** A response: the status code and the body.  A dictionary returned as
    it is goes out with status 200. *)
Record JSONResponse : Type := {
  status_code : Z;
  response_content : content
}.

(** [sep.join(l)] *)
Fixpoint join (sep : str) (l : list str) : str :=
  match l with
  | [] => []
  | [a] => a
  | a :: l' => a ++ sep ++ join sep l'
  end.

Definition valid_types : list str :=
  [py "image/jpeg"; py "image/png"; py "image/jpg"; py "image/gif"].

(** [POST /process-image/] (lines 76-144), for the models loaded at
    startup.  The form field [timestamp] is accepted and not used. *)
Definition process_image (env : Env) (AI_MODELS : models) (file : UploadFile)
    (platform format : str) (smart_crop_enabled enhance_image_enabled : bool)
    (confidence : float) : M JSONResponse :=
  if negb (match content_type file with
           | Some t => existsb (str_eqb t) valid_types
           | None => false
           end)
  then ret {| status_code := 400;
              response_content :=
                ErrorContent
                  (py "Invalid file type. Please upload a JPEG, PNG, or GIF image.") |}
  else if negb (match dict_get SOCIAL_MEDIA_SIZES platform with
                | Some _ => true
                | None => false
                end)
  then ret {| status_code := 400;
              response_content :=
                ErrorContent
                  (py "Invalid platform. Available platforms: "
                   ++ join (py ", ") (map fst SOCIAL_MEDIA_SIZES)) |}
  else
    try_except
      (contents <- lift (read file) ;;
       result <- process_image_complete env contents platform format
                   smart_crop_enabled enhance_image_enabled confidence
                   (Some AI_MODELS) ;;
       match pr_error result with
       | Some _ => ret {| status_code := 400;
                          response_content := ResultContent result |}
       | None => ret {| status_code := 200;
                        response_content := ResultContent result |}
       end)
      (fun e =>
         size <- lift (registered_size platform) ;;
         ret {| status_code := 500;
                response_content :=
                  FailureContent (py "An error occurred: " ++ exn_msg e)
                    (display_name platform) size |}).

(** [l[-1]] *)
Definition last_item {A : Type} (l : list A) : res A :=
  match rev l with
  | a :: _ => Ok a
  | [] => Raise (Exn IndexError (py "list index out of range"))
  end.

(** What [serve_optimized_image] ends with: the [HTTPException] it
    raises, or the [FileResponse] it returns, which names the file to
    send and its media type. *)
Inductive served : Type :=
  | HTTPException (status : Z) (detail : str)
  | FileResponse (path : str) (media_type : str).

(** Lines 146-162.  The world holds files only, so a path that is a
    directory counts as absent here. *)
Definition serve_optimized_image (filename : str) : M served :=
  let file_path := path_join OUTPUT_FOLDER filename in
  present <- path_exists file_path ;;
  if negb present then ret (HTTPException 404 (py "File not found"))
  else
    file_ext <- lift (rbind (last_item (split (py ".") filename))
                        (fun e => Ok (lower e))) ;;
    let content_type :=
      if str_eqb file_ext (py "jpg") then py "image/jpeg"
      else py "image/" ++ file_ext in
    ret (FileResponse file_path content_type).

(** A text without a full stop. *)
Definition no_dot (s : str) : bool := forallb (fun c => negb (N.eqb c 46)) s.

(** An upload of the demo blob declared as a JPEG image. *)
Definition demo_upload : UploadFile :=
  {| content_type := Some (py "image/jpeg"); read := Ok demo_blob |}.

(** A library whose calls succeed. *)
Definition demo_genai : GenAI :=
  {| configure := fun _ => None;
     GenerativeModel := fun _ => Ok (fun _ _ => Ok (Response (Ok reply_empty_object))) |}.

(** The demo environment with a [json.loads] that decodes every text to
    the value [v]. *)
Definition env_decoding (v : json) : Env :=
  {| uuid4 := uuid4 demo_env;
     time_time := time_time demo_env;
     Image_open := Image_open demo_env;
     save_fault := save_fault demo_env;
     resize_fault := resize_fault demo_env;
     write_fault := write_fault demo_env;
     remove_fault := remove_fault demo_env;
     json_loads := fun _ => Ok v |}.

(** A decoded reply with the bounding box [box]. *)
Definition object_with_box (box : json) : list (str * json) :=
  [ (py "caption", JStr (py "A quiet harbour."));
    (py "bounding_box", box);
    (py "hashtags", JStr (py "#harbour")) ].

(** A loaded dictionary without a handle. *)
Definition models_without_handle : models := Models None (Some true).

(** An image without height. *)
Definition flat_image : image := Image 0 (py "RGB") 100 0.

(** An image three million times as tall as it is wide. *)
Definition tall_image : image := Image 0 (py "RGB") 1 3000000.

(* ================================================================== *)
(** * Part II: facts about the floating-point operations *)
(* ================================================================== *)

(** ** Number of binary digits *)

Lemma digits2_pos_size p : digits2_pos p = Pos.size p.
Proof. induction p; simpl; congruence. Qed.

(** A positive number of [d] binary digits lies in [[2^(d-1), 2^d)], and
    these bounds determine [d]. *)
Lemma digits_bounds p :
  2 ^ (Z.pos (digits2_pos p) - 1) <= Z.pos p < 2 ^ Z.pos (digits2_pos p).
Proof.
  rewrite digits2_pos_size. split.
  - pose proof (Pos.size_le p) as H.
    assert (H2 : 2 ^ Z.pos (Pos.size p) <= 2 * Z.pos p).
    { rewrite <- Pos2Z.inj_pow. change (2 * Z.pos p) with (Z.pos p~0). lia. }
    replace (Z.pos (Pos.size p)) with (Z.pos (Pos.size p) - 1 + 1) in H2 by lia.
    rewrite Z.pow_add_r in H2 by lia. lia.
  - pose proof (Pos.size_gt p) as H. rewrite <- Pos2Z.inj_pow. lia.
Qed.

Lemma digits_unique p d :
  2 ^ (d - 1) <= Z.pos p < 2 ^ d -> Z.pos (digits2_pos p) = d.
Proof.
  intros [H1 H2]. pose proof (digits_bounds p) as [H3 H4].
  set (d' := Z.pos (digits2_pos p)) in *.
  assert (0 < d).
  { destruct (Z_lt_le_dec 0 d) as [|Hd]; [assumption|].
    destruct (Z.eq_dec d 0) as [->|]; [simpl in H2; lia|].
    rewrite Z.pow_neg_r in H2; lia. }
  destruct (Z_lt_le_dec d d') as [L|L].
  - assert (2 ^ d <= 2 ^ (d' - 1)) by (apply Z.pow_le_mono_r; lia). lia.
  - destruct (Z_lt_le_dec d' d) as [L'|L']; [|lia].
    assert (2 ^ d' <= 2 ^ (d - 1)) by (apply Z.pow_le_mono_r; lia). lia.
Qed.

(** ** Shifting a mantissa to the right *)

(** [iter_pos] is the plain iteration. *)
Lemma iter_pos_nat {A} (f : A -> A) p x :
  iter_pos f p x = Nat.iter (Pos.to_nat p) f x.
Proof.
  revert x. induction p as [p IH|p IH|]; intros x; cbn [iter_pos].
  - rewrite !IH. rewrite Pos2Nat.inj_xI.
    replace (S (2 * Pos.to_nat p))%nat with (Pos.to_nat p + (Pos.to_nat p + 1))%nat by lia.
    rewrite !Nat.iter_add. reflexivity.
  - rewrite !IH. rewrite Pos2Nat.inj_xO.
    replace (2 * Pos.to_nat p)%nat with (Pos.to_nat p + Pos.to_nat p)%nat by lia.
    rewrite Nat.iter_add. reflexivity.
  - reflexivity.
Qed.

(** One step of [shr_1] halves the mantissa, and keeps the record exact
    when the bit shifted out is 0. *)
Lemma shr_1_m mrs : 0 <= shr_m mrs -> shr_m (shr_1 mrs) = shr_m mrs / 2.
Proof.
  destruct mrs as [m r s]. simpl. intros H.
  destruct m as [|[p|p|]|p]; simpl; try lia; try reflexivity.
  - rewrite Pos2Z.inj_xI. apply Z.div_unique with (r := 1); lia.
  - rewrite Pos2Z.inj_xO. apply Z.div_unique with (r := 0); lia.
Qed.

Lemma shr_1_exact m :
  0 <= m -> m mod 2 = 0 ->
  shr_1 (Build_shr_record m false false) = Build_shr_record (m / 2) false false.
Proof.
  intros H E. destruct m as [|[p|p|]|p]; simpl in *; try lia; try reflexivity.
  - rewrite Pos2Z.inj_xI in E. rewrite Z.add_comm, Z.mul_comm, Z.mod_add in E by lia. discriminate.
  - f_equal. rewrite Pos2Z.inj_xO. apply Z.div_unique with (r := 0); lia.
  - discriminate.
Qed.

(** [n] steps divide the mantissa by [2^n]. *)
Lemma shr_iter_m n mrs :
  0 <= shr_m mrs -> shr_m (Nat.iter n shr_1 mrs) = shr_m mrs / 2 ^ Z.of_nat n.
Proof.
  intros H. induction n as [|n IH].
  - simpl. now rewrite Z.div_1_r.
  - simpl Nat.iter. rewrite shr_1_m.
    + rewrite IH, Nat2Z.inj_succ, Z.pow_succ_r by lia.
      rewrite Z.div_div by lia. f_equal. lia.
    + rewrite IH. apply Z.div_pos; lia.
Qed.

Lemma shr_iter_exact n m :
  0 <= m -> m mod 2 ^ Z.of_nat n = 0 ->
  Nat.iter n shr_1 (Build_shr_record m false false)
  = Build_shr_record (m / 2 ^ Z.of_nat n) false false.
Proof.
  intros H. induction n as [|n IH]; intros E.
  - simpl. now rewrite Z.div_1_r.
  - rewrite Nat2Z.inj_succ, Z.pow_succ_r in E by lia.
    assert (P : 0 < 2 ^ Z.of_nat n) by lia.
    assert (E1 : m mod 2 ^ Z.of_nat n = 0).
    { apply Z.mod_divide in E; [|lia]. apply Z.mod_divide; [lia|].
      destruct E as [k E]. exists (k * 2). lia. }
    simpl Nat.iter. rewrite (IH E1). rewrite shr_1_exact.
    + f_equal. rewrite Nat2Z.inj_succ, Z.pow_succ_r by lia.
      rewrite Z.div_div by lia. f_equal. lia.
    + apply Z.div_pos; lia.
    + apply Z.mod_divide in E; [|lia]. destruct E as [k E].
      subst m. replace (k * (2 * 2 ^ Z.of_nat n)) with (k * 2 * 2 ^ Z.of_nat n) by lia.
      rewrite Z.div_mul by lia. apply Z.mod_mul. lia.
Qed.

(** [shr] by [n >= 0] bits: the mantissa is divided by [2^n] and the
    exponent raised by [n]; nothing is lost when the low bits are 0. *)
Lemma shr_m_spec mrs e n :
  0 <= shr_m mrs -> 0 <= n ->
  shr_m (fst (shr mrs e n)) = shr_m mrs / 2 ^ n /\ snd (shr mrs e n) = e + n.
Proof.
  intros H Hn. destruct n as [|p|p]; simpl; try lia.
  - rewrite Z.div_1_r. split; [reflexivity | lia].
  - rewrite iter_pos_nat, shr_iter_m by assumption.
    rewrite positive_nat_Z. split; reflexivity.
Qed.

Lemma shr_exact m e n :
  0 <= m -> 0 <= n -> m mod 2 ^ n = 0 ->
  shr (Build_shr_record m false false) e n
  = (Build_shr_record (m / 2 ^ n) false false, e + n).
Proof.
  intros H Hn E. destruct n as [|p|p]; simpl; try lia.
  - rewrite Z.div_1_r, Z.add_0_r. reflexivity.
  - rewrite iter_pos_nat. rewrite shr_iter_exact; rewrite ?positive_nat_Z; auto.
Qed.
(** ** Rounding in the normal range *)

Lemma shr_record_of_loc_m m l : shr_m (shr_record_of_loc m l) = m.
Proof. destruct l as [|[| |]]; reflexivity. Qed.

Lemma round_nearest_even_bounds m l :
  m <= round_nearest_even m l <= m + 1.
Proof.
  destruct l as [|[| |]]; simpl; try lia. destruct (Z.even m); lia.
Qed.

Lemma fexp_normal e : -1074 <= e - 53 -> fexp prec emax e = e - 53.
Proof. unfold fexp, SpecFloat.emin, prec, emax. lia. Qed.

Lemma pow2_split a b : 0 <= a -> 0 <= b -> 2 ^ (a + b) = 2 ^ a * 2 ^ b.
Proof. intros. apply Z.pow_add_r; lia. Qed.

Lemma div_pow2_bounds m n k :
  0 <= n -> 0 <= k -> 2 ^ (n + k) <= m < 2 ^ (n + k + 1) ->
  2 ^ k <= m / 2 ^ n < 2 ^ (k + 1).
Proof.
  intros Hn Hk [H1 H2].
  assert (P : 0 < 2 ^ n) by (apply Z.pow_pos_nonneg; lia).
  split.
  - apply Z.div_le_lower_bound; [lia|]. rewrite <- pow2_split by lia. exact H1.
  - apply Z.div_lt_upper_bound; [lia|]. rewrite <- pow2_split by lia.
    replace (n + (k + 1)) with (n + k + 1) by lia. exact H2.
Qed.

(** [binary_round_aux] on a mantissa of at least 53 digits whose rounded
    exponent stays in the normal range: the result is a finite double
    with a 53-bit mantissa; it is the truncated mantissa or its successor
    (with the exponent raised once more when the successor carries), and
    it is exact when the bits shifted out are 0. *)
Lemma binary_round_aux_normal sx p ex lx :
  let n := Z.pos (digits2_pos p) - 53 in
  0 <= n -> -1074 <= ex + n -> ex + n + 1 <= 971 ->
  exists m3 e3,
    binary_round_aux prec emax sx (Z.pos p) ex lx = S754_finite sx m3 e3
    /\ 2 ^ 52 <= Z.pos m3 < 2 ^ 53
    /\ ex + n <= e3 <= ex + n + 1
    /\ Z.pos p / 2 ^ n <= Z.pos m3 * 2 ^ (e3 - (ex + n)) <= Z.pos p / 2 ^ n + 1
    /\ (lx = loc_Exact -> Z.pos p mod 2 ^ n = 0 ->
        Z.pos m3 = Z.pos p / 2 ^ n /\ e3 = ex + n).
Proof.
  intros n Hn Hlo Hhi.
  pose proof (digits_bounds p) as Hd.
  set (m1 := Z.pos p / 2 ^ n).
  assert (Hm1 : 2 ^ 52 <= m1 < 2 ^ 53).
  { change 53 with (52 + 1). apply div_pow2_bounds; try lia.
    replace (n + 52) with (Z.pos (digits2_pos p) - 1) by (unfold n; lia).
    replace (Z.pos (digits2_pos p) - 1 + 1) with (Z.pos (digits2_pos p)) by lia.
    exact Hd. }
  unfold binary_round_aux, shr_fexp.
  cbn [Zdigits2].
  rewrite fexp_normal by (unfold n in *; lia).
  replace (Z.pos (digits2_pos p) + ex - 53 - ex) with n by (unfold n; lia).
  assert (S1 := shr_m_spec (shr_record_of_loc (Z.pos p) lx) ex n).
  rewrite shr_record_of_loc_m in S1. specialize (S1 ltac:(lia) Hn).
  destruct (shr (shr_record_of_loc (Z.pos p) lx) ex n) as [mrs1 e1] eqn:E1.
  cbn [fst snd] in S1. destruct S1 as [S1 S1e]. fold m1 in S1.
  set (m2 := round_nearest_even (shr_m mrs1) (loc_of_shr_record mrs1)).
  assert (Hm2 : m1 <= m2 <= m1 + 1).
  { unfold m2. rewrite S1. apply round_nearest_even_bounds. }
  assert (Hex : lx = loc_Exact -> Z.pos p mod 2 ^ n = 0 -> m2 = m1).
  { intros -> Hmod. cbn [shr_record_of_loc] in E1.
    rewrite shr_exact in E1 by (try lia; assumption).
    injection E1 as <- _. reflexivity. }
  destruct (Z_lt_le_dec m2 (2 ^ 53)) as [Hlt|Hge].
  - (* no carry out of the mantissa *)
    assert (Hp2 : 0 < m2) by lia.
    destruct m2 as [|q|q] eqn:Eq2; try lia.
    assert (Dq : Z.pos (digits2_pos q) = 53) by (apply digits_unique; lia).
    cbn [Zdigits2]. rewrite Dq.
    rewrite fexp_normal by lia.
    replace (53 + e1 - 53 - e1) with 0 by lia.
    cbn [shr shr_record_of_loc shr_m].
    replace (e1 <=? emax - prec) with true
      by (symmetry; apply Z.leb_le; unfold emax, prec; lia).
    exists q, e1. split; [reflexivity|].
    split; [lia|]. split; [lia|].
    replace (e1 - (ex + n)) with 0 by lia. rewrite Z.mul_1_r.
    split; [lia|]. intros He Hmod. split; [|lia]. now apply Hex.
  - (* rounding carried: the mantissa is 2^53 and is shifted once more *)
    assert (Em2 : m2 = 2 ^ 53) by lia.
    rewrite Em2. 
    change (Zdigits2 (2 ^ 53)) with 54.
    rewrite fexp_normal by lia.
    replace (54 + e1 - 53 - e1) with 1 by lia.
    cbn [shr shr_record_of_loc iter_pos].
    change (shr_1 {| shr_m := 2 ^ 53; shr_r := false; shr_s := false |})
      with {| shr_m := 2 ^ 52; shr_r := false; shr_s := false |}.
    cbn [shr_m]. change (2 ^ 52) with (Z.pos (2 ^ 52)) at 1.
    cbv iota.
    replace (e1 + 1 <=? emax - prec) with true
      by (symmetry; apply Z.leb_le; unfold emax, prec; lia).
    exists (2 ^ 52)%positive, (e1 + 1). split; [reflexivity|].
    split; [change (Z.pos (2 ^ 52)) with (2 ^ 52); lia|]. split; [lia|].
    replace (e1 + 1 - (ex + n)) with 1 by lia.
    change (Z.pos (2 ^ 52) * 2 ^ 1) with (2 ^ 53).
    split; [lia|]. intros He Hmod. specialize (Hex He Hmod). lia.
Qed.



(** ** Product and quotient *)

Lemma SFmul_normal sx sy m1 e1 m2 e2 :
  let n := Z.pos (digits2_pos (m1 * m2)) - 53 in
  0 <= n -> -1074 <= e1 + e2 + n -> e1 + e2 + n + 1 <= 971 ->
  exists m3 e3,
    SFmul prec emax (S754_finite sx m1 e1) (S754_finite sy m2 e2)
    = S754_finite (xorb sx sy) m3 e3
    /\ 2 ^ 52 <= Z.pos m3 < 2 ^ 53
    /\ e1 + e2 + n <= e3 <= e1 + e2 + n + 1
    /\ (Z.pos (m1 * m2) mod 2 ^ n = 0 ->
        Z.pos m3 = Z.pos (m1 * m2) / 2 ^ n /\ e3 = e1 + e2 + n).
Proof.
  intros n Hn Hlo Hhi. cbn [SFmul].
  destruct (binary_round_aux_normal (xorb sx sy) (m1 * m2) (e1 + e2) loc_Exact Hn Hlo Hhi)
    as (m3 & e3 & E & Hm & He & _ & Hx).
  exists m3, e3. repeat split; try tauto; try lia; now apply Hx.
Qed.

(** The quotient of two finite doubles, away from overflow and underflow:
    a 53-bit mantissa, an exponent within 2 of [e1 - e2 - s], and a value
    that is at least the truncated quotient [q] minus one unit. *)
Lemma SFdiv_normal sx sy m1 e1 m2 e2 :
  let s := 53 + Z.pos (digits2_pos m2) - Z.pos (digits2_pos m1) in
  let e' := e1 - e2 - s in
  0 <= s -> -1074 <= e' -> e' + 2 <= 971 ->
  exists m3 e3,
    SFdiv prec emax (S754_finite sx m1 e1) (S754_finite sy m2 e2)
    = S754_finite (xorb sx sy) m3 e3
    /\ 2 ^ 52 <= Z.pos m3 < 2 ^ 53
    /\ e' <= e3 <= e' + 2
    /\ Z.pos m1 * 2 ^ s / Z.pos m2 - 1 <= Z.pos m3 * 2 ^ (e3 - e')
    /\ 2 ^ 52 <= Z.pos m1 * 2 ^ s / Z.pos m2.
Proof.
  intros s e' Hs Hlo Hhi.
  pose proof (digits_bounds m1) as D1. pose proof (digits_bounds m2) as D2.
  set (d1 := Z.pos (digits2_pos m1)) in *. set (d2 := Z.pos (digits2_pos m2)) in *.
  cbn [SFdiv]. unfold SFdiv_core_binary. cbn [Zdigits2]. fold d1 d2.
  rewrite fexp_normal by (unfold e', s in *; lia).
  replace (Z.min (d1 + e1 - (d2 + e2) - 53) (e1 - e2)) with e'
    by (unfold e', s in *; lia).
  replace (e1 - e2 - e') with s by (unfold e'; lia).
  set (m' := match s with Z.pos _ => Z.shiftl (Z.pos m1) s | 0 => Z.pos m1 | Z.neg _ => 0 end).
  assert (Em' : m' = Z.pos m1 * 2 ^ s).
  { unfold m'. destruct s as [|k|k] eqn:Es; try lia.
    now rewrite Z.shiftl_mul_pow2 by lia. }
  assert (P2 : 0 < 2 ^ s) by (apply Z.pow_pos_nonneg; lia).
  pose proof (Z_div_mod m' (Z.pos m2) ltac:(lia)) as DM.
  destruct (Z.div_eucl m' (Z.pos m2)) as [q r] eqn:Eqr.
  destruct DM as [DM Hr].
  assert (Eq : q = Z.pos m1 * 2 ^ s / Z.pos m2).
  { rewrite <- Em'. apply Z.div_unique with (r := r); lia. }
  assert (Hd1 : 0 < d1) by (unfold d1; lia).
  assert (Hd2 : 0 < d2) by (unfold d2; lia).
  assert (Lq : 2 ^ 52 <= q).
  { rewrite Eq. apply Z.div_le_lower_bound; [lia|].
    assert (2 ^ d2 * 2 ^ 52 <= 2 ^ (d1 - 1) * 2 ^ s).
    { rewrite <- !pow2_split by lia. apply Z.pow_le_mono_r; unfold s; lia. }
    assert (0 < 2 ^ 52) by reflexivity.
    nia. }
  assert (Uq : q < 2 ^ 54).
  { rewrite Eq. apply Z.div_lt_upper_bound; [lia|].
    assert (2 ^ d1 * 2 ^ s = 2 ^ (d2 - 1) * 2 ^ 54).
    { rewrite <- !pow2_split by lia. f_equal. unfold s; lia. }
    assert (0 < 2 ^ 54) by reflexivity.
    nia. }
  destruct q as [|pq|pq]; try (exfalso; lia).
  assert (Dq : Z.pos (digits2_pos pq) = 53 \/ Z.pos (digits2_pos pq) = 54).
  { destruct (Z_lt_le_dec (Z.pos pq) (2 ^ 53)).
    - left. apply digits_unique. lia.
    - right. apply digits_unique. lia. }
  set (n := Z.pos (digits2_pos pq) - 53).
  destruct (binary_round_aux_normal (xorb sx sy) pq e' (new_location (Z.pos m2) r))
    as (m3 & e3 & E & Hm & He & Hv & _); fold n; try lia.
  fold n in He, Hv.
  exists m3, e3. split; [exact E|]. split; [exact Hm|]. split; [lia|].
  rewrite <- Eq. split; [|exact Lq].
  destruct Dq as [Dq|Dq].
  - assert (n = 0) by (unfold n; lia). subst n.
    replace (e' + (Z.pos (digits2_pos pq) - 53)) with e' in Hv by lia.
    rewrite H in Hv. change (2 ^ 0) with 1 in Hv. rewrite Z.div_1_r in Hv. lia.
  - assert (Hn : n = 1) by (unfold n; lia).
    rewrite Hn in *. change (2 ^ 1) with 2 in Hv.
    replace (e3 - e') with (e3 - (e' + 1) + 1) by lia.
    rewrite Z.pow_add_r by lia. change (2 ^ 1) with 2.
    pose proof (Z.div_mod (Z.pos pq) 2 ltac:(lia)).
    pose proof (Z.mod_pos_bound (Z.pos pq) 2 ltac:(lia)). lia.
Qed.

(** ** Integer parts and conversions *)

Lemma trunc_ge_1 m e :
  2 ^ 52 <= Z.pos m -> -52 <= e ->
  exists z, trunc (S754_finite false m e) = Some z /\ 1 <= z.
Proof.
  intros Hm He. cbn [trunc cond_Zopp]. eexists; split; [reflexivity|].
  destruct (0 <=? e) eqn:E.
  - apply Z.leb_le in E. assert (0 < 2 ^ e) by (apply Z.pow_pos_nonneg; lia). nia.
  - apply Z.leb_gt in E. apply Z.div_le_lower_bound.
    + apply Z.pow_pos_nonneg; lia.
    + assert (2 ^ (- e) <= 2 ^ 52) by (apply Z.pow_le_mono_r; lia). lia.
Qed.

(** The integer part of a double with exponent [e] is below [2^(e+53)]. *)
Lemma trunc_range m e k :
  2 ^ 52 <= Z.pos m < 2 ^ 53 -> -52 <= e -> e + 53 <= k ->
  exists z, trunc (S754_finite false m e) = Some z /\ 1 <= z < 2 ^ k.
Proof.
  intros Hm He Hk. destruct (trunc_ge_1 m e) as (z & Ez & Hz); [lia | lia |].
  exists z. split; [exact Ez|]. split; [exact Hz|].
  unfold trunc, cond_Zopp in Ez. injection Ez as <-.
  assert (P : 2 ^ (e + 53) <= 2 ^ k) by (apply Z.pow_le_mono_r; lia).
  destruct Hm as [_ Hm].
  destruct (0 <=? e) eqn:E.
  - apply Z.leb_le in E. rewrite pow2_split in P by lia.
    assert (0 < 2 ^ e) by (apply Z.pow_pos_nonneg; lia).
    apply Z.lt_le_trans with (2 ^ e * 2 ^ 53); [|exact P].
    change (Z.pos m * 2 ^ e < 2 ^ e * 2 ^ 53).
    rewrite (Z.mul_comm (Z.pos m)). apply Z.mul_lt_mono_pos_l; assumption.
  - apply Z.leb_gt in E. apply Z.div_lt_upper_bound.
    + apply Z.pow_pos_nonneg; lia.
    + assert (Q : 2 ^ (- e) * 2 ^ (e + 53) = 2 ^ 53).
      { rewrite <- pow2_split by lia. f_equal. lia. }
      assert (0 < 2 ^ (- e)) by (apply Z.pow_pos_nonneg; lia).
      apply Z.lt_le_trans with (2 ^ (- e) * 2 ^ (e + 53)); [lia|].
      apply Z.mul_le_mono_nonneg_l; lia.
Qed.

Lemma trunc_nonneg m e :
  exists z, trunc (S754_finite false m e) = Some z /\ 0 <= z.
Proof.
  cbn [trunc cond_Zopp]. eexists; split; [reflexivity|].
  destruct (0 <=? e) eqn:E.
  - apply Z.leb_le in E. assert (0 < 2 ^ e) by (apply Z.pow_pos_nonneg; lia). nia.
  - apply Z.leb_gt in E. apply Z.div_pos; [lia|]. apply Z.pow_pos_nonneg; lia.
Qed.

Lemma pos_iter_xO m k : Z.pos (Pos.iter xO m k) = Z.pos m * 2 ^ Z.pos k.
Proof.
  induction k as [|k IH] using Pos.peano_ind.
  - cbn [Pos.iter]. lia.
  - rewrite Pos.iter_succ, Pos2Z.inj_xO, IH, Pos2Z.inj_succ, Z.pow_succ_r; lia.
Qed.

(** An integer below [2^53] converts exactly, to a normalised double. *)
Lemma float_of_Z_pos w :
  0 < w < 2 ^ 53 ->
  exists m e,
    float_of_Z w = S754_finite false m e
    /\ 2 ^ 52 <= Z.pos m < 2 ^ 53 /\ -52 <= e <= 0
    /\ Z.pos m = w * 2 ^ (- e).
Proof.
  intros [H0 H1]. destruct w as [|p|p]; try lia.
  pose proof (digits_bounds p) as Hd.
  set (d := Z.pos (digits2_pos p)) in *.
  assert (Hd53 : 0 < d <= 53).
  { split; [unfold d; lia|]. destruct (Z_lt_le_dec 53 d) as [L|L]; [|lia].
    assert (2 ^ 53 <= 2 ^ (d - 1)) by (apply Z.pow_le_mono_r; lia). lia. }
  unfold float_of_Z. cbn [binary_normalize]. unfold binary_round, shl_align.
  fold d. rewrite Z.add_0_r. rewrite fexp_normal by lia. rewrite Z.sub_0_r.
  assert (Hmz : exists mz,
    (match d - 53 with Z.neg k => (Pos.iter xO p k, d - 53) | _ => (p, 0) end)
    = (mz, d - 53) /\ Z.pos mz = Z.pos p * 2 ^ (53 - d)).
  { destruct (d - 53) as [|k|k] eqn:Ed; try lia.
    - exists p. replace (53 - d) with 0 by lia. split; [reflexivity | lia].
    - exists (Pos.iter xO p k). split; [reflexivity|].
      rewrite pos_iter_xO. f_equal. f_equal. lia. }
  destruct Hmz as (mz & -> & Emz).
  assert (Bmz : 2 ^ 52 <= Z.pos mz < 2 ^ 53).
  { rewrite Emz. assert (0 < 2 ^ (53 - d)) by (apply Z.pow_pos_nonneg; lia).
    split.
    - replace 52 with (d - 1 + (53 - d)) by lia. rewrite pow2_split by lia. nia.
    - replace 53 with (d + (53 - d)) at 2 by lia. rewrite pow2_split by lia. nia. }
  assert (Dmz : Z.pos (digits2_pos mz) = 53) by (apply digits_unique; lia).
  destruct (binary_round_aux_normal false mz (d - 53) loc_Exact)
    as (m3 & e3 & E & Hm & He & _ & Hx); rewrite ?Dmz; try lia.
  rewrite Dmz in Hx. change (2 ^ (53 - 53)) with 1 in Hx.
  rewrite Z.mod_1_r, Z.div_1_r in Hx. destruct (Hx eq_refl eq_refl) as [Hm3 He3].
  exists m3, e3. split; [exact E|]. split; [exact Hm|]. split; [lia|].
  rewrite Hm3, Emz, He3. f_equal. f_equal. lia.
Qed.

Lemma trunc_float_of_Z w :
  0 <= w < 2 ^ 53 -> trunc (float_of_Z w) = Some w.
Proof.
  intros [H0 H1]. destruct (Z.eq_dec w 0) as [->|Hn]; [reflexivity|].
  destruct (float_of_Z_pos w ltac:(lia)) as (m & e & -> & Hm & He & Em).
  cbn [trunc cond_Zopp]. f_equal.
  destruct (0 <=? e) eqn:E.
  - apply Z.leb_le in E. replace e with 0 in * by lia.
    change (2 ^ (- 0)) with 1 in Em. change (2 ^ 0) with 1. lia.
  - rewrite Em. apply Z.div_mul. apply Z.pow_nonzero; lia.
Qed.


(** [1.0 * x] is [x]. *)
Lemma fmul_one_l m e :
  2 ^ 52 <= Z.pos m < 2 ^ 53 -> -1022 <= e <= 970 ->
  SFmul prec emax fone (S754_finite false m e) = S754_finite false m e.
Proof.
  intros Hm He. unfold fone.
  assert (EM : Z.pos (4503599627370496 * m) = 2 ^ 52 * Z.pos m) by (rewrite Pos2Z.inj_mul; reflexivity).
  assert (DM : Z.pos (digits2_pos (4503599627370496 * m)) = 105).
  { apply digits_unique. rewrite EM. change (2 ^ (105 - 1)) with (2 ^ 52 * 2 ^ 52).
    change (2 ^ 105) with (2 ^ 52 * 2 ^ 53). lia. }
  destruct (SFmul_normal false false 4503599627370496 (-52) m e)
    as (m3 & e3 & E & _ & _ & Hx); rewrite ?DM; try lia.
  rewrite E. rewrite DM, EM in Hx. change (105 - 53) with 52 in Hx.
  rewrite Z.mul_comm, Z.mod_mul, Z.div_mul in Hx by lia.
  destruct (Hx eq_refl) as [Hm3 He3]. cbn [xorb]. f_equal; lia.
Qed.

(** ** Bounds used by [optimize_for_platform] *)

Lemma digits_le p k : 0 <= k -> Z.pos p < 2 ^ k -> Z.pos (digits2_pos p) <= k.
Proof.
  intros Hk H. pose proof (digits_bounds p) as [L _].
  destruct (Z_lt_le_dec k (Z.pos (digits2_pos p))) as [C|C]; [|exact C].
  assert (2 ^ k <= 2 ^ (Z.pos (digits2_pos p) - 1)) by (apply Z.pow_le_mono_r; lia).
  lia.
Qed.

Lemma digits_gt p k : 0 <= k -> 2 ^ k <= Z.pos p -> k < Z.pos (digits2_pos p).
Proof.
  intros Hk H. pose proof (digits_bounds p) as [_ U].
  destruct (Z_lt_le_dec k (Z.pos (digits2_pos p))) as [C|C]; [exact C|].
  assert (2 ^ Z.pos (digits2_pos p) <= 2 ^ k) by (apply Z.pow_le_mono_r; lia).
  lia.
Qed.

(** Order of two positive finite doubles and order of their exponents. *)
Lemma SFltb_true_exp m1 e1 m2 e2 :
  SFltb (S754_finite false m1 e1) (S754_finite false m2 e2) = true -> e1 <= e2.
Proof.
  unfold SFltb, SFcompare. destruct (Z.compare_spec e1 e2); intros C;
    try lia; discriminate.
Qed.

Lemma SFltb_false_exp m1 e1 m2 e2 :
  SFltb (S754_finite false m1 e1) (S754_finite false m2 e2) = false -> e2 <= e1.
Proof.
  unfold SFltb, SFcompare. destruct (Z.compare_spec e1 e2); intros C;
    try lia; discriminate.
Qed.

(** A product of two normal doubles whose exact value is at least 1 has an
    integer part of at least 1, below [2^(e1+e2+107)]. *)
Lemma fmul_int_ge_1 m1 e1 m2 e2 :
  2 ^ 52 <= Z.pos m1 < 2 ^ 53 -> 2 ^ 52 <= Z.pos m2 < 2 ^ 53 ->
  -200 <= e1 + e2 <= 0 ->
  2 ^ (- (e1 + e2)) <= Z.pos m1 * Z.pos m2 ->
  exists z,
    int_of_float (fmul (S754_finite false m1 e1) (S754_finite false m2 e2)) = Ok z
    /\ 1 <= z < 2 ^ (e1 + e2 + 107).
Proof.
  intros H1 H2 He Hv.
  assert (LM : 2 ^ 104 <= Z.pos (m1 * m2)).
  { rewrite Pos2Z.inj_mul. change (2 ^ 104) with (2 ^ 52 * 2 ^ 52). nia. }
  assert (UM : Z.pos (m1 * m2) < 2 ^ 106).
  { rewrite Pos2Z.inj_mul. change (2 ^ 106) with (2 ^ 53 * 2 ^ 53). nia. }
  pose proof (digits_gt _ 104 ltac:(lia) LM) as D1.
  pose proof (digits_le _ 106 ltac:(lia) UM) as D2.
  assert (D3 : - (e1 + e2) < Z.pos (digits2_pos (m1 * m2))).
  { apply digits_gt; [lia|]. now rewrite Pos2Z.inj_mul. }
  destruct (SFmul_normal false false m1 e1 m2 e2) as (m3 & e3 & E & Hm & He3 & _);
    try lia.
  unfold fmul. rewrite E. cbn [xorb].
  destruct (trunc_range m3 e3 (e1 + e2 + 107)) as (z & Ez & Hz); try lia.
  exists z. split; [|exact Hz]. unfold int_of_float. now rewrite Ez.
Qed.

(** A quotient of two normal doubles whose exponents differ enough has an
    integer part of at least 1, below [2^(e1-e2+2)]. *)
Lemma fdiv_int_ge_1 m1 e1 m2 e2 :
  2 ^ 52 <= Z.pos m1 < 2 ^ 53 -> 2 ^ 52 <= Z.pos m2 < 2 ^ 53 ->
  1 <= e1 - e2 <= 900 ->
  exists z,
    int_of_float (fdiv (S754_finite false m1 e1) (S754_finite false m2 e2)) = Ok z
    /\ 1 <= z < 2 ^ (e1 - e2 + 2).
Proof.
  intros H1 H2 He.
  assert (D1 : Z.pos (digits2_pos m1) = 53) by (apply digits_unique; lia).
  assert (D2 : Z.pos (digits2_pos m2) = 53) by (apply digits_unique; lia).
  destruct (SFdiv_normal false false m1 e1 m2 e2) as (m3 & e3 & E & Hm & He3 & _);
    rewrite ?D1, ?D2; try lia.
  rewrite D1, D2 in He3.
  unfold fdiv. rewrite E. cbn [xorb].
  destruct (trunc_range m3 e3 (e1 - e2 + 2)) as (z & Ez & Hz); try lia.
  exists z. split; [|exact Hz]. unfold int_of_float. now rewrite Ez.
Qed.

(** The aspect ratio of an image whose sides fit a C [int]. *)
Lemma int_truediv_size w h :
  0 < w < 2 ^ 31 -> 0 < h < 2 ^ 31 ->
  exists m e,
    int_truediv w h = Ok (S754_finite false m e)
    /\ 2 ^ 52 <= Z.pos m < 2 ^ 53 /\ -83 <= e <= -21
    /\ (forall k, 0 < k -> h < k -> 2 * k <= 2 ^ 23 -> 2 ^ (- e) <= k * Z.pos m)
    /\ (w <= 65536 * h -> e <= -35)
    /\ (h <= 65536 * w -> -69 <= e).
Proof.
  intros Hw Hh. destruct w as [|pw|pw]; try lia. destruct h as [|ph|ph]; try lia.
  pose proof (digits_le pw 31 ltac:(lia) ltac:(lia)) as Dw.
  pose proof (digits_le ph 31 ltac:(lia) ltac:(lia)) as Dh.
  assert (0 < Z.pos (digits2_pos pw)) by lia.
  assert (0 < Z.pos (digits2_pos ph)) by lia.
  destruct (SFdiv_normal false false pw 0 ph 0) as (m & e & E & Hm & He & Hv & Hq);
    try lia.
  set (s := 53 + Z.pos (digits2_pos ph) - Z.pos (digits2_pos pw)) in *.
  exists m, e. split.
  { unfold int_truediv. replace (Z.pos ph =? 0) with false by reflexivity.
    cbn [exact_of_Z]. unfold fdiv. rewrite E. reflexivity. }
  split; [exact Hm|]. split; [unfold s in *; lia|].
  pose proof (digits_bounds pw) as Bw. pose proof (digits_bounds ph) as Bh.
  split; [|split].
  2:{ intros Hwh.
      assert (Z.pos (digits2_pos pw) <= Z.pos (digits2_pos ph) + 16);
        [|unfold s in *; lia].
      apply digits_le; [lia|]. rewrite pow2_split by lia.
      change (2 ^ 16) with 65536. lia. }
  2:{ intros Hhw.
      assert (Z.pos (digits2_pos ph) <= Z.pos (digits2_pos pw) + 16);
        [|unfold s in *; lia].
      apply digits_le; [lia|]. rewrite pow2_split by lia.
      change (2 ^ 16) with 65536. lia. }
  intros k Hk Hhk Hk2.
  set (q := Z.pos pw * 2 ^ s / Z.pos ph) in *.
  assert (Ps : 2 ^ 23 <= 2 ^ s) by (apply Z.pow_le_mono_r; unfold s; lia).
  pose proof (Z.div_mod (Z.pos pw * 2 ^ s) (Z.pos ph) ltac:(lia)) as DM.
  pose proof (Z.mod_pos_bound (Z.pos pw * 2 ^ s) (Z.pos ph) ltac:(lia)) as MB.
  fold q in DM.
  (* k * (q - 1) >= 2^s *)
  assert (K : 2 ^ s <= k * (q - 1)).
  { assert (2 ^ s <= Z.pos pw * 2 ^ s) by nia.
    assert (Z.pos ph * q <= (k - 1) * q) by nia.
    assert (0 < 2 ^ 52) by reflexivity.
    assert (2 ^ 23 < 2 ^ 52) by reflexivity. nia. }
  set (P := 2 ^ (e - (0 - 0 - s))) in *.
  assert (PP : 0 < P) by (apply Z.pow_pos_nonneg; lia).
  assert (ES : 2 ^ s = 2 ^ (- e) * P).
  { unfold P. rewrite <- pow2_split by lia. f_equal. lia. }
  assert (Fin : 2 ^ (- e) * P <= k * Z.pos m * P) by nia.
  apply Z.mul_le_mono_pos_r in Fin; assumption.
Qed.

(* ================================================================== *)
(** * Part III: the monad and the strings *)
(* ================================================================== *)

Lemma str_eqb_eq a b : str_eqb a b = true <-> a = b.
Proof.
  revert b. induction a as [|x a IH]; intros [|y b]; simpl; split;
    try congruence; try reflexivity.
  - intros H. apply andb_true_iff in H as [H1 H2].
    apply N.eqb_eq in H1. apply IH in H2. congruence.
  - intros H. injection H as -> ->. rewrite N.eqb_refl. now apply IH.
Qed.

Lemma str_eqb_refl a : str_eqb a a = true.
Proof. now apply str_eqb_eq. Qed.

Lemma bind_lift_ok {A B : Type} (r : res A) (a : A) (f : A -> M B) w :
  r = Ok a -> bind (lift r) f w = f a w.
Proof. intros ->. reflexivity. Qed.

Lemma bind_lift_raise {A B : Type} (r : res A) e (f : A -> M B) w :
  r = Raise e -> bind (lift r) f w = (Raise e, w).
Proof. intros ->. reflexivity. Qed.

Lemma bind_ok {A B : Type} (m : M A) (a : A) (f : A -> M B) w w' :
  m w = (Ok a, w') -> bind m f w = f a w'.
Proof. unfold bind. intros ->. reflexivity. Qed.

Lemma bind_raise {A B : Type} (m : M A) e (f : A -> M B) w w' :
  m w = (Raise e, w') -> bind m f w = (Raise e, w').
Proof. unfold bind. intros ->. reflexivity. Qed.

Lemma bind_ret {A B : Type} (a : A) (f : A -> M B) w :
  bind (ret a) f w = f a w.
Proof. reflexivity. Qed.

Lemma c_int_error_none z :
  - INT_MAX - 1 <= z <= INT_MAX -> c_int_error z = None.
Proof.
  intros H. unfold c_int_error, INT_MAX, LONG_MAX in *.
  replace (z <? _) with false by (symmetry; apply Z.ltb_ge; lia).
  replace (_ <? z) with false by (symmetry; apply Z.ltb_ge; lia).
  cbn [orb].
  replace (2147483647 <? z) with false by (symmetry; apply Z.ltb_ge; lia).
  replace (z <? _) with false by (symmetry; apply Z.ltb_ge; lia).
  reflexivity.
Qed.

(** [pil_resize] succeeds on a size with both sides positive and within a
    C [int], when the environment reports no fault. *)
Lemma pil_resize_ok env img nw nh w :
  1 <= nw <= INT_MAX -> 1 <= nh <= INT_MAX ->
  resize_fault env img (nw, nh) = None ->
  pil_resize env img (nw, nh) w
  = (Ok (Image (next_id w) (mode img) nw nh), World (files w) (N.succ (next_id w))).
Proof.
  intros H1 H2 F. unfold pil_resize.
  destruct ((nw =? width img) && (nh =? height img)); [reflexivity|].
  rewrite !c_int_error_none by (unfold INT_MAX in *; lia).
  replace (nw <? 1) with false by (symmetry; apply Z.ltb_ge; lia).
  replace (nh <? 1) with false by (symmetry; apply Z.ltb_ge; lia).
  cbn [orb]. rewrite F. reflexivity.
Qed.

Lemma pil_crop_ok img x0 y0 x1 y1 w :
  x0 <= x1 -> y0 <= y1 ->
  pil_crop img (x0, y0, x1, y1) w
  = (Ok (Image (next_id w) (mode img) (x1 - x0) (y1 - y0)),
     World (files w) (N.succ (next_id w))).
Proof.
  intros H1 H2. unfold pil_crop.
  replace (x1 <? x0) with false by (symmetry; apply Z.ltb_ge; lia).
  replace (y1 <? y0) with false by (symmetry; apply Z.ltb_ge; lia).
  reflexivity.
Qed.

(* ================================================================== *)
(** * Part IV: [optimize_for_platform] *)
(* ================================================================== *)

(** Every key of the registry is in lower case and every registered side
    lies between 512 and 2047. *)
Lemma registry_entry platform tw th :
  dict_get SOCIAL_MEDIA_SIZES platform = Some (tw, th) ->
  lower platform = platform /\ 512 <= tw < 2048 /\ 512 <= th < 2048.
Proof.
  unfold SOCIAL_MEDIA_SIZES. cbn [dict_get].
  repeat match goal with
  | |- context [str_eqb platform ?k] =>
      let E := fresh "E" in
      destruct (str_eqb platform k) eqn:E;
      [ apply str_eqb_eq in E; subst platform; intros H; injection H as <- <-;
        split; [reflexivity | lia] | ]
  end.
  discriminate.
Qed.

Lemma float_of_int_pos n :
  0 < n < 2 ^ 53 ->
  exists m e,
    float_of_int n = Ok (S754_finite false m e)
    /\ 2 ^ 52 <= Z.pos m < 2 ^ 53 /\ -52 <= e <= 0
    /\ Z.pos m = n * 2 ^ (- e).
Proof.
  intros H. destruct (float_of_Z_pos n H) as (m & e & E & Hm & He & Ev).
  exists m, e. unfold float_of_int. rewrite E. cbn [is_inf]. auto.
Qed.

(** The double of a registered side has the exponent -43 or -42. *)
Lemma float_of_int_side n :
  512 <= n < 2048 ->
  exists m e,
    float_of_int n = Ok (S754_finite false m e)
    /\ 2 ^ 52 <= Z.pos m < 2 ^ 53 /\ -43 <= e <= -42.
Proof.
  intros H. destruct (float_of_int_pos n) as (m & e & E & Hm & He & Ev).
  { assert (2048 < 2 ^ 53) by reflexivity. lia. }
  exists m, e. split; [exact E|]. split; [exact Hm|]. split.
  - destruct (Z_lt_le_dec e (-43)) as [C|C]; [|exact C]. exfalso.
    assert (2 ^ 44 <= 2 ^ (- e)) by (apply Z.pow_le_mono_r; lia).
    assert (2 ^ 53 = 512 * 2 ^ 44) by reflexivity. nia.
  - destruct (Z_lt_le_dec (-42) e) as [C|C]; [|exact C]. exfalso.
    assert (2 ^ (- e) <= 2 ^ 41) by (apply Z.pow_le_mono_r; lia).
    assert (0 < 2 ^ (- e)) by (apply Z.pow_pos_nonneg; lia).
    assert (2 ^ 52 = 2048 * 2 ^ 41) by reflexivity. nia.
Qed.

(** A power of two with an exponent of at most 31 is at most [2^31]. *)
Lemma pow2_int_max k z : k <= 31 -> z < 2 ^ k -> z <= INT_MAX.
Proof.
  intros Hk Hz. destruct (Z_lt_le_dec k 0) as [N|N].
  - rewrite Z.pow_neg_r in Hz by lia. unfold INT_MAX. lia.
  - assert (2 ^ k <= 2 ^ 31) by (apply Z.pow_le_mono_r; lia).
    change (2 ^ 31) with 2147483648 in *. unfold INT_MAX. lia.
Qed.

(** The aspect ratio of a registered size has an exponent from -54 to -50. *)
Lemma target_aspect_exp tw th :
  512 <= tw < 2048 -> 512 <= th < 2048 ->
  exists m e,
    int_truediv tw th = Ok (S754_finite false m e) /\ -54 <= e <= -50.
Proof.
  intros Hw Hh. destruct tw as [|pw|pw]; try lia. destruct th as [|ph|ph]; try lia.
  pose proof (digits_le pw 11 ltac:(lia) ltac:(change (2 ^ 11) with 2048; lia)) as Dw.
  pose proof (digits_le ph 11 ltac:(lia) ltac:(change (2 ^ 11) with 2048; lia)) as Dh.
  pose proof (digits_gt pw 9 ltac:(lia) ltac:(change (2 ^ 9) with 512; lia)) as Dw'.
  pose proof (digits_gt ph 9 ltac:(lia) ltac:(change (2 ^ 9) with 512; lia)) as Dh'.
  destruct (SFdiv_normal false false pw 0 ph 0) as (m & e & E & Hm & He & _);
    try lia.
  exists m, e. split; [|lia].
  unfold int_truediv. replace (Z.pos ph =? 0) with false by reflexivity.
  cbn [exact_of_Z]. unfold fdiv. rewrite E. reflexivity.
Qed.

(** Line 229: the width for the minimum resolution is at least 1, and
    fits a C [int] for an aspect ratio below [2^18]. *)
Lemma min_resolution_width ma ea :
  2 ^ 52 <= Z.pos ma < 2 ^ 53 -> -83 <= ea <= -35 ->
  2 ^ (- ea) <= 720 * Z.pos ma ->
  exists nw,
    rbind (int_mul_float MIN_RESOLUTION_HEIGHT (S754_finite false ma ea))
      int_of_float = Ok nw /\ 1 <= nw <= INT_MAX.
Proof.
  intros Hm He Hv.
  unfold int_mul_float, MIN_RESOLUTION_HEIGHT.
  change (float_of_int 720) with (Ok (S754_finite false 6333186975989760 (-43))).
  cbn [rbind].
  destruct (fmul_int_ge_1 6333186975989760 (-43) ma ea) as (z & Ez & Hz);
    try lia.
  { replace (- (-43 + ea)) with (43 + - ea) by lia.
    rewrite pow2_split by lia.
    change (Z.pos 6333186975989760) with (2 ^ 43 * 720).
    assert (0 < 2 ^ 43) by reflexivity. nia. }
  exists z. split; [exact Ez|]. split; [lia|].
  apply pow2_int_max with (k := -43 + ea + 107); lia.
Qed.

(** Line 237: the width of the wider branch is at least 1, and fits a C
    [int] for an aspect ratio below [2^18]. *)
Lemma wider_width th ma ea mt et :
  512 <= th < 2048 ->
  2 ^ 52 <= Z.pos ma < 2 ^ 53 -> -83 <= ea <= -35 -> -54 <= et ->
  fgtb (S754_finite false ma ea) (S754_finite false mt et) = true ->
  exists nw,
    rbind (int_mul_float th (S754_finite false ma ea)) int_of_float = Ok nw
    /\ 1 <= nw <= INT_MAX.
Proof.
  intros Hth Hm He Het Hgt.
  apply SFltb_true_exp in Hgt.
  destruct (float_of_int_side th Hth) as (m & e & E & Hmm & Hee).
  unfold int_mul_float. rewrite E. cbn [rbind].
  destruct (fmul_int_ge_1 m e ma ea) as (z & Ez & Hz); try lia.
  { assert (2 ^ (- (e + ea)) <= 2 ^ 97) by (apply Z.pow_le_mono_r; lia).
    assert (2 ^ 97 <= 2 ^ 52 * 2 ^ 52) by (apply Z.leb_le; reflexivity).
    nia. }
  exists z. split; [exact Ez|]. split; [lia|].
  apply pow2_int_max with (k := e + ea + 107); lia.
Qed.

(** Line 241: the height of the taller branch is at least 1, and fits a C
    [int] for an aspect ratio above [2^-18]. *)
Lemma taller_height tw ma ea mt et :
  512 <= tw < 2048 ->
  2 ^ 52 <= Z.pos ma < 2 ^ 53 -> -69 <= ea <= -21 -> et <= -50 ->
  fgtb (S754_finite false ma ea) (S754_finite false mt et) = false ->
  exists nh,
    rbind (int_div_float tw (S754_finite false ma ea)) int_of_float = Ok nh
    /\ 1 <= nh <= INT_MAX.
Proof.
  intros Htw Hm He Het Hgt.
  apply SFltb_false_exp in Hgt.
  destruct (float_of_int_side tw Htw) as (m & e & E & Hmm & Hee).
  unfold int_div_float. rewrite E. cbn [rbind is_zero].
  destruct (fdiv_int_ge_1 m e ma ea) as (z & Ez & Hz); try lia.
  exists z. split; [exact Ez|]. split; [lia|].
  apply pow2_int_max with (k := e - ea + 2); lia.
Qed.

(** Lines 223-254 on an image whose sides fit a C [int] and whose aspect
    ratio is at most 65536 to 1 either way, for a registered size, when no
    resize fails in the environment: the result has exactly the target
    size. *)
Lemma fit_to_target_size env img tw th w :
  512 <= tw < 2048 -> 512 <= th < 2048 ->
  0 < width img < 2 ^ 31 -> 0 < height img < 2 ^ 31 ->
  width img <= 65536 * height img -> height img <= 65536 * width img ->
  (forall i size, resize_fault env i size = None) ->
  exists img' w',
    fit_to_target env img (tw, th) w = (Ok img', w')
    /\ width img' = tw /\ height img' = th /\ files w' = files w.
Proof.
  intros Htw Hth Hw Hh Hwh Hhw Hrf.
  destruct (int_truediv_size _ _ Hw Hh)
    as (ma & ea & Ea & Hma & Hea & Hva & Hup & Hlo).
  specialize (Hup Hwh). specialize (Hlo Hhw).
  destruct (target_aspect_exp tw th Htw Hth) as (mt & et & Et & Het).
  unfold fit_to_target.
  rewrite (bind_lift_ok _ _ _ _ Ea), (bind_lift_ok _ _ _ _ Et).
  set (a := S754_finite false ma ea) in *.
  set (ta := S754_finite false mt et) in *.
  assert (Side : forall n, 512 <= n < 2048 -> 1 <= n <= INT_MAX)
    by (unfold INT_MAX; lia).
  (* the minimum-resolution step *)
  assert (S1 : exists img1 w1,
    (if height img <? MIN_RESOLUTION_HEIGHT
     then new_width <- lift (rbind (int_mul_float MIN_RESOLUTION_HEIGHT a) int_of_float) ;;
          pil_resize env img (new_width, MIN_RESOLUTION_HEIGHT)
     else ret img) w = (Ok img1, w1) /\ files w1 = files w).
  { destruct (height img <? MIN_RESOLUTION_HEIGHT) eqn:Emin.
    - apply Z.ltb_lt in Emin. unfold MIN_RESOLUTION_HEIGHT in Emin.
      destruct (min_resolution_width ma ea Hma ltac:(lia)) as (nw & En & Hn).
      { apply Hva; [lia | lia | apply Z.leb_le; reflexivity]. }
      fold a in En. rewrite (bind_lift_ok _ _ _ _ En).
      rewrite pil_resize_ok
        by (first [exact Hn | apply Hrf
                  | unfold MIN_RESOLUTION_HEIGHT, INT_MAX; lia]).
      eauto.
    - unfold ret. eauto. }
  destruct S1 as (img1 & w1 & E1 & F1).
  rewrite (bind_ok _ _ _ _ _ E1).
  destruct (fgtb (fabs (fsub a ta)) f0_01).
  - (* resize, then centre crop *)
    assert (S2 : exists img2 w2,
      (if fgtb a ta
       then new_width <- lift (rbind (int_mul_float th a) int_of_float) ;;
            pil_resize env img1 (new_width, th)
       else new_height <- lift (rbind (int_div_float tw a) int_of_float) ;;
            pil_resize env img1 (tw, new_height)) w1 = (Ok img2, w2)
      /\ files w2 = files w1).
    { destruct (fgtb a ta) eqn:Egt.
      - destruct (wider_width th ma ea mt et) as (nw & En & Hn); try lia; try assumption.
        fold a in En. rewrite (bind_lift_ok _ _ _ _ En).
        rewrite pil_resize_ok by (first [exact Hn | apply Hrf | apply Side; lia]).
        eauto.
      - destruct (taller_height tw ma ea mt et) as (nh & En & Hn); try lia; try assumption.
        fold a in En. rewrite (bind_lift_ok _ _ _ _ En).
        rewrite pil_resize_ok by (first [exact Hn | apply Hrf | apply Side; lia]).
        eauto. }
    destruct S2 as (img2 & w2 & E2 & F2).
    rewrite (bind_ok _ _ _ _ _ E2).
    rewrite pil_crop_ok by lia.
    eexists _, _. split; [reflexivity|]. cbn [width height files].
    repeat split; try lia. congruence.
  - (* direct resize *)
    rewrite pil_resize_ok by (first [apply Hrf | apply Side; lia]).
    eexists _, _. split; [reflexivity|]. cbn [width height files].
    repeat split; congruence.
Qed.

(** ** C1 *)

(** C1. For every platform key of the registry and every image whose width
    and height are positive and fit the C [int] the imaging library keeps
    them in, and whose aspect ratio is at most 65536 to 1 either way,
    [optimize_for_platform] returns an image whose size is exactly the
    registered width and height, in the direct-resize branch and in both
    resize-then-centre-crop branches, provided no resize fails in the
    environment (for want of memory, say).  The bound on the aspect ratio
    keeps the sides the function asks [resize] for within a C [int]. *)
Theorem optimize_for_platform_exact_size env img platform tw th w :
  dict_get SOCIAL_MEDIA_SIZES platform = Some (tw, th) ->
  0 < width img < 2 ^ 31 -> 0 < height img < 2 ^ 31 ->
  width img <= 65536 * height img -> height img <= 65536 * width img ->
  (forall i size, resize_fault env i size = None) ->
  exists img' w',
    optimize_for_platform env img platform w = (Ok img', w')
    /\ width img' = tw /\ height img' = th.
Proof.
  intros Hreg Hw Hh Hwh Hhw Hrf.
  destruct (registry_entry _ _ _ Hreg) as (Hl & Htw & Hth).
  unfold optimize_for_platform, try_except. rewrite Hl, Hreg.
  destruct (needs_rgb (mode img)).
  - cbv beta iota delta [bind new_image pil_convert].
    destruct (fit_to_target_size env
                (Image (next_id w) (py "RGB") (width img) (height img)) tw th
                (World (files w) (N.succ (next_id w))) Htw Hth Hw Hh Hwh Hhw Hrf)
      as (img' & w' & E & Wd & Ht & _).
    rewrite E. eauto.
  - rewrite bind_ret.
    destruct (fit_to_target_size env img tw th w Htw Hth Hw Hh Hwh Hhw Hrf)
      as (img' & w' & E & Wd & Ht & _).
    rewrite E. eauto.
Qed.

(* ================================================================== *)
(** * Part V: [process_with_gemini] *)
(* ================================================================== *)

(** ** Order of numbers *)

Lemma SFcompare_antisym x y :
  SFcompare y x = option_map CompOpp (SFcompare x y).
Proof.
  destruct x as [sx|sx| |sx mx ex], y as [sy|sy| |sy my ey]; cbn;
    try reflexivity;
    try (destruct sx; reflexivity); try (destruct sy; reflexivity);
    try (destruct sx, sy; reflexivity).
  pose proof (Pos.compare_cont_antisym mx my Eq) as A. cbn [CompOpp] in A.
  destruct sx, sy; try reflexivity; f_equal;
    rewrite (Z.compare_antisym ex ey);
    destruct (ex ?= ey); cbn; try reflexivity;
    rewrite <- A; destruct (Pos.compare_cont Eq mx my); reflexivity.
Qed.

Lemma align_exponent x e ex :
  exponent x = Some ex -> e <= ex -> exponent (align x e) = Some e.
Proof. destruct x; cbn; try discriminate. reflexivity. Qed.

Lemma value_compare_antisym x y :
  value_compare y x = option_map CompOpp (value_compare x y).
Proof.
  unfold value_compare.
  destruct (exponent x) as [ex|], (exponent y) as [ey|];
    try apply SFcompare_antisym.
  rewrite (Z.min_comm ey ex). apply SFcompare_antisym.
Qed.

Lemma SFcompare_none x y :
  SFcompare x y = None -> x = S754_nan \/ y = S754_nan.
Proof.
  destruct x, y; cbn; try discriminate; auto.
Qed.

Lemma value_compare_none x y :
  value_compare x y = None -> x = S754_nan \/ y = S754_nan.
Proof.
  unfold value_compare.
  destruct x as [sx|sx| |sx mx ex], y as [sy|sy| |sy my ey]; cbn;
    try discriminate; auto.
Qed.

Lemma num_ltb_leb x y : num_ltb x y = true -> num_leb x y = true.
Proof.
  unfold num_ltb, num_leb. destruct (value_compare _ _) as [[| |]|]; congruence.
Qed.

(** On numbers that are not NaN, [not (x <= y)] is [y < x]. *)
Lemma num_leb_false x y :
  float_of_num x <> S754_nan -> float_of_num y <> S754_nan ->
  num_leb x y = false -> num_ltb y x = true.
Proof.
  unfold num_ltb, num_leb. intros Hx Hy.
  rewrite (value_compare_antisym (float_of_num x) (float_of_num y)).
  destruct (value_compare (float_of_num x) (float_of_num y)) as [[| |]|] eqn:E;
    cbn; try congruence.
  apply value_compare_none in E. tauto.
Qed.

Lemma num_ltb_not_nan_l x y : num_ltb x y = true -> float_of_num x <> S754_nan.
Proof.
  unfold num_ltb. intros H E. rewrite E in H. unfold value_compare in H.
  cbn in H. destruct (exponent (float_of_num y)); discriminate.
Qed.

(** ** The clamp *)

Lemma clamp_num_cases x :
  clamp_num x = NFloat f0 \/ clamp_num x = NFloat fone
  \/ (clamp_num x = x /\ num_ltb x (NFloat fone) = true
      /\ num_ltb (NFloat f0) x = true).
Proof.
  unfold clamp_num, py_max, py_min, num_gtb.
  destruct (num_ltb x (NFloat fone)) eqn:E1.
  - destruct (num_ltb (NFloat f0) x) eqn:E2; auto.
  - destruct (num_ltb (NFloat f0) (NFloat fone)); auto.
Qed.

Lemma clamp_num_in_unit x : in_unit (clamp_num x) = true.
Proof.
  destruct (clamp_num_cases x) as [-> | [-> | (-> & H1 & H2)]];
    try reflexivity.
  unfold in_unit. now rewrite (num_ltb_leb _ _ H1), (num_ltb_leb _ _ H2).
Qed.

Lemma clamp_num_not_nan x : float_of_num (clamp_num x) <> S754_nan.
Proof.
  destruct (clamp_num_cases x) as [-> | [-> | (-> & H1 & H2)]];
    try (cbn; discriminate).
  eapply num_ltb_not_nan_l; eassumption.
Qed.

Lemma clamp01_json_of_num x : clamp01 (json_of_num x) = Ok (clamp_num x).
Proof. destruct x; reflexivity. Qed.

(** A clamped box that is not degenerate is a valid region. *)
Lemma fix_degenerate_valid a b c d :
  valid_region (fix_degenerate [clamp_num a; clamp_num b; clamp_num c; clamp_num d])
  = true.
Proof.
  unfold fix_degenerate, degenerate_box.
  destruct (num_leb (clamp_num c) (clamp_num a)) eqn:E1; [reflexivity|].
  destruct (num_leb (clamp_num d) (clamp_num b)) eqn:E2; [reflexivity|].
  cbn [orb valid_region]. rewrite !clamp_num_in_unit. cbn [andb]. unfold num_gtb.
  rewrite (num_leb_false _ _ (clamp_num_not_nan c) (clamp_num_not_nan a) E1).
  rewrite (num_leb_false _ _ (clamp_num_not_nan d) (clamp_num_not_nan b) E2).
  reflexivity.
Qed.

(** Whatever the decoded value, a box that passes lines 147-161 is a valid
    region. *)
Lemma validate_bounding_box_valid j bb :
  validate_bounding_box j = Ok bb -> valid_region bb = true.
Proof.
  unfold validate_bounding_box, clamp_box.
  set (l := check_box_format j).
  destruct (index l 0) as [a|]; cbn [rbind]; [|discriminate].
  unfold clamp01 at 1. destruct (num_of_json a) as [na|]; cbn [rbind]; [|discriminate].
  destruct (index l 1) as [b|]; cbn [rbind]; [|discriminate].
  unfold clamp01 at 1. destruct (num_of_json b) as [nb|]; cbn [rbind]; [|discriminate].
  destruct (index l 2) as [c|]; cbn [rbind]; [|discriminate].
  unfold clamp01 at 1. destruct (num_of_json c) as [nc|]; cbn [rbind]; [|discriminate].
  destruct (index l 3) as [d|]; cbn [rbind]; [|discriminate].
  unfold clamp01 at 1. destruct (num_of_json d) as [nd|]; cbn [rbind]; [|discriminate].
  intros H. injection H as <-. apply fix_degenerate_valid.
Qed.

(** ** The shape of a run *)

(** A call of [process_with_gemini] does not raise and leaves the world as
    it is; it returns one of the three fixed triples or the triple parsed
    from a reply. *)
Lemma process_with_gemini_cases env path m platform w :
  exists t,
    process_with_gemini env path m platform w = (Ok t, w)
    /\ (t = not_loaded_triple /\ loaded m = false
        \/ t = failure_triple platform
        \/ t = parse_failure_triple platform
        \/ exists r, parse_response env r platform = Ok t).
Proof.
  unfold process_with_gemini, try_except.
  destruct (loaded m) eqn:L; cbn [negb].
  2:{ eexists; split; [reflexivity|]. auto. }
  unfold bind at 1. unfold read_file.
  destruct (files w path) as [f|]; [|eexists; split; [reflexivity | auto]].
  unfold bind at 1. unfold lift at 1.
  destruct (gemini m) as [g|]; [|eexists; split; [reflexivity | auto]].
  unfold bind at 1. unfold lift at 1.
  destruct (g _ f) as [r|]; [|eexists; split; [reflexivity | auto]].
  unfold lift at 1.
  destruct (parse_response env r platform) as [t|e] eqn:P.
  - eexists; split; [reflexivity|]. eauto 6.
  - unfold bind, lift, ret. destruct (text r);
      eexists; split; try reflexivity; auto.
Qed.

(** ** C2 *)

(** C2. A bounding box parsed from a reply (any list of four numbers)
    comes back from the validation with each coordinate in [[0, 1]] and
    with [x2 > x1] and [y2 > y1]; when the clamped box is degenerate the
    result is exactly the full-image region; and the box of every triple
    [process_with_gemini] returns satisfies the same invariant. *)
Theorem validated_box_is_focus_region :
  (forall a b c d : num,
     let clamped := [clamp_num a; clamp_num b; clamp_num c; clamp_num d] in
     exists bb,
       validate_bounding_box
         (JList [json_of_num a; json_of_num b; json_of_num c; json_of_num d])
       = Ok bb
       /\ valid_region bb = true
       /\ (if degenerate_box clamped then bb = full_box else bb = clamped))
  /\ (forall env path m platform w,
       exists caption bb hashtags,
         process_with_gemini env path m platform w
         = (Ok (caption, bb, hashtags), w)
         /\ valid_region bb = true).
Proof.
  split.
  - intros a b c d clamped.
    exists (fix_degenerate clamped). split; [|split].
    + unfold validate_bounding_box, clamp_box. cbn [check_box_format List.length Nat.eqb index nth_error rbind].
      rewrite !clamp01_json_of_num. reflexivity.
    + apply fix_degenerate_valid.
    + unfold fix_degenerate. destruct (degenerate_box clamped); reflexivity.
  - intros env path m platform w.
    destruct (process_with_gemini_cases env path m platform w)
      as (t & E & [[-> _] | [-> | [-> | [r P]]]]);
      try (do 3 eexists; split; [exact E | reflexivity]).
    destruct t as [[caption bb] hashtags].
    exists caption, bb, hashtags. split; [exact E|].
    unfold parse_response in P.
    destruct (text r) as [txt|]; cbn [rbind] in P; [|discriminate].
    unfold parse_text in P.
    repeat match type of P with
    | rbind ?x _ = Ok _ => destruct x eqn:?; cbn [rbind] in P; [|discriminate]
    end.
    injection P as <- <- <-. eapply validate_bounding_box_valid; eassumption.
Qed.

(** ** What a reply is turned into *)

(** When the model answers with the text [txt], the call returns the triple
    parsed from it, or the parse-failure triple when parsing raises. *)
Lemma process_with_gemini_reply env path m platform w txt :
  model_replies m path platform w txt ->
  process_with_gemini env path m platform w
  = (Ok (match parse_text env txt platform with
         | Ok t => t
         | Raise _ => parse_failure_triple platform
         end), w).
Proof.
  intros (L & f & g & r & Hf & Hg & Hr & Ht).
  unfold process_with_gemini, try_except. rewrite L. cbn [negb].
  unfold bind at 1. unfold read_file. rewrite Hf.
  unfold bind at 1. unfold lift at 1. rewrite Hg.
  unfold bind at 1. unfold lift at 1. rewrite Hr.
  unfold lift at 1. unfold parse_response. rewrite Ht. cbn [rbind].
  destruct (parse_text env txt platform); reflexivity.
Qed.

Lemma validate_full_box : validate_bounding_box (JList full_box_json) = Ok full_box.
Proof. reflexivity. Qed.

(** ** C3 *)

(** C3, as amended.  When the text of the reply is not a JSON document, or
    is one that is not an object, [process_with_gemini] returns the fixed
    failure triple (caption "Image analysis failed due to processing
    error.", full-image region, "#" and the platform key).  When it is a
    JSON object, every key that is missing takes its own default (caption
    "No caption generated.", the full-image box, "#" and the platform key)
    and the keys that are present are kept; the failure triple is returned
    only if the box then fails the validation. *)
Theorem reply_without_json_or_keys env path m platform w txt js :
  model_replies m path platform w txt ->
  extract_json txt = Ok js ->
  (forall e, json_loads env js = Raise e ->
     process_with_gemini env path m platform w
     = (Ok (parse_failure_triple platform), w))
  /\ (forall v, json_loads env js = Ok v -> (forall d, v <> JDict d) ->
        process_with_gemini env path m platform w
        = (Ok (parse_failure_triple platform), w))
  /\ (forall d, json_loads env js = Ok (JDict d) ->
        let caption := match dict_get d (py "caption") with
                       | Some v => v
                       | None => JStr (py "No caption generated.")
                       end in
        let box := match dict_get d (py "bounding_box") with
                   | Some v => v
                   | None => JList full_box_json
                   end in
        let hashtags := match dict_get d (py "hashtags") with
                        | Some v => v
                        | None => JStr (py "#" ++ platform)
                        end in
        process_with_gemini env path m platform w
        = (Ok (match validate_bounding_box box with
               | Ok bb => (caption, bb, hashtags)
               | Raise _ => parse_failure_triple platform
               end), w))
  /\ (json_loads env js = Ok (JDict []) ->
        process_with_gemini env path m platform w
        = (Ok (JStr (py "No caption generated."), full_box,
               JStr (py "#" ++ platform)), w)).
Proof.
  intros R X. rewrite (process_with_gemini_reply _ _ _ _ _ _ R).
  unfold parse_text. rewrite X. cbn [rbind].
  repeat split.
  - intros e ->. reflexivity.
  - intros v -> Hv. destruct v; try reflexivity. now elim (Hv d).
  - intros d ->. cbn [rbind json_get].
    destruct (validate_bounding_box _); reflexivity.
  - intros ->. reflexivity.
Qed.

(** ** C4 *)

(** C4, as amended.  When no model is loaded, [process_with_gemini] returns
    at once, for any image path and any platform, the fixed caption "No
    caption could be generated. Gemini model not loaded.", the full-image
    region and the hashtags "#ai #image", which do not depend on the
    platform; it is the pipeline that, without calling the locator, takes
    the caption "Image analysis not available. Gemini model not loaded.",
    the full-image region and "#" followed by the platform key. *)
Theorem not_loaded_triples env path m platform w :
  loaded m = false ->
  process_with_gemini env path m platform w
  = (Ok (JStr (py "No caption could be generated. Gemini model not loaded."),
         full_box, JStr (py "#ai #image")), w)
  /\ (forall locate AI_MODELS,
        models_ready AI_MODELS = false ->
        locate_step locate path AI_MODELS platform w
        = (Ok (JStr (py "Image analysis not available. Gemini model not loaded."),
               full_box, JStr (py "#" ++ platform)), w)).
Proof.
  intros L. split.
  - unfold process_with_gemini, try_except. rewrite L. reflexivity.
  - intros locate AI R. unfold locate_step. rewrite R.
    destruct AI; reflexivity.
Qed.

(** ** C5 *)

Lemma process_image_complete_with_returns locate env image_bytes platform
    format smart_crop_enabled enhance_image_enabled confidence AI_MODELS w :
  exists r w',
    process_image_complete_with locate env image_bytes platform format
      smart_crop_enabled enhance_image_enabled confidence AI_MODELS w
    = (Ok r, w').
Proof.
  unfold process_image_complete_with, try_except.
  destruct (pipeline_body _ _ _ _ _ _ _ w) as [[r|e] w'];
    do 2 eexists; reflexivity.
Qed.

(** C5, as amended.  A locator call that raises inside the pipeline is
    caught: the pipeline goes on with a triple of its own (caption "An
    image showing scenery or objects.", the full-image region, "#" and the
    platform key followed by " #photo #image"), which is not the triple
    the locator returns on its own failures, and the run always comes back
    with a record.  [process_with_gemini] itself never raises. *)
Theorem locator_fault_fallback locate env image_bytes platform format
    smart_crop_enabled enhance_image_enabled confidence AI_MODELS w :
  (exists r w',
     process_image_complete_with locate env image_bytes platform format
       smart_crop_enabled enhance_image_enabled confidence AI_MODELS w
     = (Ok r, w'))
  /\ (forall path m e w1 w2,
        models_ready (Some m) = true ->
        locate path m platform w1 = (Raise e, w2) ->
        locate_step locate path (Some m) platform w1
        = (Ok (JStr (py "An image showing scenery or objects."), full_box,
               JStr (py "#" ++ platform ++ py " #photo #image")), w2))
  /\ (forall path m w1,
        exists t, process_with_gemini env path m platform w1 = (Ok t, w1)).
Proof.
  split; [apply process_image_complete_with_returns|]. split.
  - intros path m e w1 w2 R F. unfold locate_step. rewrite R.
    unfold try_except. rewrite F. reflexivity.
  - intros path m w1.
    destruct (process_with_gemini_cases env path m platform w1) as (t & E & _).
    eauto.
Qed.

(* ================================================================== *)
(** * Part VI: [smart_crop_gemini] *)
(* ================================================================== *)

(** [int(0.0 * n)] is 0. *)
Lemma scale_by_zero n :
  0 <= n < 2 ^ 53 -> rbind (num_mul_int (NFloat f0) n) int_of_num = Ok 0.
Proof.
  intros H. unfold num_mul_int, float_mul_int.
  destruct (Z.eq_dec n 0) as [->|Hn]; [reflexivity|].
  destruct (float_of_int_pos n ltac:(lia)) as (m & e & -> & _).
  reflexivity.
Qed.

(** [int(1.0 * n)] is [n]. *)
Lemma scale_by_one n :
  0 <= n < 2 ^ 53 -> rbind (num_mul_int (NFloat fone) n) int_of_num = Ok n.
Proof.
  intros H. unfold num_mul_int, float_mul_int.
  destruct (Z.eq_dec n 0) as [->|Hn]; [reflexivity|].
  pose proof (trunc_float_of_Z n H) as T.
  destruct (float_of_Z_pos n ltac:(lia)) as (m & e & E & Hm & He & _).
  unfold float_of_int. rewrite E in *. cbn [is_inf rbind].
  unfold fmul. rewrite fmul_one_l by lia.
  cbn [int_of_num]. unfold int_of_float. rewrite T. reflexivity.
Qed.

(** [int(n * 0.2)] is defined and not negative. *)
Lemma pad_nonneg n :
  0 <= n < 2 ^ 53 ->
  exists p, rbind (int_mul_float n f0_2) int_of_float = Ok p /\ 0 <= p.
Proof.
  intros H. unfold int_mul_float.
  destruct (Z.eq_dec n 0) as [->|Hn]; [exists 0; split; [reflexivity | lia]|].
  destruct (float_of_int_pos n ltac:(lia)) as (m & e & -> & Hm & He & _).
  cbn [rbind]. unfold f0_2, fmul.
  assert (B : 2 ^ 52 <= Z.pos 7205759403792794 < 2 ^ 53) by lia.
  assert (LM : 2 ^ 104 <= Z.pos (m * 7205759403792794)).
  { rewrite Pos2Z.inj_mul. change (2 ^ 104) with (2 ^ 52 * 2 ^ 52). nia. }
  assert (UM : Z.pos (m * 7205759403792794) < 2 ^ 106).
  { rewrite Pos2Z.inj_mul. change (2 ^ 106) with (2 ^ 53 * 2 ^ 53). nia. }
  pose proof (digits_gt _ 104 ltac:(lia) LM) as D1.
  pose proof (digits_le _ 106 ltac:(lia) UM) as D2.
  destruct (SFmul_normal false false m e 7205759403792794 (-55))
    as (m3 & e3 & E & _); try lia.
  rewrite E. cbn [xorb].
  destruct (trunc_nonneg m3 e3) as (z & Ez & Hz).
  exists z. split; [|exact Hz]. unfold int_of_float. now rewrite Ez.
Qed.

(** Lines 184-197 on the full-image region: the window is the image. *)
Lemma crop_window_full img :
  0 <= width img < 2 ^ 31 -> 0 <= height img < 2 ^ 31 ->
  crop_window img full_box = Ok (0, 0, width img, height img).
Proof.
  intros Hw Hh.
  assert (B : 2 ^ 31 < 2 ^ 53) by reflexivity.
  unfold crop_window, full_box. cbn [index nth_error rbind].
  rewrite (scale_by_zero (width img)) by lia.
  rewrite (scale_by_zero (height img)) by lia.
  rewrite (scale_by_one (width img)) by lia.
  rewrite (scale_by_one (height img)) by lia.
  cbn [rbind]. rewrite !Z.sub_0_r.
  destruct (pad_nonneg (width img) ltac:(lia)) as (px & -> & Hpx).
  destruct (pad_nonneg (height img) ltac:(lia)) as (py' & -> & Hpy).
  cbn [rbind]. repeat f_equal; lia.
Qed.

Lemma invalid_window_spec x1 y1 x2 y2 :
  invalid_window (x1, y1, x2, y2) = true
  <-> (x1 >= x2 \/ y1 >= y2 \/ x2 <= 0 \/ y2 <= 0).
Proof.
  unfold invalid_window. rewrite !orb_true_iff, !Z.leb_le. lia.
Qed.

(** On an image with positive sides and the full-image region, the call
    returns a new object of the same size. *)
Lemma smart_crop_gemini_full img w :
  0 < width img < 2 ^ 31 -> 0 < height img < 2 ^ 31 ->
  smart_crop_gemini img full_box w
  = (Ok (Image (next_id w) (array_mode (mode img)) (width img) (height img)),
     World (files w) (N.succ (next_id w))).
Proof.
  intros Hw Hh. unfold smart_crop_gemini, try_except.
  change (match full_box with [] => true | _ :: _ => false end
          || negb (Nat.eqb (List.length full_box) 4)) with false.
  cbv iota.
  rewrite (bind_lift_ok _ _ _ _ (crop_window_full img ltac:(lia) ltac:(lia))).
  assert (V : invalid_window (0, 0, width img, height img) = false).
  { destruct (invalid_window _) eqn:E; [|reflexivity].
    apply invalid_window_spec in E. lia. }
  rewrite V. unfold pil_fromarray_slice, new_image. rewrite !Z.sub_0_r.
  reflexivity.
Qed.

(** ** C6 *)

(** C6. [smart_crop_gemini] never raises, whatever the image and the
    bounding box; when the padded and clamped window is degenerate or out
    of bounds ([x1 >= x2] or [y1 >= y2] or [x2 <= 0] or [y2 <= 0]) it
    returns the image object it was given, unchanged; and for the
    full-image region the returned image has the size of the input. *)
Theorem smart_crop_gemini_safe img w :
  (forall bounding_box,
     exists img' w', smart_crop_gemini img bounding_box w = (Ok img', w'))
  /\ (forall bounding_box x1 y1 x2 y2,
        List.length bounding_box = 4%nat ->
        crop_window img bounding_box = Ok (x1, y1, x2, y2) ->
        x1 >= x2 \/ y1 >= y2 \/ x2 <= 0 \/ y2 <= 0 ->
        smart_crop_gemini img bounding_box w = (Ok img, w))
  /\ (0 <= width img < 2 ^ 31 -> 0 <= height img < 2 ^ 31 ->
      exists img' w',
        smart_crop_gemini img full_box w = (Ok img', w')
        /\ width img' = width img /\ height img' = height img).
Proof.
  split; [|split].
  - intros bb. unfold smart_crop_gemini, try_except.
    destruct (_ || _).
    + do 2 eexists; reflexivity.
    + unfold bind, lift. destruct (crop_window img bb) as [[[[x1 y1] x2] y2]|e].
      * destruct (invalid_window _); do 2 eexists; reflexivity.
      * do 2 eexists; reflexivity.
  - intros bb x1 y1 x2 y2 L C D.
    unfold smart_crop_gemini, try_except.
    destruct bb as [|b0 bb]; [discriminate|].
    rewrite L. cbn [Nat.eqb negb orb].
    rewrite (bind_lift_ok _ _ _ _ C).
    apply invalid_window_spec in D. rewrite D. reflexivity.
  - intros Hw Hh.
    destruct (Z.eq_dec (width img) 0) as [W0|W0];
      [|destruct (Z.eq_dec (height img) 0) as [H0|H0]].
    3:{ rewrite smart_crop_gemini_full by lia.
        do 2 eexists; split; [reflexivity|]. split; reflexivity. }
    all: exists img, w; split; [|split; reflexivity].
    all: unfold smart_crop_gemini, try_except;
      change (match full_box with [] => true | _ :: _ => false end
              || negb (Nat.eqb (List.length full_box) 4)) with false;
      cbv iota;
      rewrite (bind_lift_ok _ _ _ _ (crop_window_full img Hw Hh));
      assert (V : invalid_window (0, 0, width img, height img) = true)
        by (apply invalid_window_spec; lia);
      rewrite V; reflexivity.
Qed.

(* ================================================================== *)
(** * Part VII: [process_image_complete] *)
(* ================================================================== *)

Lemma bind_inv {A B : Type} (m : M A) (f : A -> M B) w b w' :
  bind m f w = (Ok b, w') ->
  exists a w1, m w = (Ok a, w1) /\ f a w1 = (Ok b, w').
Proof.
  unfold bind. destruct (m w) as [[a|e] w1]; [eauto | discriminate].
Qed.

Lemma bind_lift_inv {A B : Type} (r : res A) (f : A -> M B) w b w' :
  bind (lift r) f w = (Ok b, w') ->
  exists a, r = Ok a /\ f a w = (Ok b, w').
Proof.
  unfold bind, lift. destruct r as [a|e]; [eauto | discriminate].
Qed.


Lemma pil_save_inv env img path params w w' :
  pil_save env img path params w = (Ok tt, w') ->
  w' = set_file path (Some (ImageFile img params)) w.
Proof.
  unfold pil_save. destruct (save_fault env img path params); [discriminate|].
  now intros [= <-].
Qed.

Lemma write_text_inv env path s w w' :
  write_text env path s w = (Ok tt, w') ->
  w' = set_file path (Some (TextFile s)) w.
Proof.
  unfold write_text. destruct (write_fault env path); [discriminate|].
  unfold encode_decode_utf8. destruct (existsb is_surrogate s); [discriminate|].
  now intros [= <-].
Qed.

(** Lines 331-335 change no file but the temporary copy. *)
Lemma cleanup_files env p w w' :
  bind (path_exists p)
    (fun present =>
       if present then try_except (os_remove env p) (fun _ => ret tt) else ret tt) w
  = (Ok tt, w') ->
  next_id w' = next_id w
  /\ forall q, str_eqb q p = false -> files w' q = files w q.
Proof.
  unfold bind, path_exists, try_except, os_remove, ret.
  destruct (files w p) as [f|] eqn:F.
  - destruct (remove_fault env p); cbv beta; rewrite ?F;
      intros H; injection H as <-.
    + auto.
    + split; [reflexivity|]. intros q Hq. cbn. now rewrite Hq.
  - intros H; injection H as <-. auto.
Qed.

(** ** The caption sidecar *)

Lemma break_line_no_newline s :
  has_newline (fst (break_line s)) = false.
Proof.
  induction s as [|c s IH]; [reflexivity|]. cbn [break_line].
  destruct (N.eqb c newline) eqn:E; [reflexivity|].
  destruct (break_line s) as [l rest]. cbn [fst] in *.
  unfold has_newline in *. cbn [existsb]. rewrite N.eqb_sym, E. exact IH.
Qed.

Lemma break_line_app caption rest :
  has_newline caption = false ->
  break_line (caption ++ newline :: rest) = (caption, Some rest).
Proof.
  unfold has_newline. induction caption as [|c s IH]; intros H.
  - reflexivity.
  - cbn [existsb] in H. apply orb_false_iff in H as [H1 H2].
    cbn [app break_line]. rewrite N.eqb_sym, H1. now rewrite (IH H2).
Qed.

(** A sidecar reads back as its caption and hashtags exactly when the
    caption has no line break. *)
Lemma parse_sidecar_round_trip caption hashtags :
  has_newline caption = false ->
  parse_sidecar (sidecar_text caption hashtags) = Some (caption, hashtags).
Proof.
  intros H. unfold parse_sidecar, sidecar_text. cbn [app].
  rewrite (break_line_app _ _ H). now rewrite N.eqb_refl.
Qed.

Lemma parse_sidecar_first_line content first rest :
  parse_sidecar content = Some (first, rest) -> has_newline first = false.
Proof.
  unfold parse_sidecar. pose proof (break_line_no_newline content) as B.
  destruct (break_line content) as [l [[|c r]|]]; try discriminate.
  destruct (N.eqb c newline); [|discriminate]. now intros [= <- _].
Qed.

Lemma original_path_head env format :
  exists rest, original_path env format = 116%N :: rest.
Proof. eexists. reflexivity. Qed.

Lemma caption_path_head env platform ts size :
  dict_get SOCIAL_MEDIA_SIZES platform = Some size ->
  exists rest, caption_path env platform ts = 111%N :: rest.
Proof.
  unfold SOCIAL_MEDIA_SIZES. cbn [dict_get].
  repeat match goal with
  | |- context [str_eqb platform ?k] =>
      let E := fresh "E" in
      destruct (str_eqb platform k) eqn:E;
      [ apply str_eqb_eq in E; subst platform; intros _;
        eexists; reflexivity | ]
  end.
  discriminate.
Qed.

(** ** One call of the pipeline *)

Section Run.

Variable locate : str -> models -> str -> M triple.
Variable env : Env.
Variable image_bytes : list Byte.byte.
Variables platform format : str.
Variables smart_crop_enabled enhance_image_enabled : bool.
Variable confidence : float.
Variable AI_MODELS : option models.

Local Abbreviation body :=
  (pipeline_body locate env image_bytes platform format smart_crop_enabled
     AI_MODELS).
Local Abbreviation call :=
  (process_image_complete_with locate env image_bytes platform format
     smart_crop_enabled enhance_image_enabled confidence AI_MODELS).

(** A successful run of the body, step by step. *)
Lemma pipeline_body_inv w r w' :
  body w = (Ok r, w') ->
  exists ts img0 wa cap bb tags wc img1 cropped wd img2 we caption hashtags size,
    rbind (float_mul_int (time_time env) 1000) int_of_float = Ok ts
    /\ pil_open env image_bytes w = (Ok img0, wa)
    /\ save_fault env img0 (original_path env format) no_params = None
    /\ locate_step locate (original_path env format) AI_MODELS platform
         (set_file (original_path env format) (Some (ImageFile img0 no_params)) wa)
       = (Ok (cap, bb, tags), wc)
    /\ smart_crop_step smart_crop_enabled img0 bb wc = (Ok (img1, cropped), wd)
    /\ optimize_for_platform env img1 platform wd = (Ok img2, we)
    /\ sanitize_text cap = Ok caption
    /\ sanitize_text tags = Ok hashtags
    /\ registered_size platform = Ok size
    /\ (forall q, str_eqb q (original_path env format) = false ->
          files w' q
          = files (set_file (caption_path env platform ts)
                     (Some (TextFile (sidecar_text caption hashtags)))
                     (set_file
                        (path_join OUTPUT_FOLDER
                           (output_filename env platform format ts))
                        (Some (ImageFile img2 (output_params format))) we)) q)
    /\ r = {| pr_error := None;
              pr_platform := display_name platform;
              pr_size := size;
              pr_optimized_image :=
                Some (py "/media/optimized/"
                      ++ output_filename env platform format ts);
              pr_caption_text := caption;
              pr_hashtags := hashtags;
              pr_enhanced := false;
              pr_smart_cropped := cropped |}.
Proof.
  unfold pipeline_body. intros H.
  apply bind_lift_inv in H as (ts & Ets & H).
  apply bind_inv in H as (img0 & wa & Eopen & H).
  apply bind_inv in H as ([] & wb & Esave & H).
  pose proof (pil_save_inv _ _ _ _ _ _ Esave) as ->.
  assert (Sf : save_fault env img0 (original_path env format) no_params = None).
  { unfold pil_save in Esave. destruct (save_fault _ _ _ _); [discriminate | reflexivity]. }
  apply bind_inv in H as ([[cap bb] tags] & wc & Eloc & H).
  apply bind_inv in H as ([img1 cropped] & wd & Ecrop & H).
  apply bind_inv in H as (img2 & we & Eopt & H).
  apply bind_lift_inv in H as (caption & Ecap & H).
  apply bind_lift_inv in H as (hashtags & Etag & H).
  apply bind_inv in H as ([] & wf & Eout & H).
  pose proof (pil_save_inv _ _ _ _ _ _ Eout) as ->.
  apply bind_inv in H as ([] & wg & Etxt & H).
  pose proof (write_text_inv _ _ _ _ _ Etxt) as ->.
  apply bind_inv in H as (present & wh & Ex & H).
  apply bind_inv in H as ([] & wi & Erm & H).
  assert (Cl : bind (path_exists (original_path env format))
                 (fun present =>
                    if present
                    then try_except (os_remove env (original_path env format))
                           (fun _ => ret tt)
                    else ret tt)
                 (set_file (caption_path env platform ts)
                    (Some (TextFile (sidecar_text caption hashtags)))
                    (set_file
                       (path_join OUTPUT_FOLDER (output_filename env platform format ts))
                       (Some (ImageFile img2 (output_params format))) we))
               = (Ok tt, wi)).
  { unfold bind at 1. rewrite Ex. exact Erm. }
  apply cleanup_files in Cl as [_ Cl].
  apply bind_lift_inv in H as (size & Esz & H).
  unfold ret in H. injection H as <- <-.
  exists ts, img0, wa, cap, bb, tags, wc, img1, cropped, wd, img2, we,
    caption, hashtags, size.
  repeat (split; [assumption|]). reflexivity.
Qed.

(** The record of a run that failed. *)
Lemma process_image_complete_with_error w e w' :
  body w = (Raise e, w') -> call w = (Ok (error_record platform e), w').
Proof.
  intros H. unfold process_image_complete_with, try_except. now rewrite H.
Qed.

(** A record without an error comes from a body that returned it. *)
Lemma process_image_complete_with_success w r w' :
  call w = (Ok r, w') -> pr_error r = None -> body w = (Ok r, w').
Proof.
  unfold process_image_complete_with, try_except.
  destruct (body w) as [[r0|e] w0]; [tauto|].
  unfold ret. intros [= <- <-]. discriminate.
Qed.

(** ** C7 *)

(** C7. [process_image_complete] never raises: for any bytes and any
    platform it returns a success record or an error record; for bytes
    that do not decode, with a registered platform, it returns an error
    record whose message begins with "Processing failed: " and whose
    platform and size fields are the display name and the registered size
    of the requested platform. *)
Theorem process_image_complete_never_raises w :
  (exists r w',
     call w = (Ok r, w')
     /\ (pr_error r = None /\ pr_optimized_image r <> None
         \/ pr_error r <> None /\ pr_optimized_image r = None))
  /\ (forall e size,
        Image_open env image_bytes = Raise e ->
        dict_get SOCIAL_MEDIA_SIZES platform = Some size ->
        exists r msg,
          call w = (Ok r, w)
          /\ pr_error r = Some (py "Processing failed: " ++ msg)
          /\ pr_platform r = display_name platform
          /\ pr_size r = size
          /\ pr_optimized_image r = None).
Proof.
  split.
  - destruct (body w) as [[r|e] w'] eqn:B.
    + exists r, w'. split.
      * unfold process_image_complete_with, try_except. now rewrite B.
      * left. apply pipeline_body_inv in B.
        destruct B as (? & ? & ? & ? & ? & ? & ? & ? & ? & ? & ? & ? & ? & ? & ?
                       & B).
        decompose [and] B. subst r. cbn. split; [reflexivity | discriminate].
    + exists (error_record platform e), w'. split.
      * now apply process_image_complete_with_error.
      * right. cbn. split; [discriminate | reflexivity].
  - intros e size Hopen Hreg.
    assert (B : exists e', body w = (Raise e', w)).
    { unfold pipeline_body, bind at 1, lift at 1.
      destruct (rbind _ int_of_float) as [ts|e0]; [|eauto].
      unfold bind at 1, pil_open, bind at 1, lift at 1. rewrite Hopen. eauto. }
    destruct B as (e' & B).
    exists (error_record platform e'), (exn_msg e'). split.
    + now apply process_image_complete_with_error.
    + cbn [pr_error pr_platform pr_size pr_optimized_image error_record].
      rewrite Hreg. auto.
Qed.

(** ** C9 *)

(** C9. Called with a platform key that is not in the registry,
    [process_image_complete] still returns an error record and does not
    raise; the size field of the record is the placeholder (0, 0). *)
Theorem unregistered_platform_error_record w :
  dict_get SOCIAL_MEDIA_SIZES platform = None ->
  exists r w' msg,
    call w = (Ok r, w')
    /\ pr_error r = Some (py "Processing failed: " ++ msg)
    /\ pr_optimized_image r = None
    /\ pr_size r = (0, 0).
Proof.
  intros Hreg.
  destruct (body w) as [[r|e] w'] eqn:B.
  - apply pipeline_body_inv in B.
    destruct B as (? & ? & ? & ? & ? & ? & ? & ? & ? & ? & ? & ? & ? & ? & size
                   & B).
    decompose [and] B. unfold registered_size in *. rewrite Hreg in *. discriminate.
  - exists (error_record platform e), w', (exn_msg e). split.
    + now apply process_image_complete_with_error.
    + cbn [pr_error pr_platform pr_size pr_optimized_image error_record].
      rewrite Hreg. auto.
Qed.

(** ** C8 *)

(** C8, as amended.  After a successful run the caption sidecar holds
    exactly the caption, a blank line and the hashtags of the returned
    record; read back as first line / blank / remaining text it gives the
    caption and the hashtags of the record when the caption has no line
    break, and it does not when the caption has one. *)
Theorem sidecar_round_trip w r w' :
  call w = (Ok r, w') ->
  pr_error r = None ->
  exists ts,
    files w' (caption_path env platform ts)
    = Some (TextFile (sidecar_text (pr_caption_text r) (pr_hashtags r)))
    /\ (has_newline (pr_caption_text r) = false ->
        parse_sidecar (sidecar_text (pr_caption_text r) (pr_hashtags r))
        = Some (pr_caption_text r, pr_hashtags r))
    /\ (has_newline (pr_caption_text r) = true ->
        parse_sidecar (sidecar_text (pr_caption_text r) (pr_hashtags r))
        <> Some (pr_caption_text r, pr_hashtags r)).
Proof.
  intros H Herr.
  apply process_image_complete_with_success in H; [|exact Herr].
  apply pipeline_body_inv in H.
  destruct H as (ts & img0 & wa & cap & bb & tags & wc & img1 & cropped & wd
                 & img2 & we & caption & hashtags & size & H).
  destruct H as (_ & _ & _ & _ & _ & _ & _ & _ & Hsize & Hfiles & ->).
  cbn [pr_caption_text pr_hashtags].
  exists ts. split; [|split].
  - unfold registered_size in Hsize.
    destruct (dict_get SOCIAL_MEDIA_SIZES platform) as [sz|] eqn:R; [|discriminate].
    destruct (caption_path_head env platform ts sz R) as (rc & Ec).
    destruct (original_path_head env format) as (ro & Eo).
    rewrite Hfiles by (rewrite Ec, Eo; reflexivity).
    unfold set_file. cbn [files]. now rewrite str_eqb_refl.
  - apply parse_sidecar_round_trip.
  - intros Hn P. apply parse_sidecar_first_line in P. congruence.
Qed.

End Run.

(** ** C10 *)

Lemma locate_step_gemini_world env path AI_MODELS platform w t w' :
  locate_step (process_with_gemini env) path AI_MODELS platform w = (Ok t, w') ->
  w' = w.
Proof.
  unfold locate_step. destruct AI_MODELS as [m|]; [|now intros [= _ <-]].
  destruct (models_ready (Some m)); [|now intros [= _ <-]].
  unfold try_except.
  destruct (process_with_gemini_cases env path m platform w) as (t0 & -> & _).
  now intros [= _ <-].
Qed.




(* ================================================================== *)
(** * Part VIII: the theorems at concrete inputs *)
(* ================================================================== *)

(** ** Runs of the embedded functions *)

Example display_name_instagram_story :
  display_name (py "instagram_story") = py "Instagram Story".
Proof. reflexivity. Qed.

Example extract_json_fenced :
  extract_json (py "Here you go: ```json {} ``` bye") = Ok (py "{}")
  /\ extract_json (py "``` {} ```") = Ok (py "{}")
  /\ extract_json (py "  {}  ") = Ok (py "{}").
Proof. repeat split; reflexivity. Qed.

(** The three branches of lines 234-252 and the minimum-resolution step. *)
Example optimize_direct_resize :
  fst (optimize_for_platform demo_env (Image 0 (py "RGB") 2000 2000) (py "instagram")
         demo_world)
  = Ok (Image 1 (py "RGB") 1080 1080).
Proof. vm_compute. reflexivity. Qed.

Example optimize_wider_image :
  fst (optimize_for_platform demo_env demo_image (py "instagram") demo_world)
  = Ok (Image 2 (py "RGB") 1080 1080).
Proof. vm_compute. reflexivity. Qed.

Example optimize_taller_image :
  fst (optimize_for_platform demo_env (Image 0 (py "RGBA") 1080 1920) (py "twitter")
         demo_world)
  = Ok (Image 3 (py "RGB") 1600 900).
Proof. vm_compute. reflexivity. Qed.

Example optimize_small_image :
  fst (optimize_for_platform demo_env (Image 0 (py "RGB") 1 719) (py "linkedin")
         demo_world)
  = Ok (Image 3 (py "RGB") 1200 627).
Proof. vm_compute. reflexivity. Qed.

(** The clamp on integers, on a NaN and on an infinity. *)
Example validate_mixed_box :
  validate_bounding_box
    (JList [JFloat f0_25; JInt (-3); JInt 7; JFloat f0_75])
  = Ok [NFloat f0_25; NFloat f0; NFloat fone; NFloat f0_75]
  /\ validate_bounding_box
       (JList [JFloat S754_nan; JFloat f0_25; JFloat (S754_infinity true);
               JFloat f0_75])
     = Ok full_box.
Proof. split; reflexivity. Qed.

(** A window of lines 184-197 ([int(960 * 0.2)] is 192). *)
Example crop_window_centre :
  crop_window demo_image [NFloat f0_25; NFloat f0_25; NFloat f0_75; NFloat f0_75]
  = Ok (288, 162, 1632, 918).
Proof. vm_compute. reflexivity. Qed.

(** A reply that is not JSON gives the failure triple of line 167. *)
Example reply_prose_triple :
  fst (process_with_gemini demo_env demo_path (demo_models reply_prose)
         (py "pinterest") demo_world)
  = Ok (parse_failure_triple (py "pinterest")).
Proof. vm_compute. reflexivity. Qed.

(** ** C1 at a concrete image *)

Lemma optimize_for_platform_exact_size_witness :
  dict_get SOCIAL_MEDIA_SIZES (py "youtube_thumbnail") = Some (1280, 720)
  /\ exists img' w',
       optimize_for_platform demo_env demo_image (py "youtube_thumbnail")
         demo_world
       = (Ok img', w')
       /\ width img' = 1280 /\ height img' = 720.
Proof.
  split; [reflexivity|].
  apply (optimize_for_platform_exact_size demo_env demo_image
           (py "youtube_thumbnail") 1280 720 demo_world);
    [reflexivity | cbn; lia | cbn; lia | cbn; lia | cbn; lia
    | intros i size; reflexivity].
Defined.

(** An image of 1 by 3000000 pixels for Twitter, a registered platform:
    both sides are positive, and the call returns no image.  Line 241
    computes a height of 4800000000 for the resize of line 242, which is
    not a C [int]; the library raises, and line 257 raises again.  No
    fault of the environment is involved. *)
Lemma extreme_aspect_ratio_raises :
  dict_get SOCIAL_MEDIA_SIZES (py "twitter") = Some (1600, 900)
  /\ 0 < width tall_image /\ 0 < height tall_image
  /\ (forall i size, resize_fault demo_env i size = None)
  /\ rbind (rbind (int_truediv (width tall_image) (height tall_image))
              (int_div_float 1600)) int_of_float = Ok 4800000000
  /\ INT_MAX < 4800000000
  /\ (exists e w',
        optimize_for_platform demo_env tall_image (py "twitter") demo_world
        = (Raise e, w'))
  /\ ~ (exists img' w',
          optimize_for_platform demo_env tall_image (py "twitter") demo_world
          = (Ok img', w')
          /\ width img' = 1600 /\ height img' = 900).
Proof.
  assert (E : exists e,
            optimize_for_platform demo_env tall_image (py "twitter") demo_world
            = (Raise e, demo_world)) by (eexists; vm_compute; reflexivity).
  destruct E as (e & E).
  split; [reflexivity|]. split; [reflexivity|]. split; [reflexivity|].
  split; [intros i size; reflexivity|].
  split; [vm_compute; reflexivity|].
  split; [reflexivity|].
  split.
  - exists e, demo_world. exact E.
  - intros (img' & w' & H & _). rewrite E in H. discriminate.
Qed.

(** ** C3 at concrete replies *)

Lemma model_replies_demo reply platform :
  model_replies (demo_models reply) demo_path platform demo_world reply.
Proof.
  split; [reflexivity|].
  exists (ImageFile demo_image no_params),
    (fun _ _ => Ok (Response (Ok reply))), (Response (Ok reply)).
  repeat split; reflexivity.
Defined.

(** The reply [{}] is a JSON object without any of the three keys, and the
    call does not return the failure triple: it returns the caption "No
    caption generated.". *)
Lemma missing_keys_not_failure_triple :
  json_loads demo_env reply_empty_object = Ok (JDict [])
  /\ fst (process_with_gemini demo_env demo_path (demo_models reply_empty_object)
            (py "instagram") demo_world)
     = Ok (JStr (py "No caption generated."), full_box, JStr (py "#instagram"))
  /\ process_with_gemini demo_env demo_path (demo_models reply_empty_object)
       (py "instagram") demo_world
     <> (Ok (parse_failure_triple (py "instagram")), demo_world).
Proof.
  split; [reflexivity|]. split; [vm_compute; reflexivity|].
  intros H. apply (f_equal fst) in H. vm_compute in H. discriminate.
Qed.

Lemma reply_without_json_or_keys_witness :
  (process_with_gemini demo_env demo_path (demo_models reply_prose)
     (py "instagram") demo_world
   = (Ok (parse_failure_triple (py "instagram")), demo_world))
  /\ (process_with_gemini demo_env demo_path (demo_models reply_empty_object)
        (py "instagram") demo_world
      = (Ok (JStr (py "No caption generated."), full_box,
             JStr (py "#" ++ py "instagram")), demo_world)).
Proof.
  split.
  - apply (proj1 (reply_without_json_or_keys demo_env demo_path
                    (demo_models reply_prose) (py "instagram") demo_world
                    reply_prose reply_prose
                    (model_replies_demo reply_prose (py "instagram")) eq_refl)
             (Exn ValueError (py "Expecting value: line 1 column 1 (char 0)"))).
    reflexivity.
  - apply (proj2 (proj2 (proj2 (reply_without_json_or_keys demo_env demo_path
                    (demo_models reply_empty_object) (py "instagram") demo_world
                    reply_empty_object reply_empty_object
                    (model_replies_demo reply_empty_object (py "instagram"))
                    eq_refl)))).
    reflexivity.
Defined.

(** ** C4 at a concrete call *)

(** With no model loaded the hashtags of [process_with_gemini] are "#ai
    #image", not "#" and the platform key. *)
Lemma not_loaded_hashtags_not_platform :
  loaded models_not_loaded = false
  /\ fst (process_with_gemini demo_env demo_path models_not_loaded
            (py "instagram") demo_world)
     = Ok (JStr (py "No caption could be generated. Gemini model not loaded."),
           full_box, JStr (py "#ai #image"))
  /\ ~ (exists caption,
          process_with_gemini demo_env demo_path models_not_loaded
            (py "instagram") demo_world
          = (Ok (caption, full_box, JStr (py "#" ++ py "instagram")), demo_world)).
Proof.
  split; [reflexivity|]. split; [reflexivity|].
  intros (caption & H). apply (f_equal fst) in H. vm_compute in H. discriminate.
Qed.

Lemma not_loaded_triples_witness :
  loaded models_not_loaded = false
  /\ process_with_gemini demo_env demo_path models_not_loaded (py "instagram")
       demo_world
     = (Ok (JStr (py "No caption could be generated. Gemini model not loaded."),
            full_box, JStr (py "#ai #image")), demo_world)
  /\ locate_step (process_with_gemini demo_env) demo_path
       (Some models_not_loaded) (py "instagram") demo_world
     = (Ok (JStr (py "Image analysis not available. Gemini model not loaded."),
            full_box, JStr (py "#" ++ py "instagram")), demo_world).
Proof.
  split; [reflexivity|].
  destruct (not_loaded_triples demo_env demo_path models_not_loaded
              (py "instagram") demo_world eq_refl) as [H1 H2].
  split; [exact H1|].
  apply (H2 (process_with_gemini demo_env) (Some models_not_loaded)).
  reflexivity.
Defined.

(** ** C5 at a concrete run *)

(** With a locator that raises, the pipeline continues with its own
    triple, which is neither of the triples the locator returns on a
    failure of its own. *)
Lemma pipeline_fallback_not_locator_fallback :
  raising_locator demo_path (demo_models reply_empty_object) (py "twitter")
    demo_world
  = (Raise (Exn OtherException (py "locator fault")), demo_world)
  /\ locate_step raising_locator demo_path
       (Some (demo_models reply_empty_object)) (py "twitter") demo_world
     = (Ok (JStr (py "An image showing scenery or objects."), full_box,
            JStr (py "#twitter #photo #image")), demo_world)
  /\ (JStr (py "An image showing scenery or objects."), full_box,
      JStr (py "#twitter #photo #image"))
     <> parse_failure_triple (py "twitter")
  /\ (JStr (py "An image showing scenery or objects."), full_box,
      JStr (py "#twitter #photo #image"))
     <> failure_triple (py "twitter").
Proof.
  split; [reflexivity|]. split; [reflexivity|].
  split; intros H; vm_compute in H; discriminate.
Qed.

Lemma locator_fault_fallback_witness :
  models_ready (Some (demo_models reply_empty_object)) = true
  /\ locate_step raising_locator demo_path
       (Some (demo_models reply_empty_object)) (py "twitter") demo_world
     = (Ok (JStr (py "An image showing scenery or objects."), full_box,
            JStr (py "#" ++ py "twitter" ++ py " #photo #image")), demo_world).
Proof.
  split; [reflexivity|].
  apply (proj1 (proj2 (locator_fault_fallback raising_locator demo_env demo_blob
                         (py "twitter") (py "PNG") false false f0
                         (Some (demo_models reply_empty_object)) empty_world))
           demo_path (demo_models reply_empty_object)
           (Exn OtherException (py "locator fault")) demo_world demo_world);
    reflexivity.
Defined.

(** ** C6 at a concrete image *)

Lemma smart_crop_gemini_safe_witness :
  (exists img' w',
     smart_crop_gemini demo_image full_box demo_world = (Ok img', w')
     /\ width img' = 1920 /\ height img' = 1080)
  /\ smart_crop_gemini demo_image
       [NFloat f0_75; NFloat f0_25; NFloat f0_25; NFloat f0_75] demo_world
     = (Ok demo_image, demo_world).
Proof.
  split.
  - apply (proj2 (proj2 (smart_crop_gemini_safe demo_image demo_world)));
      cbn; lia.
  - apply (proj1 (proj2 (smart_crop_gemini_safe demo_image demo_world))
             [NFloat f0_75; NFloat f0_25; NFloat f0_25; NFloat f0_75]
             1632 162 288 918);
      [reflexivity | vm_compute; reflexivity | lia].
Defined.

(** ** C7 at a blob that does not decode *)

Lemma process_image_complete_never_raises_witness :
  Image_open demo_env [] = Raise (Exn OSError (py "cannot identify image file"))
  /\ exists r msg,
       process_image_complete demo_env [] (py "instagram_story") (py "JPEG")
         false false f0 None empty_world = (Ok r, empty_world)
       /\ pr_error r = Some (py "Processing failed: " ++ msg)
       /\ pr_platform r = py "Instagram Story"
       /\ pr_size r = (1080, 1920)
       /\ pr_optimized_image r = None.
Proof.
  split; [reflexivity|].
  apply (proj2 (process_image_complete_never_raises (process_with_gemini demo_env)
                  demo_env [] (py "instagram_story") (py "JPEG") false false f0
                  None empty_world)
           (Exn OSError (py "cannot identify image file")) (1080, 1920));
    reflexivity.
Defined.

(** ** C9 at a key that is not registered *)

Lemma unregistered_platform_error_record_witness :
  dict_get SOCIAL_MEDIA_SIZES (py "Instagram") = None
  /\ exists r w' msg,
       process_image_complete demo_env demo_blob (py "Instagram") (py "JPEG")
         false false f0 None empty_world = (Ok r, w')
       /\ pr_error r = Some (py "Processing failed: " ++ msg)
       /\ pr_optimized_image r = None
       /\ pr_size r = (0, 0).
Proof.
  split; [reflexivity|].
  apply (unregistered_platform_error_record (process_with_gemini demo_env)
           demo_env demo_blob (py "Instagram") (py "JPEG") false false f0 None
           empty_world).
  reflexivity.
Defined.

(** ** C8 at two concrete runs *)

(** A successful run whose caption has a line break: the sidecar holds the
    caption, a blank line and the hashtags, and does not read back as the
    caption and the hashtags of the record. *)
Lemma two_line_caption_not_read_back :
  run_two_lines = (Ok (record_of run_two_lines), snd run_two_lines)
  /\ pr_error (record_of run_two_lines) = None
  /\ pr_caption_text (record_of run_two_lines)
     = py "Golden hour." ++ [newline] ++ py "No filter."
  /\ pr_hashtags (record_of run_two_lines) = py "#sunset"
  /\ files (snd run_two_lines)
       (caption_path demo_env (py "instagram") demo_timestamp)
     = Some (TextFile (sidecar_text (pr_caption_text (record_of run_two_lines))
                         (pr_hashtags (record_of run_two_lines))))
  /\ parse_sidecar (sidecar_text (pr_caption_text (record_of run_two_lines))
                      (pr_hashtags (record_of run_two_lines)))
     <> Some (pr_caption_text (record_of run_two_lines),
              pr_hashtags (record_of run_two_lines)).
Proof.
  repeat split; try (vm_compute; reflexivity).
  intros H. vm_compute in H. discriminate.
Qed.

Lemma sidecar_round_trip_witness :
  run_empty_object = (Ok (record_of run_empty_object), snd run_empty_object)
  /\ pr_error (record_of run_empty_object) = None
  /\ has_newline (pr_caption_text (record_of run_empty_object)) = false
  /\ parse_sidecar (sidecar_text (pr_caption_text (record_of run_empty_object))
                      (pr_hashtags (record_of run_empty_object)))
     = Some (pr_caption_text (record_of run_empty_object),
             pr_hashtags (record_of run_empty_object)).
Proof.
  assert (E : run_empty_object
              = (Ok (record_of run_empty_object), snd run_empty_object))
    by (vm_compute; reflexivity).
  assert (N : pr_error (record_of run_empty_object) = None)
    by (vm_compute; reflexivity).
  assert (L : has_newline (pr_caption_text (record_of run_empty_object)) = false)
    by (vm_compute; reflexivity).
  split; [exact E|]. split; [exact N|]. split; [exact L|].
  destruct (sidecar_round_trip (process_with_gemini demo_env) demo_env demo_blob
              (py "instagram") (py "JPEG") true false f0
              (Some (demo_models reply_empty_object)) empty_world
              (record_of run_empty_object) (snd run_empty_object) E N)
    as (ts & _ & H & _).
  exact (H L).
Defined.

(** ** C10 at a concrete run *)


(* ================================================================== *)
(** * Part IX: further properties of [optimize_for_platform] *)
(* ================================================================== *)

Lemma pil_resize_inv env img size w img' w' :
  pil_resize env img size w = (Ok img', w') ->
  img' = Image (next_id w) (mode img) (fst size) (snd size)
  /\ w' = World (files w) (N.succ (next_id w)).
Proof.
  destruct size as [a b]. unfold pil_resize.
  destruct ((a =? width img) && (b =? height img));
    [unfold new_image; intros [= <- <-]; auto|].
  destruct (c_int_error a); [discriminate|].
  destruct (c_int_error b); [discriminate|].
  destruct ((a <? 1) || (b <? 1)); [discriminate|].
  destruct (resize_fault env img (a, b)); [discriminate|].
  unfold new_image. intros [= <- <-]. auto.
Qed.

(** [pil_resize] touches no file, whatever it ends with. *)
Lemma pil_resize_files env img size w r w' :
  pil_resize env img size w = (r, w') -> files w' = files w.
Proof.
  destruct size as [a b]. unfold pil_resize, raise, new_image.
  destruct ((a =? width img) && (b =? height img)); [now intros [= _ <-]|].
  destruct (c_int_error a); [now intros [= _ <-]|].
  destruct (c_int_error b); [now intros [= _ <-]|].
  destruct ((a <? 1) || (b <? 1)); [now intros [= _ <-]|].
  destruct (resize_fault env img (a, b)); now intros [= _ <-].
Qed.

Lemma pil_crop_inv img x0 y0 x1 y1 w img' w' :
  pil_crop img (x0, y0, x1, y1) w = (Ok img', w') ->
  img' = Image (next_id w) (mode img) (x1 - x0) (y1 - y0)
  /\ w' = World (files w) (N.succ (next_id w)).
Proof.
  unfold pil_crop. destruct (x1 <? x0); [discriminate|].
  destruct (y1 <? y0); [discriminate|].
  unfold new_image. intros [= <- <-]. auto.
Qed.

(** Whatever the image, a result of lines 223-254 has the target size and
    the mode of the input, is an object created by the call, and no file
    was touched. *)
Lemma fit_to_target_result env img tw th w img' w' :
  fit_to_target env img (tw, th) w = (Ok img', w') ->
  width img' = tw /\ height img' = th /\ mode img' = mode img
  /\ files w' = files w /\ (next_id w <= obj_id img')%N.
Proof.
  unfold fit_to_target. intros H.
  apply bind_lift_inv in H as (a & _ & H).
  apply bind_lift_inv in H as (ta & _ & H).
  apply bind_inv in H as (img1 & w1 & S1 & H).
  assert (I1 : mode img1 = mode img /\ files w1 = files w
               /\ (next_id w <= next_id w1)%N).
  { destruct (height img <? MIN_RESOLUTION_HEIGHT).
    - apply bind_lift_inv in S1 as (nw & _ & S1).
      apply pil_resize_inv in S1 as [-> ->]. cbn. repeat split; lia.
    - unfold ret in S1. injection S1 as <- <-. repeat split; lia. }
  destruct I1 as (M1 & F1 & N1).
  destruct (fgtb (fabs (fsub a ta)) f0_01).
  - apply bind_inv in H as (img2 & w2 & S2 & H).
    assert (I2 : mode img2 = mode img1 /\ files w2 = files w1
                 /\ (next_id w1 <= next_id w2)%N).
    { destruct (fgtb a ta);
        apply bind_lift_inv in S2 as (n & _ & S2);
        apply pil_resize_inv in S2 as [-> ->]; cbn; repeat split; lia. }
    destruct I2 as (M2 & F2 & N2).
    apply pil_crop_inv in H as [-> ->]. cbn.
    repeat split; try lia; congruence.
  - apply pil_resize_inv in H as [-> ->]. cbn.
    repeat split; try lia; congruence.
Qed.

Lemma fit_to_target_raise_files env img ts w e w' :
  fit_to_target env img ts w = (Raise e, w') -> files w' = files w.
Proof.
  destruct ts as [tw th]. unfold fit_to_target, bind, lift, ret.
  destruct (int_truediv (width img) (height img)) as [a|]; [|now intros [= _ <-]].
  destruct (int_truediv tw th) as [ta|]; [|now intros [= _ <-]].
  assert (P : forall i sz w0 r w1,
             pil_resize env i sz w0 = (r, w1) -> files w1 = files w0)
    by (intros i sz w0 r w1; apply pil_resize_files).
  assert (Q : forall i bx w0 r w1, pil_crop i bx w0 = (r, w1) -> files w1 = files w0).
  { intros i [[[x0 y0] x1] y1] w0 r w1. unfold pil_crop, raise, new_image.
    destruct (x1 <? x0); [now intros [= _ <-]|].
    destruct (y1 <? y0); now intros [= _ <-]. }
  destruct (height img <? MIN_RESOLUTION_HEIGHT).
  - destruct (rbind _ int_of_float) as [nw|]; [|now intros [= _ <-]].
    destruct (pil_resize env img (nw, MIN_RESOLUTION_HEIGHT) w) as [[img1|e1] w1] eqn:R1;
      [|intros [= _ <-]; eapply P; eassumption].
    apply P in R1.
    destruct (fgtb (fabs (fsub a ta)) f0_01).
    + destruct (fgtb a ta).
      * destruct (rbind _ int_of_float) as [n2|]; [|intros [= _ <-]; exact R1].
        destruct (pil_resize env img1 _ w1) as [[img2|e2] w2] eqn:R2;
          [|intros [= _ <-]; apply P in R2; congruence].
        apply P in R2. intros H. apply Q in H. congruence.
      * destruct (rbind _ int_of_float) as [n2|]; [|intros [= _ <-]; exact R1].
        destruct (pil_resize env img1 _ w1) as [[img2|e2] w2] eqn:R2;
          [|intros [= _ <-]; apply P in R2; congruence].
        apply P in R2. intros H. apply Q in H. congruence.
    + intros H. apply P in H. congruence.
  - destruct (fgtb (fabs (fsub a ta)) f0_01).
    + destruct (fgtb a ta).
      * destruct (rbind _ int_of_float) as [n2|]; [|now intros [= _ <-]].
        destruct (pil_resize env img _ w) as [[img2|e2] w2] eqn:R2;
          [|intros [= _ <-]; now apply P in R2].
        apply P in R2. intros H. apply Q in H. congruence.
      * destruct (rbind _ int_of_float) as [n2|]; [|now intros [= _ <-]].
        destruct (pil_resize env img _ w) as [[img2|e2] w2] eqn:R2;
          [|intros [= _ <-]; now apply P in R2].
        apply P in R2. intros H. apply Q in H. congruence.
    + intros H. now apply P in H.
Qed.

(** What a call of [optimize_for_platform] that returns has done. *)
Lemma optimize_for_platform_inv env img platform w img' w' :
  optimize_for_platform env img platform w = (Ok img', w') ->
  exists tw th,
    dict_get SOCIAL_MEDIA_SIZES (lower platform) = Some (tw, th)
    /\ width img' = tw /\ height img' = th
    /\ mode img' = (if needs_rgb (mode img) then py "RGB" else mode img)
    /\ files w' = files w
    /\ (next_id w <= obj_id img')%N.
Proof.
  unfold optimize_for_platform, try_except.
  destruct (dict_get SOCIAL_MEDIA_SIZES (lower platform)) as [[tw th]|].
  2:{ unfold raise. discriminate. }
  destruct (bind _ _ w) as [[i|e] w1] eqn:B; [|unfold raise; discriminate].
  intros [= <- <-]. exists tw, th. split; [reflexivity|].
  apply bind_inv in B as (img0 & w0 & C & F).
  apply fit_to_target_result in F as (Wd & Ht & Md & Fl & Id).
  destruct (needs_rgb (mode img)).
  - unfold pil_convert, new_image in C. injection C as <- <-.
    cbn in *. repeat split; try assumption; try lia.
  - unfold ret in C. injection C as <- <-. repeat split; assumption.
Qed.

(** X1. For a platform name in ASCII, [optimize_for_platform] returns an
    image only if the lower-case form of the name is a key of the
    registry; the image then has exactly the registered size, is in mode
    RGB when the input was RGBA or P and in the mode of the input
    otherwise, and is an object created by the call; no file is touched.
    For any other ASCII name the call raises [ValueError] with the message
    "Unsupported platform: " and the name as given, and creates no
    object. *)
Theorem optimize_for_platform_result env img platform w :
  is_ascii platform = true ->
  (forall img' w',
     optimize_for_platform env img platform w = (Ok img', w') ->
     exists tw th,
       dict_get SOCIAL_MEDIA_SIZES (lower platform) = Some (tw, th)
       /\ width img' = tw /\ height img' = th
       /\ mode img' = (if needs_rgb (mode img) then py "RGB" else mode img)
       /\ files w' = files w
       /\ (next_id w <= obj_id img')%N)
  /\ (dict_get SOCIAL_MEDIA_SIZES (lower platform) = None ->
      optimize_for_platform env img platform w
      = (Raise (Exn ValueError (py "Unsupported platform: " ++ platform)), w)).
Proof.
  intros _. split.
  - intros img' w'. apply optimize_for_platform_inv.
  - intros H. unfold optimize_for_platform, try_except. rewrite H. reflexivity.
Qed.

(** The aspect ratio of a registered size is above the tolerance 0.01. *)
Lemma tolerance_below_target mt et :
  -54 <= et -> fgtb (S754_finite false mt et) f0_01 = true.
Proof.
  intros H. unfold fgtb, f0_01, SFltb, SFcompare.
  destruct (Z.compare_spec (-59) et); try lia; reflexivity.
Qed.

(** X2. An image without area is refused: on a registered platform,
    [optimize_for_platform] raises for an image of height 0 (the division
    of the sides raises [ZeroDivisionError]) and for an image of width 0,
    and returns no image. *)
Theorem optimize_for_platform_zero_area env img platform tw th w :
  dict_get SOCIAL_MEDIA_SIZES platform = Some (tw, th) ->
  0 <= height img ->
  (height img = 0 ->
   exists w',
     optimize_for_platform env img platform w
     = (Raise (Exn ZeroDivisionError (py "division by zero")), w'))
  /\ (width img = 0 ->
      exists e w', optimize_for_platform env img platform w = (Raise e, w')).
Proof.
  intros Hreg Hh.
  destruct (registry_entry _ _ _ Hreg) as (Hl & Htw & Hth).
  assert (Z0 : forall i w0, height i = 0 ->
            fit_to_target env i (tw, th) w0
            = (Raise (Exn ZeroDivisionError (py "division by zero")), w0)).
  { intros i w0 E. unfold fit_to_target, int_truediv. rewrite E. reflexivity. }
  assert (W0 : forall i w0, width i = 0 -> 0 <= height i ->
            exists e w1, fit_to_target env i (tw, th) w0 = (Raise e, w1)).
  { intros i w0 E Hi.
    destruct (Z.eq_dec (height i) 0) as [E0|N0]; [rewrite Z0 by assumption; eauto|].
    destruct (target_aspect_exp tw th Htw Hth) as (mt & et & Et & Het).
    unfold fit_to_target.
    assert (Ea : int_truediv (width i) (height i) = Ok f0).
    { unfold int_truediv. rewrite E.
      replace (height i =? 0) with false by (symmetry; apply Z.eqb_neq; lia).
      destruct (height i) as [|p|p]; try lia. reflexivity. }
    rewrite (bind_lift_ok _ _ _ _ Ea), (bind_lift_ok _ _ _ _ Et).
    destruct (height i <? MIN_RESOLUTION_HEIGHT) eqn:Emin.
    - assert (En : rbind (int_mul_float MIN_RESOLUTION_HEIGHT f0) int_of_float = Ok 0)
        by reflexivity.
      unfold bind at 1. rewrite (bind_lift_ok _ _ _ _ En).
      apply Z.ltb_lt in Emin.
      unfold pil_resize.
      replace (MIN_RESOLUTION_HEIGHT =? height i) with false
        by (symmetry; apply Z.eqb_neq; lia).
      rewrite andb_false_r.
      change (c_int_error 0) with (@None exn).
      change (c_int_error MIN_RESOLUTION_HEIGHT) with (@None exn).
      cbv iota. cbn [Z.ltb Z.compare orb]. unfold raise. eauto.
    - rewrite bind_ret.
      change (fabs (fsub f0 (S754_finite false mt et))) with (S754_finite false mt et).
      rewrite tolerance_below_target by lia.
      change (fgtb f0 (S754_finite false mt et)) with false. cbv iota.
      unfold int_div_float.
      destruct (float_of_int_side tw Htw) as (m & e & -> & _).
      cbn [rbind is_zero f0]. unfold bind, lift. eauto. }
  unfold optimize_for_platform, try_except. rewrite Hl, Hreg.
  split; intros E.
  - destruct (needs_rgb (mode img)).
    + cbv beta iota delta [bind new_image pil_convert]. rewrite Z0 by exact E.
      unfold raise. eauto.
    + rewrite bind_ret. rewrite Z0 by exact E. unfold raise. eauto.
  - destruct (needs_rgb (mode img)).
    + cbv beta iota delta [bind new_image pil_convert].
      destruct (W0 (Image (next_id w) (py "RGB") (width img) (height img))
                  (World (files w) (N.succ (next_id w))) E Hh) as (e & w1 & ->).
      unfold raise. eauto.
    + rewrite bind_ret. destruct (W0 img w E Hh) as (e & w1 & ->).
      unfold raise. eauto.
Qed.

Lemma optimize_for_platform_result_witness :
  is_ascii (py "TikTok") = true
  /\ optimize_for_platform demo_env demo_image (py "TikTok") demo_world
     = (Raise (Exn ValueError (py "Unsupported platform: " ++ py "TikTok")),
        demo_world).
Proof.
  split; [reflexivity|].
  apply (proj2 (optimize_for_platform_result demo_env demo_image (py "TikTok")
                  demo_world eq_refl)).
  reflexivity.
Defined.

Lemma optimize_for_platform_zero_area_witness :
  exists w',
    optimize_for_platform demo_env flat_image (py "instagram") demo_world
    = (Raise (Exn ZeroDivisionError (py "division by zero")), w').
Proof.
  apply (proj1 (optimize_for_platform_zero_area demo_env flat_image
                  (py "instagram")
                  1080 1080 demo_world eq_refl (Z.le_refl 0))).
  reflexivity.
Defined.

(* ================================================================== *)
(** * Part X: further properties of [smart_crop_gemini] *)
(* ================================================================== *)

Lemma rbind_inv {A B : Type} (r : res A) (f : A -> res B) b :
  rbind r f = Ok b -> exists a, r = Ok a /\ f a = Ok b.
Proof. destruct r as [a|e]; [eauto | discriminate]. Qed.

(** The window of lines 194-197 lies inside the image. *)
Lemma crop_window_inside img bb x1 y1 x2 y2 :
  crop_window img bb = Ok (x1, y1, x2, y2) ->
  0 <= x1 /\ 0 <= y1 /\ x2 <= width img /\ y2 <= height img.
Proof.
  unfold crop_window. intros H.
  repeat (apply rbind_inv in H as (? & _ & H)).
  injection H as <- <- <- <-. lia.
Qed.

(** X3. Whatever the bounding box, [smart_crop_gemini] returns either the
    very image object it was given, leaving the world as it is, or a
    newly created image that is not empty and not larger than the input
    in either direction; it never touches a file.  For an input in one of
    the modes L, LA, P, RGB, RGBA and CMYK, the new image is in the mode
    the array of the input comes back in: L for P, RGBA for CMYK, and the
    mode of the input for the other four. *)
Theorem smart_crop_gemini_result img bounding_box w img' w' :
  smart_crop_gemini img bounding_box w = (Ok img', w') ->
  (img' = img /\ w' = w)
  \/ (obj_id img' = next_id w
      /\ 0 < width img' <= width img /\ 0 < height img' <= height img
      /\ (In (mode img) common_modes ->
          mode img'
          = if str_eqb (mode img) (py "P") then py "L"
            else if str_eqb (mode img) (py "CMYK") then py "RGBA"
            else mode img)
      /\ files w' = files w /\ next_id w' = N.succ (next_id w)).
Proof.
  unfold smart_crop_gemini, try_except.
  destruct (_ || _); [unfold ret; intros [= <- <-]; auto|].
  unfold bind, lift.
  destruct (crop_window img bounding_box) as [[[[x1 y1] x2] y2]|e] eqn:C;
    [|unfold ret; intros [= <- <-]; auto].
  destruct (invalid_window (x1, y1, x2, y2)) eqn:V;
    [unfold ret; intros [= <- <-]; auto|].
  unfold pil_fromarray_slice, new_image. intros [= <- <-]. right.
  apply crop_window_inside in C.
  assert (NV : ~ (x1 >= x2 \/ y1 >= y2 \/ x2 <= 0 \/ y2 <= 0)).
  { intros D. apply invalid_window_spec in D. congruence. }
  cbn [obj_id width height mode files next_id].
  split; [reflexivity|]. split; [lia|]. split; [lia|].
  split; [|split; reflexivity].
  intros [<- | [<- | [<- | [<- | [<- | [<- | []]]]]]]; reflexivity.
Qed.

(** A coordinate that is a NaN or an infinity cannot be turned into a
    pixel position. *)
Lemma nonfinite_coordinate_raises x n :
  nonfinite x = true ->
  exists e, rbind (num_mul_int x n) int_of_num = Raise e.
Proof.
  destruct x as [z|[s|s| |s m e]]; try discriminate; intros _;
    unfold num_mul_int, float_mul_int;
    destruct (float_of_int n) as [[t|t| |t m e]|e0]; cbn; eauto.
Qed.

Lemma crop_window_nonfinite img bb :
  List.length bb = 4%nat -> existsb nonfinite bb = true ->
  exists e, crop_window img bb = Raise e.
Proof.
  intros L N.
  destruct bb as [|b0 [|b1 [|b2 [|b3 [|]]]]]; try discriminate.
  unfold crop_window. cbn [index nth_error rbind].
  cbn [existsb] in N.
  destruct (nonfinite b0) eqn:N0;
    [destruct (nonfinite_coordinate_raises b0 (width img) N0) as (e & ->); cbn; eauto|].
  destruct (rbind (num_mul_int b0 (width img)) int_of_num); cbn [rbind]; [|eauto].
  destruct (nonfinite b1) eqn:N1;
    [destruct (nonfinite_coordinate_raises b1 (height img) N1) as (e & ->); cbn; eauto|].
  destruct (rbind (num_mul_int b1 (height img)) int_of_num); cbn [rbind]; [|eauto].
  destruct (nonfinite b2) eqn:N2;
    [destruct (nonfinite_coordinate_raises b2 (width img) N2) as (e & ->); cbn; eauto|].
  destruct (rbind (num_mul_int b2 (width img)) int_of_num); cbn [rbind]; [|eauto].
  destruct (nonfinite b3) eqn:N3; [|discriminate].
  destruct (nonfinite_coordinate_raises b3 (height img) N3) as (e & ->); cbn; eauto.
Qed.

(** X4. A bounding box of four numbers one of which is a NaN or an
    infinity is not applied: [smart_crop_gemini] returns the image object
    it was given and leaves the world as it is. *)
Theorem smart_crop_gemini_nonfinite img bounding_box w :
  List.length bounding_box = 4%nat ->
  existsb nonfinite bounding_box = true ->
  smart_crop_gemini img bounding_box w = (Ok img, w).
Proof.
  intros L N. unfold smart_crop_gemini, try_except.
  destruct bounding_box as [|b0 bb]; [discriminate|].
  rewrite L. cbn [Nat.eqb negb orb].
  destruct (crop_window_nonfinite img (b0 :: bb) L N) as (e & C).
  rewrite (bind_lift_raise _ _ _ _ C). reflexivity.
Qed.

Lemma smart_crop_gemini_result_witness :
  (Image 1 (py "RGB") 1344 756 = demo_image
   /\ World (files demo_world) 2 = demo_world)
  \/ (obj_id (Image 1 (py "RGB") 1344 756) = next_id demo_world
      /\ 0 < width (Image 1 (py "RGB") 1344 756) <= width demo_image
      /\ 0 < height (Image 1 (py "RGB") 1344 756) <= height demo_image
      /\ (In (mode demo_image) common_modes ->
          mode (Image 1 (py "RGB") 1344 756)
          = if str_eqb (mode demo_image) (py "P") then py "L"
            else if str_eqb (mode demo_image) (py "CMYK") then py "RGBA"
            else mode demo_image)
      /\ files (World (files demo_world) 2) = files demo_world
      /\ next_id (World (files demo_world) 2) = N.succ (next_id demo_world)).
Proof.
  apply (smart_crop_gemini_result demo_image
           [NFloat f0_25; NFloat f0_25; NFloat f0_75; NFloat f0_75] demo_world
           (Image 1 (py "RGB") 1344 756) (World (files demo_world) 2)).
  vm_compute. reflexivity.
Defined.

Lemma smart_crop_gemini_nonfinite_witness :
  smart_crop_gemini demo_image
    [NFloat f0; NFloat S754_nan; NFloat fone; NFloat (S754_infinity false)]
    demo_world
  = (Ok demo_image, demo_world).
Proof.
  apply (smart_crop_gemini_nonfinite demo_image
           [NFloat f0; NFloat S754_nan; NFloat fone; NFloat (S754_infinity false)]
           demo_world); reflexivity.
Defined.

(* ================================================================== *)
(** * Part XI: further properties of [process_with_gemini] *)
(* ================================================================== *)

(** ** Failures before the reply can be read *)

(** X5. With a loaded model, a failure before the text of the reply is in
    hand ends in the triple of line 170, whose caption is "Image analysis
    failed.", and not in the triple of line 167: when the image file is
    missing, when the dictionary has no "gemini" entry, when
    [generate_content] raises, and when reading [response.text] raises.
    The world is left as it is. *)
Theorem process_with_gemini_transport_failure env path m platform w :
  loaded m = true ->
  (files w path = None ->
   process_with_gemini env path m platform w = (Ok (failure_triple platform), w))
  /\ (forall f, files w path = Some f -> gemini m = None ->
      process_with_gemini env path m platform w
      = (Ok (failure_triple platform), w))
  /\ (forall f g e,
        files w path = Some f -> gemini m = Some g ->
        g (request_text platform) f = Raise e ->
        process_with_gemini env path m platform w
        = (Ok (failure_triple platform), w))
  /\ (forall f g r e,
        files w path = Some f -> gemini m = Some g ->
        g (request_text platform) f = Ok r -> text r = Raise e ->
        process_with_gemini env path m platform w
        = (Ok (failure_triple platform), w)).
Proof.
  intros L. unfold process_with_gemini, try_except. rewrite L. cbn [negb].
  fold (request_text platform).
  repeat split.
  - intros F. unfold bind at 1. unfold read_file. now rewrite F.
  - intros f F G. unfold bind at 1. unfold read_file. rewrite F.
    unfold bind at 1. unfold lift at 1. now rewrite G.
  - intros f g e F G R. unfold bind at 1. unfold read_file. rewrite F.
    unfold bind at 1. unfold lift at 1. rewrite G.
    unfold bind at 1. unfold lift at 1. now rewrite R.
  - intros f g r e F G R T. unfold bind at 1. unfold read_file. rewrite F.
    unfold bind at 1. unfold lift at 1. rewrite G.
    unfold bind at 1. unfold lift at 1. rewrite R.
    unfold lift at 1. unfold parse_response. rewrite T. reflexivity.
Qed.

(** ** The shape of the bounding box *)

Lemma clamp_box_not_numbers l :
  List.length l = 4%nat -> forallb is_number l = false ->
  exists e, clamp_box l = Raise e.
Proof.
  intros L N.
  destruct l as [|a [|b [|c [|d [|]]]]]; try discriminate.
  unfold clamp_box, clamp01. cbn [index nth_error rbind].
  cbn [forallb] in N. unfold is_number in N.
  destruct (num_of_json a); cbn [rbind]; [|eauto].
  destruct (num_of_json b); cbn [rbind]; [|eauto].
  destruct (num_of_json c); cbn [rbind]; [|eauto].
  destruct (num_of_json d); cbn [rbind]; [discriminate | eauto].
Qed.

(** X6. A reply that is a JSON object: when its bounding box is a list of
    four elements one of which is not a number, the whole reply is
    dropped, caption and hashtags included, and the parse-failure triple
    is returned; when its bounding box is not a list of four elements, the
    box is replaced by the full-image region and the caption and the
    hashtags of the reply are kept. *)
Theorem bounding_box_shape env path m platform w txt js d box :
  model_replies m path platform w txt ->
  extract_json txt = Ok js ->
  json_loads env js = Ok (JDict d) ->
  dict_get d (py "bounding_box") = Some box ->
  (forall l, box = JList l -> List.length l = 4%nat ->
             forallb is_number l = false ->
     process_with_gemini env path m platform w
     = (Ok (parse_failure_triple platform), w))
  /\ (check_box_format box = full_box_json ->
      process_with_gemini env path m platform w
      = (Ok (match dict_get d (py "caption") with
             | Some v => v
             | None => JStr (py "No caption generated.")
             end,
             full_box,
             match dict_get d (py "hashtags") with
             | Some v => v
             | None => JStr (py "#" ++ platform)
             end), w)).
Proof.
  intros R X J B. rewrite (process_with_gemini_reply _ _ _ _ _ _ R).
  unfold parse_text. rewrite X. cbn [rbind]. rewrite J. cbn [rbind json_get].
  rewrite B. split.
  - intros l -> L N. unfold validate_bounding_box.
    cbn [check_box_format]. rewrite L. cbn [Nat.eqb].
    destruct (clamp_box_not_numbers l L N) as (e & ->). reflexivity.
  - intros C. unfold validate_bounding_box. rewrite C. reflexivity.
Qed.

(** ** Boxes that are already valid *)

Lemma num_ltb_not_leb x y : num_ltb x y = true -> num_leb y x = false.
Proof.
  unfold num_ltb, num_leb.
  rewrite (value_compare_antisym (float_of_num x) (float_of_num y)).
  destruct (value_compare (float_of_num x) (float_of_num y)) as [[| |]|];
    cbn; congruence.
Qed.

Lemma clamp_num_inside x :
  num_ltb (NFloat f0) x = true -> num_ltb x (NFloat fone) = true ->
  clamp_num x = x.
Proof.
  intros H0 H1. unfold clamp_num, py_max, py_min, num_gtb. now rewrite H1, H0.
Qed.

(** X7. The validation of lines 147-161 changes nothing in a box that is
    already a focus region: four numbers strictly between 0 and 1, or
    equal to the floats 0.0 and 1.0, with [x2 > x1] and [y2 > y1], come
    back as they are. *)
Theorem validate_bounding_box_fixpoint a b c d :
  (forall x, In x [a; b; c; d] ->
     x = NFloat f0 \/ x = NFloat fone
     \/ (num_ltb (NFloat f0) x = true /\ num_ltb x (NFloat fone) = true)) ->
  num_gtb c a = true -> num_gtb d b = true ->
  validate_bounding_box
    (JList [json_of_num a; json_of_num b; json_of_num c; json_of_num d])
  = Ok [a; b; c; d].
Proof.
  intros H Hx Hy.
  assert (C : forall x, In x [a; b; c; d] -> clamp_num x = x).
  { intros x Hin. destruct (H x Hin) as [-> | [-> | [H0 H1]]];
      [reflexivity | reflexivity | now apply clamp_num_inside]. }
  unfold validate_bounding_box, clamp_box.
  cbn [check_box_format List.length Nat.eqb index nth_error rbind].
  rewrite !clamp01_json_of_num. cbn [rbind].
  rewrite (C a), (C b), (C c), (C d) by (cbn; auto).
  unfold fix_degenerate, degenerate_box.
  unfold num_gtb in Hx, Hy.
  rewrite (num_ltb_not_leb _ _ Hx), (num_ltb_not_leb _ _ Hy). reflexivity.
Qed.

Lemma process_with_gemini_transport_failure_witness :
  process_with_gemini demo_env demo_path (demo_models reply_prose)
    (py "twitter") empty_world
  = (Ok (failure_triple (py "twitter")), empty_world)
  /\ process_with_gemini demo_env demo_path models_without_handle
       (py "twitter") demo_world
     = (Ok (failure_triple (py "twitter")), demo_world).
Proof.
  split.
  - apply (proj1 (process_with_gemini_transport_failure demo_env demo_path
                    (demo_models reply_prose) (py "twitter") empty_world
                    eq_refl)).
    reflexivity.
  - apply (proj1 (proj2 (process_with_gemini_transport_failure demo_env
                           demo_path models_without_handle (py "twitter")
                           demo_world eq_refl))
             (ImageFile demo_image no_params)); reflexivity.
Defined.

Lemma bounding_box_shape_witness :
  process_with_gemini
    (env_decoding
       (JDict (object_with_box (JList [JStr (py "left"); JInt 0; JInt 1; JInt 1]))))
    demo_path (demo_models reply_empty_object) (py "twitter") demo_world
  = (Ok (parse_failure_triple (py "twitter")), demo_world)
  /\ process_with_gemini
       (env_decoding (JDict (object_with_box (JStr (py "none")))))
       demo_path (demo_models reply_empty_object) (py "twitter") demo_world
     = (Ok (JStr (py "A quiet harbour."), full_box, JStr (py "#harbour")),
        demo_world).
Proof.
  split.
  - apply (proj1 (bounding_box_shape
                    (env_decoding
                       (JDict (object_with_box
                                 (JList [JStr (py "left"); JInt 0; JInt 1; JInt 1]))))
                    demo_path (demo_models reply_empty_object) (py "twitter")
                    demo_world reply_empty_object reply_empty_object
                    (object_with_box
                       (JList [JStr (py "left"); JInt 0; JInt 1; JInt 1]))
                    (JList [JStr (py "left"); JInt 0; JInt 1; JInt 1])
                    (model_replies_demo reply_empty_object (py "twitter"))
                    eq_refl eq_refl eq_refl)
             [JStr (py "left"); JInt 0; JInt 1; JInt 1]); reflexivity.
  - apply (proj2 (bounding_box_shape
                    (env_decoding (JDict (object_with_box (JStr (py "none")))))
                    demo_path (demo_models reply_empty_object) (py "twitter")
                    demo_world reply_empty_object reply_empty_object
                    (object_with_box (JStr (py "none")))
                    (JStr (py "none"))
                    (model_replies_demo reply_empty_object (py "twitter"))
                    eq_refl eq_refl eq_refl)).
    reflexivity.
Defined.

Lemma validate_bounding_box_fixpoint_witness :
  validate_bounding_box
    (JList [json_of_num (NFloat f0); json_of_num (NFloat f0_25);
            json_of_num (NFloat f0_75); json_of_num (NFloat fone)])
  = Ok [NFloat f0; NFloat f0_25; NFloat f0_75; NFloat fone].
Proof.
  apply (validate_bounding_box_fixpoint (NFloat f0) (NFloat f0_25)
           (NFloat f0_75) (NFloat fone)).
  - intros x [<- | [<- | [<- | [<- | []]]]].
    + left. reflexivity.
    + right. right. split; reflexivity.
    + right. right. split; reflexivity.
    + right. left. reflexivity.
  - reflexivity.
  - reflexivity.
Defined.

(* ================================================================== *)
(** * Part XII: fenced replies *)
(* ================================================================== *)

Lemma startswith_app sub b : startswith sub (sub ++ b) = true.
Proof.
  induction sub as [|c sub IH]; [reflexivity|]. cbn. now rewrite N.eqb_refl.
Qed.

Lemma contains_start sub s : startswith sub s = true -> contains sub s = true.
Proof.
  destruct s; cbn [contains]; intros ->; reflexivity.
Qed.

Lemma contains_app sub a b : contains sub (a ++ sub ++ b) = true.
Proof.
  induction a as [|c a IH].
  - cbn [app]. apply contains_start, startswith_app.
  - cbn [app contains]. rewrite IH. apply orb_true_r.
Qed.

(** A separator that begins with a backtick does not match inside a text
    without backticks. *)
Lemma split_aux_no_backtick sep' a s cur :
  no_backtick a = true ->
  split_aux (backtick :: sep') (a ++ s) O cur
  = split_aux (backtick :: sep') s O (rev a ++ cur).
Proof.
  revert cur. induction a as [|c a IH]; intros cur H; [reflexivity|].
  cbn [no_backtick forallb] in H. apply andb_true_iff in H as [Hc Ha].
  cbn [app split_aux startswith].
  rewrite N.eqb_sym. apply negb_true_iff in Hc. rewrite Hc. cbn [andb].
  rewrite (IH _ Ha). cbn [rev]. now rewrite <- app_assoc.
Qed.

Lemma split_aux_no_backtick_end sep' a cur :
  no_backtick a = true ->
  split_aux (backtick :: sep') a O cur = [rev (rev a ++ cur)].
Proof.
  intros H. rewrite <- (app_nil_r a) at 1.
  now rewrite split_aux_no_backtick.
Qed.

(** The first piece of a split begins with what was collected so far. *)
Lemma split_aux_first sep s skip cur :
  exists z, nth_error (split_aux sep s skip cur) 0 = Some (rev cur ++ z).
Proof.
  revert skip cur. induction s as [|c s IH]; intros skip cur.
  - exists []. cbn. now rewrite app_nil_r.
  - cbn [split_aux]. destruct skip as [|k]; [|apply IH].
    destruct (startswith sep (c :: s)).
    + exists []. cbn. now rewrite app_nil_r.
    + destruct (IH O (c :: cur)) as (z & E). exists (c :: z).
      rewrite E. cbn [rev]. now rewrite <- app_assoc.
Qed.

Lemma split_aux_skip sep a r cur :
  split_aux sep (a ++ r) (List.length a) cur = split_aux sep r O cur.
Proof.
  induction a as [|c a IH]; [reflexivity|]. cbn [app List.length split_aux].
  exact IH.
Qed.

(** At a separator the current piece is closed and the separator dropped. *)
Lemma split_aux_sep c sep' r cur :
  split_aux (c :: sep') ((c :: sep') ++ r) O cur
  = rev cur :: split_aux (c :: sep') r O [].
Proof.
  cbn [app split_aux]. change (c :: sep' ++ r) with ((c :: sep') ++ r).
  rewrite startswith_app. cbn [List.length Nat.sub].
  rewrite Nat.sub_0_r. now rewrite split_aux_skip.
Qed.

Lemma fence_cons : fence = backtick :: [backtick; backtick].
Proof. reflexivity. Qed.

Lemma fence_json_cons :
  fence_json = backtick :: [backtick; backtick; 106%N; 115%N; 111%N; 110%N].
Proof. reflexivity. Qed.

(** The text in front of the first bare fence. *)
Lemma split_fence_first body rest :
  no_backtick body = true ->
  index (split fence (body ++ fence ++ rest)) 0 = Ok body.
Proof.
  intros H. unfold split. rewrite fence_cons.
  rewrite split_aux_no_backtick by exact H.
  rewrite split_aux_sep.
  unfold index. cbn [nth_error]. now rewrite app_nil_r, rev_involutive.
Qed.

Lemma split_fence_none body :
  no_backtick body = true -> index (split fence body) 0 = Ok body.
Proof.
  intros H. unfold split. rewrite fence_cons.
  rewrite split_aux_no_backtick_end by exact H.
  unfold index. cbn [nth_error]. now rewrite app_nil_r, rev_involutive.
Qed.

(** A fence that no fourth backtick follows is not the start of a fence
    labelled json unless the label follows; either way the piece that
    starts at [body] is [body], followed by nothing or by a bare fence. *)
Lemma split_json_piece body post :
  no_backtick body = true ->
  no_leading_backtick post = true ->
  exists z,
    nth_error (split_aux fence_json (body ++ fence ++ post) O []) 0
    = Some (body ++ z)
    /\ (z = [] \/ exists z', z = fence ++ z').
Proof.
  intros Hbody Hpost. rewrite fence_json_cons.
  rewrite split_aux_no_backtick by exact Hbody. rewrite app_nil_r.
  rewrite <- fence_json_cons.
  destruct (startswith fence_json (fence ++ post)) eqn:M0.
  - exists []. split; [|auto].
    rewrite fence_cons in *. cbn [app] in *. cbn [split_aux]. rewrite M0.
    cbn [nth_error]. now rewrite rev_involutive, app_nil_r.
  - assert (M : forall p, p = [backtick; backtick] \/ p = [backtick] ->
                startswith fence_json (p ++ post) = false).
    { intros p Hp. rewrite fence_json_cons.
      destruct post as [|c post].
      - destruct Hp as [-> | ->]; reflexivity.
      - cbn [no_leading_backtick] in Hpost. apply negb_true_iff in Hpost.
        destruct Hp as [-> | ->]; cbn [app startswith];
          rewrite ?N.eqb_refl, (N.eqb_sym backtick c), Hpost; reflexivity. }
    pose proof (M [backtick; backtick] (or_introl eq_refl)) as M1.
    pose proof (M [backtick] (or_intror eq_refl)) as M2.
    rewrite fence_cons in *. cbn [app] in *. cbn [split_aux].
    rewrite M0, M1, M2.
    destruct (split_aux_first fence_json post O
                (backtick :: backtick :: backtick :: rev body)) as (z & ->).
    exists ([backtick; backtick; backtick] ++ z).
    split; [|right; exists z; reflexivity].
    cbn [rev]. rewrite rev_involutive. now rewrite <- !app_assoc.
Qed.

(** The text between a fence labelled json and the fence that closes it,
    up to what the first split leaves behind it. *)
Lemma split_fence_json_second pre body post :
  no_backtick pre = true -> no_backtick body = true ->
  no_leading_backtick post = true ->
  exists z,
    index (split fence_json (pre ++ fence_json ++ body ++ fence ++ post)) 1
    = Ok (body ++ z)
    /\ (z = [] \/ exists z', z = fence ++ z').
Proof.
  intros Hpre Hbody Hpost.
  destruct (split_json_piece body post Hbody Hpost) as (z & E & Hz).
  exists z. split; [|exact Hz].
  unfold split. rewrite fence_json_cons at 1 2.
  rewrite split_aux_no_backtick by exact Hpre.
  rewrite split_aux_sep. rewrite <- fence_json_cons.
  unfold index. cbn [nth_error] in *. now rewrite E.
Qed.

Lemma startswith_fence_json_fence s :
  startswith fence_json s = true -> startswith fence s = true.
Proof.
  unfold fence_json, fence.
  change (py "```json") with [backtick; backtick; backtick; 106%N; 115%N; 111%N; 110%N].
  change (py "```") with [backtick; backtick; backtick].
  destruct s as [|a [|b [|c s]]]; cbn; try discriminate;
    rewrite ?andb_false_r; try discriminate.
  intros H. repeat (apply andb_true_iff in H as [? H]).
  repeat (apply andb_true_iff; split); auto.
Qed.

Lemma contains_fence_json_fence s :
  contains fence s = false -> contains fence_json s = false.
Proof.
  induction s as [|c s IH]; cbn [contains]; intros H.
  - apply orb_false_iff in H as [H _].
    destruct (startswith fence_json []) eqn:E; [|reflexivity].
    apply startswith_fence_json_fence in E. congruence.
  - apply orb_false_iff in H as [H1 H2]. rewrite (IH H2).
    destruct (startswith fence_json (c :: s)) eqn:E; [|reflexivity].
    apply startswith_fence_json_fence in E. congruence.
Qed.

(** X8. What lines 134-139 take from the reply.  With a block fenced by
    three backticks and labelled json, they take the text between the
    label and the closing fence, stripped, whatever stands before and
    after the block; with a bare fenced block (and no fence labelled json
    anywhere) they take the text between the first two fences, stripped;
    without any fence they take the whole text, stripped.  The texts
    before and inside the block have no backtick, and the closing fence
    of the labelled block is not followed by a fourth backtick. *)
Theorem extract_json_fenced_block pre body post :
  no_backtick pre = true -> no_backtick body = true ->
  (no_leading_backtick post = true ->
   extract_json (pre ++ fence_json ++ body ++ fence ++ post) = Ok (strip body))
  /\ (contains fence_json (pre ++ fence ++ body ++ fence ++ post) = false ->
      extract_json (pre ++ fence ++ body ++ fence ++ post) = Ok (strip body))
  /\ extract_json body = Ok (strip body).
Proof.
  intros Hpre Hbody. split; [|split].
  - intros Hpost. unfold extract_json.
    rewrite contains_app.
    destruct (split_fence_json_second pre body post Hpre Hbody Hpost)
      as (z & -> & Hz).
    cbn [rbind].
    destruct Hz as [-> | (z' & ->)].
    + rewrite app_nil_r, split_fence_none by exact Hbody. reflexivity.
    + rewrite split_fence_first by exact Hbody. reflexivity.
  - intros Hno. unfold extract_json. rewrite Hno, contains_app.
    unfold split. rewrite fence_cons at 1 2.
    rewrite split_aux_no_backtick by exact Hpre.
    rewrite split_aux_sep. rewrite <- fence_cons.
    pose proof (split_fence_first body post Hbody) as F.
    unfold split, index in F. unfold index. cbn [nth_error] in *.
    destruct (split_aux fence (body ++ fence ++ post) 0 []) as [|x l];
      [discriminate|].
    injection F as ->. reflexivity.
  - unfold extract_json.
    assert (C : contains fence body = false).
    { clear Hpre. induction body as [|c b IH]; [reflexivity|].
      cbn [no_backtick forallb] in Hbody. apply andb_true_iff in Hbody as [Hc Hb].
      cbn [contains]. rewrite (IH Hb). rewrite orb_false_r.
      unfold fence. change (py "```") with [backtick; backtick; backtick].
      cbn [startswith]. apply negb_true_iff in Hc. rewrite N.eqb_sym, Hc.
      reflexivity. }
    rewrite (contains_fence_json_fence _ C), C. reflexivity.
Qed.

Lemma extract_json_fenced_block_witness :
  extract_json (py "Here it is: " ++ fence_json ++ py " {} " ++ fence
                ++ py " Done.") = Ok (py "{}")
  /\ extract_json (py "Here it is: " ++ fence ++ py " {} " ++ fence
                   ++ py " Done.") = Ok (py "{}")
  /\ extract_json (py " {} ") = Ok (py "{}").
Proof.
  destruct (extract_json_fenced_block (py "Here it is: ") (py " {} ") (py " Done.")
              eq_refl eq_refl) as (A & B & C).
  split; [|split].
  - exact (A eq_refl).
  - exact (B eq_refl).
  - exact C.
Defined.

(* ================================================================== *)
(** * Part XIII: further properties of [sanitize_text] *)
(* ================================================================== *)

Lemma replace_keeps_surrogates s :
  existsb is_surrogate (map (fun c => if (c <? 65536)%N then c else 63%N) s)
  = existsb is_surrogate s.
Proof.
  induction s as [|c s IH]; [reflexivity|]. cbn [map existsb]. rewrite IH.
  f_equal. destruct (c <? 65536)%N eqn:L; [reflexivity|].
  apply N.ltb_ge in L. unfold is_surrogate.
  replace (c <=? 57343)%N with false by (symmetry; apply N.leb_gt; lia).
  now rewrite andb_false_r.
Qed.

Lemma replace_idempotent s :
  map (fun c => if (c <? 65536)%N then c else 63%N)
    (map (fun c => if (c <? 65536)%N then c else 63%N) s)
  = map (fun c => if (c <? 65536)%N then c else 63%N) s.
Proof.
  rewrite map_map. apply map_ext. intros c.
  destruct (c <? 65536)%N eqn:L; [now rewrite L | reflexivity].
Qed.

(** X9. On a string [sanitize_text] always returns a string of the same
    length.  A text UTF-8 can encode comes back as it is.  A text with a
    surrogate takes the replacement branch, which puts a question mark
    for every character from 65536 on and keeps the surrogates: what is
    returned can be encoded exactly when the argument could.  Sanitizing
    twice gives what sanitizing once gives. *)
Theorem sanitize_text_string s :
  exists s',
    sanitize_text (JStr s) = Ok s'
    /\ List.length s' = List.length s
    /\ existsb is_surrogate s' = existsb is_surrogate s
    /\ (existsb is_surrogate s = false -> s' = s)
    /\ (existsb is_surrogate s = true ->
        s' = map (fun c => if (c <? 65536)%N then c else 63%N) s)
    /\ sanitize_text (JStr s') = Ok s'.
Proof.
  unfold sanitize_text, encode_decode_utf8.
  destruct s as [|c s]; [exists []; cbn; repeat split; auto|].
  cbn [truthy negb].
  destruct (existsb is_surrogate (c :: s)) eqn:E.
  - cbn [is_UnicodeError exn_cls].
    exists (map (fun c => if (c <? 65536)%N then c else 63%N) (c :: s)).
    split; [reflexivity|]. split; [apply length_map|].
    split; [now rewrite replace_keeps_surrogates|].
    split; [discriminate|]. split; [reflexivity|].
    rewrite replace_keeps_surrogates, E, replace_idempotent. reflexivity.
  - exists (c :: s). rewrite E. repeat split; auto. discriminate.
Qed.

(* ================================================================== *)
(** * Part XIV: runs of [process_image_complete] without a model *)
(* ================================================================== *)

(** ** Platform names and paths *)

Lemma is_surrogate_to_lower c : is_surrogate (to_lower c) = is_surrogate c.
Proof.
  unfold to_lower, is_upper, is_surrogate.
  destruct (65 <=? c)%N eqn:A; [|reflexivity].
  destruct (c <=? 90)%N eqn:B; [|reflexivity]. cbn [andb].
  apply N.leb_le in B.
  replace (55296 <=? c + 32)%N with false by (symmetry; apply N.leb_gt; lia).
  replace (55296 <=? c)%N with false by (symmetry; apply N.leb_gt; lia).
  reflexivity.
Qed.

Lemma lower_keeps_surrogates s :
  existsb is_surrogate (lower s) = existsb is_surrogate s.
Proof.
  induction s as [|c s IH]; [reflexivity|]. unfold lower in *. cbn [map existsb].
  now rewrite IH, is_surrogate_to_lower.
Qed.

Lemma to_lower_slash c : to_lower c <> 47%N -> (c =? 47)%N = false.
Proof.
  intros H. apply N.eqb_neq. intros ->. now apply H.
Qed.

(** A name whose lower-case form is registered is not empty, does not
    begin with a slash and has no surrogate. *)
Lemma lower_registered_name platform size :
  dict_get SOCIAL_MEDIA_SIZES (lower platform) = Some size ->
  existsb is_surrogate platform = false
  /\ exists c rest, platform = c :: rest /\ (c =? 47)%N = false.
Proof.
  unfold SOCIAL_MEDIA_SIZES. cbn [dict_get].
  repeat match goal with
  | |- context [str_eqb (lower platform) ?k] =>
      let E := fresh "E" in
      destruct (str_eqb (lower platform) k) eqn:E;
      [ apply str_eqb_eq in E; intros _; split;
        [ rewrite <- lower_keeps_surrogates, E; reflexivity
        | destruct platform as [|c rest]; [discriminate|];
          exists c, rest; split; [reflexivity|];
          apply to_lower_slash; unfold lower in E; cbn [map] in E;
          injection E as E _; rewrite E; discriminate ]
      | ]
  end.
  discriminate.
Qed.

Lemma path_join_folder a b c rest :
  b = c :: rest -> (c =? 47)%N = false -> hd_error (rev a) = Some 47%N ->
  path_join a b = a ++ b.
Proof.
  intros -> Hc Ha. unfold path_join.
  change (py "/") with [47%N]. cbn [startswith].
  rewrite N.eqb_sym, Hc. cbn [andb].
  destruct (rev a) as [|x r]; [discriminate|]. injection Ha as ->.
  reflexivity.
Qed.

Lemma str_eqb_heads a x b y :
  (a =? b)%N = false -> str_eqb (a :: x) (b :: y) = false.
Proof. intros H. cbn [str_eqb]. now rewrite H. Qed.

(** The three paths of a run differ, for a name whose lower-case form is
    registered. *)
Lemma run_paths env platform format ts size :
  dict_get SOCIAL_MEDIA_SIZES (lower platform) = Some size ->
  exists ro rc rp,
    original_path env format = 116%N :: ro
    /\ caption_path env platform ts = 111%N :: rc
    /\ path_join OUTPUT_FOLDER (output_filename env platform format ts)
       = 109%N :: rp
    /\ path_join OUTPUT_FOLDER (output_filename env platform format ts)
       = OUTPUT_FOLDER ++ output_filename env platform format ts.
Proof.
  intros H. apply lower_registered_name in H as (_ & c & rest & -> & Hc).
  destruct (original_path_head env format) as (ro & Eo).
  exists ro.
  assert (Ec : caption_path env (c :: rest) ts
               = CAPTION_FOLDER
                 ++ ((c :: rest) ++ py "_" ++ uuid4 env ++ py "_"
                     ++ str_of_int ts ++ py ".txt")).
  { unfold caption_path. eapply path_join_folder;
      [reflexivity | exact Hc | reflexivity]. }
  assert (Ep : path_join OUTPUT_FOLDER (output_filename env (c :: rest) format ts)
               = OUTPUT_FOLDER ++ output_filename env (c :: rest) format ts).
  { eapply path_join_folder; [reflexivity | exact Hc | reflexivity]. }
  rewrite Ec, Ep. do 2 eexists.
  split; [exact Eo|]. split; [reflexivity|]. split; reflexivity.
Qed.

(** ** The steps of a run *)

Lemma pil_open_ok env b w md wd ht :
  Image_open env b = Ok (md, wd, ht) ->
  pil_open env b w
  = (Ok (Image (next_id w) md wd ht), World (files w) (N.succ (next_id w))).
Proof. intros H. unfold pil_open. now rewrite (bind_lift_ok _ _ _ _ H). Qed.

Lemma pil_save_ok env img path params w :
  save_fault env img path params = None ->
  pil_save env img path params w
  = (Ok tt, set_file path (Some (ImageFile img params)) w).
Proof. intros H. unfold pil_save. now rewrite H. Qed.

Lemma write_text_ok env path s w :
  write_fault env path = None -> existsb is_surrogate s = false ->
  write_text env path s w = (Ok tt, set_file path (Some (TextFile s)) w).
Proof.
  intros H E. unfold write_text, encode_decode_utf8. now rewrite H, E.
Qed.

(** Without a loaded model the locator is not called. *)
Lemma locate_step_not_ready locate path AI_MODELS platform w :
  models_ready AI_MODELS = false ->
  locate_step locate path AI_MODELS platform w
  = (Ok (pipeline_not_loaded_triple platform), w).
Proof.
  intros H. unfold locate_step. destruct AI_MODELS as [m|]; [|reflexivity].
  now rewrite H.
Qed.

(** STEP 2 on the full region. *)
Lemma smart_crop_step_full enabled img w :
  0 < width img < 2 ^ 31 -> 0 < height img < 2 ^ 31 ->
  (obj_id img <? next_id w)%N = true ->
  smart_crop_step enabled img full_box w
  = if enabled
    then (Ok (Image (next_id w) (array_mode (mode img)) (width img) (height img),
              true),
          World (files w) (N.succ (next_id w)))
    else (Ok (img, false), w).
Proof.
  intros Hw Hh Hid. unfold smart_crop_step. destruct enabled; [|reflexivity].
  cbn [andb full_box]. unfold try_except.
  rewrite (bind_ok _ _ _ _ _ (smart_crop_gemini_full img w Hw Hh)).
  unfold same_object. cbn [obj_id].
  apply N.ltb_lt in Hid.
  replace (next_id w =? obj_id img)%N with false
    by (symmetry; apply N.eqb_neq; lia).
  reflexivity.
Qed.

(** STEP 3 succeeds for every name whose lower-case form is registered,
    on an image whose sides fit a C [int] and whose aspect ratio is at
    most 65536 to 1 either way, when no resize fails. *)
Lemma optimize_for_platform_ok env img platform tw th w :
  dict_get SOCIAL_MEDIA_SIZES (lower platform) = Some (tw, th) ->
  0 < width img < 2 ^ 31 -> 0 < height img < 2 ^ 31 ->
  width img <= 65536 * height img -> height img <= 65536 * width img ->
  (forall i size, resize_fault env i size = None) ->
  exists img' w',
    optimize_for_platform env img platform w = (Ok img', w')
    /\ width img' = tw /\ height img' = th /\ files w' = files w.
Proof.
  intros H Hw Hh Hwh Hhw Hrf. unfold optimize_for_platform, try_except.
  rewrite H.
  apply registry_entry in H as (_ & Htw & Hth).
  destruct (needs_rgb (mode img)).
  - unfold bind at 1. unfold pil_convert, new_image.
    destruct (fit_to_target_size env
                (Image (next_id w) (py "RGB") (width img) (height img))
                tw th (World (files w) (N.succ (next_id w)))
                Htw Hth Hw Hh Hwh Hhw Hrf)
      as (img' & w' & E & A & B & C).
    rewrite E. eauto 7.
  - rewrite bind_ret.
    destruct (fit_to_target_size env img tw th w Htw Hth Hw Hh Hwh Hhw Hrf)
      as (img' & w' & E & A & B & C).
    rewrite E. eauto 7.
Qed.

Lemma optimize_for_platform_unsupported env img platform w :
  dict_get SOCIAL_MEDIA_SIZES (lower platform) = None ->
  optimize_for_platform env img platform w
  = (Raise (Exn ValueError (py "Unsupported platform: " ++ platform)), w).
Proof.
  intros H. unfold optimize_for_platform, try_except. now rewrite H.
Qed.

Lemma sanitize_text_encodable s :
  existsb is_surrogate s = false -> sanitize_text (JStr s) = Ok s.
Proof.
  intros H. unfold sanitize_text, encode_decode_utf8.
  destruct s as [|c s]; [reflexivity|]. cbn [truthy negb]. now rewrite H.
Qed.

(** A run without a loaded model, step by step: the result of the body,
    and the files it leaves. *)
Lemma pipeline_body_no_model locate env image_bytes platform format enabled
    AI_MODELS w ts md wd ht tw th :
  models_ready AI_MODELS = false ->
  rbind (float_mul_int (time_time env) 1000) int_of_float = Ok ts ->
  Image_open env image_bytes = Ok (md, wd, ht) ->
  0 < wd < 2 ^ 31 -> 0 < ht < 2 ^ 31 ->
  wd <= 65536 * ht -> ht <= 65536 * wd ->
  (forall i size, resize_fault env i size = None) ->
  dict_get SOCIAL_MEDIA_SIZES (lower platform) = Some (tw, th) ->
  save_fault env (Image (next_id w) md wd ht) (original_path env format)
    no_params = None ->
  (forall img,
     save_fault env img
       (path_join OUTPUT_FOLDER (output_filename env platform format ts))
       (output_params format) = None) ->
  write_fault env (caption_path env platform ts) = None ->
  exists img2 w',
    pipeline_body locate env image_bytes platform format enabled AI_MODELS w
    = (match registered_size platform with
       | Ok size =>
           Ok {| pr_error := None;
                 pr_platform := display_name platform;
                 pr_size := size;
                 pr_optimized_image :=
                   Some (py "/media/optimized/"
                         ++ output_filename env platform format ts);
                 pr_caption_text :=
                   py "Image analysis not available. Gemini model not loaded.";
                 pr_hashtags := py "#" ++ platform;
                 pr_enhanced := false;
                 pr_smart_cropped := enabled |}
       | Raise e => Raise e
       end, w')
    /\ width img2 = tw /\ height img2 = th
    /\ files w' (OUTPUT_FOLDER ++ output_filename env platform format ts)
       = Some (ImageFile img2 (output_params format))
    /\ files w' (caption_path env platform ts)
       = Some (TextFile
                 (sidecar_text
                    (py "Image analysis not available. Gemini model not loaded.")
                    (py "#" ++ platform)))
    /\ files w' (original_path env format)
       = match remove_fault env (original_path env format) with
         | None => None
         | Some _ => Some (ImageFile (Image (next_id w) md wd ht) no_params)
         end
    /\ (forall q,
          str_eqb q (original_path env format) = false ->
          str_eqb q (caption_path env platform ts) = false ->
          str_eqb q (OUTPUT_FOLDER ++ output_filename env platform format ts)
          = false ->
          files w' q = files w q).
Proof.
  intros Hready Hts Hopen Hwd Hht Hwh Hhw Hrf Hreg Hs1 Hs2 Hwf.
  destruct (lower_registered_name _ _ Hreg) as (Hsur & _).
  destruct (run_paths env platform format ts _ Hreg)
    as (ro & rc & rp & Eo & Ec & Ep & Ep').
  rewrite <- Ep'.
  set (img0 := Image (next_id w) md wd ht) in *.
  set (caption := py "Image analysis not available. Gemini model not loaded.").
  (* the image STEP 3 receives *)
  set (img1 := if enabled
               then Image (N.succ (next_id w)) (array_mode md) wd ht
               else img0).
  set (wb := set_file (original_path env format)
               (Some (ImageFile img0 no_params))
               (World (files w) (N.succ (next_id w)))).
  set (wc := if enabled then World (files wb) (N.succ (next_id wb)) else wb).
  assert (Fc : files wc = files wb) by (unfold wc; destruct enabled; reflexivity).
  assert (W1 : (0 < width img1 < 2 ^ 31 /\ 0 < height img1 < 2 ^ 31)
               /\ width img1 <= 65536 * height img1
               /\ height img1 <= 65536 * width img1)
    by (unfold img1, img0; destruct enabled; cbn [width height]; lia).
  destruct W1 as ([W1 H1] & A1 & A2).
  destruct (optimize_for_platform_ok env img1 platform tw th wc Hreg W1 H1
              A1 A2 Hrf)
    as (img2 & we & Eopt & Ew & Eh & Fe).
  assert (Hcrop : smart_crop_step enabled img0 full_box wb
                  = (Ok (img1, enabled), wc)).
  { rewrite smart_crop_step_full;
      [ unfold img1, wc, img0; destruct enabled; reflexivity
      | unfold img0; cbn; lia | unfold img0; cbn; lia
      | unfold img0, wb; cbn; apply N.ltb_lt; lia ]. }
  assert (Htag : sanitize_text (JStr (py "#" ++ platform)) = Ok (py "#" ++ platform)).
  { apply sanitize_text_encodable. cbn [py app existsb]. exact Hsur. }
  assert (Hside : existsb is_surrogate (sidecar_text caption (py "#" ++ platform))
                  = false).
  { unfold sidecar_text. rewrite !existsb_app.
    replace (existsb is_surrogate caption) with false by (now vm_compute).
    cbn [existsb orb]. exact Hsur. }
  set (out := path_join OUTPUT_FOLDER (output_filename env platform format ts)) in *.
  set (cap := caption_path env platform ts) in *.
  set (orig := original_path env format) in *.
  assert (Doc : str_eqb orig cap = false)
    by (rewrite Eo, Ec; now apply str_eqb_heads).
  assert (Dop : str_eqb orig out = false)
    by (rewrite Eo, Ep; now apply str_eqb_heads).
  assert (Dco : str_eqb cap orig = false)
    by (rewrite Eo, Ec; now apply str_eqb_heads).
  assert (Dcp : str_eqb cap out = false)
    by (rewrite Ec, Ep; now apply str_eqb_heads).
  assert (Dpo : str_eqb out orig = false)
    by (rewrite Eo, Ep; now apply str_eqb_heads).
  assert (Dpc : str_eqb out cap = false)
    by (rewrite Ec, Ep; now apply str_eqb_heads).
  set (wg := set_file cap
               (Some (TextFile (sidecar_text caption (py "#" ++ platform))))
               (set_file out (Some (ImageFile img2 (output_params format))) we)).
  assert (Forig : files wg orig = Some (ImageFile img0 no_params)).
  { unfold wg. cbn [files set_file]. rewrite Doc, Dop, Fe, Fc.
    unfold wb. cbn [files set_file]. now rewrite str_eqb_refl. }
  set (w' := match remove_fault env orig with
             | None => set_file orig None wg
             | Some _ => wg
             end).
  exists img2, w'.
  split; [|split; [exact Ew|split; [exact Eh|]]].
  - unfold pipeline_body.
    rewrite (bind_lift_ok _ _ _ _ Hts).
    rewrite (bind_ok _ _ _ _ _ (pil_open_ok env image_bytes w md wd ht Hopen)).
    fold img0. fold orig.
    rewrite (bind_ok _ _ _ _ _ (pil_save_ok env img0 orig no_params _ Hs1)).
    fold wb.
    rewrite (bind_ok _ _ _ _ _
               (locate_step_not_ready locate orig AI_MODELS platform wb Hready)).
    unfold pipeline_not_loaded_triple. cbv beta iota.
    rewrite (bind_ok _ _ _ _ _ Hcrop). cbv beta iota.
    rewrite (bind_ok _ _ _ _ _ Eopt).
    rewrite (bind_lift_ok (sanitize_text (JStr caption)) caption)
      by (now vm_compute).
    fold caption.
    rewrite (bind_lift_ok _ _ _ _ Htag).
    fold out.
    rewrite (bind_ok _ _ _ _ _
               (pil_save_ok env img2 out (output_params format) we (Hs2 img2))).
    fold cap.
    rewrite (bind_ok _ _ _ _ _ (write_text_ok env cap _ _ Hwf Hside)).
    fold wg.
    unfold bind at 1. unfold path_exists at 1. rewrite Forig.
    unfold bind at 1. unfold try_except, os_remove.
    unfold w'. destruct (remove_fault env orig) as [e|].
    + unfold ret at 1. unfold bind, lift.
      destruct (registered_size platform); reflexivity.
    + rewrite Forig. unfold bind, lift.
      destruct (registered_size platform); reflexivity.
  - assert (Fw' : forall q, str_eqb q orig = false -> files w' q = files wg q).
    { intros q Hq. unfold w'. destruct (remove_fault env orig); [reflexivity|].
      cbn [files set_file]. now rewrite Hq. }
    split; [|split; [|split]].
    + rewrite (Fw' _ Dpo). unfold wg. cbn [files set_file].
      now rewrite Dpc, str_eqb_refl.
    + rewrite (Fw' _ Dco). unfold wg. cbn [files set_file].
      now rewrite str_eqb_refl.
    + unfold w'. destruct (remove_fault env orig); [exact Forig|].
      cbn [files set_file]. now rewrite str_eqb_refl.
    + intros q Qo Qc Qp. rewrite (Fw' _ Qo). unfold wg. cbn [files set_file].
      rewrite Qc, Qp, Fe, Fc. unfold wb. cbn [files set_file]. now rewrite Qo.
Qed.

(** X10. A run without a loaded model on a registered platform.  When the
    upload decodes to an image whose sides are positive and below 2^31
    and whose aspect ratio is at most 65536 to 1 either way, and no
    resize, save or write fails, [process_image_complete] returns the success
    record with the fixed caption, the hashtag of the platform and the
    registered size; the stored image has exactly that size, the sidecar
    holds the caption, an empty line and the hashtag, and the temporary
    copy is gone unless [os.remove] failed, in which case the run
    succeeds all the same and the copy stays.  No other file is created
    or changed. *)
Theorem run_without_model locate env image_bytes platform format
    smart_crop_enabled enhance_image_enabled confidence AI_MODELS w
    ts md wd ht tw th :
  models_ready AI_MODELS = false ->
  rbind (float_mul_int (time_time env) 1000) int_of_float = Ok ts ->
  Image_open env image_bytes = Ok (md, wd, ht) ->
  0 < wd < 2 ^ 31 -> 0 < ht < 2 ^ 31 ->
  wd <= 65536 * ht -> ht <= 65536 * wd ->
  (forall i size, resize_fault env i size = None) ->
  dict_get SOCIAL_MEDIA_SIZES platform = Some (tw, th) ->
  save_fault env (Image (next_id w) md wd ht) (original_path env format)
    no_params = None ->
  (forall img,
     save_fault env img
       (path_join OUTPUT_FOLDER (output_filename env platform format ts))
       (output_params format) = None) ->
  write_fault env (caption_path env platform ts) = None ->
  exists img2 w',
    process_image_complete_with locate env image_bytes platform format
      smart_crop_enabled enhance_image_enabled confidence AI_MODELS w
    = (Ok {| pr_error := None;
             pr_platform := display_name platform;
             pr_size := (tw, th);
             pr_optimized_image :=
               Some (py "/media/optimized/"
                     ++ output_filename env platform format ts);
             pr_caption_text :=
               py "Image analysis not available. Gemini model not loaded.";
             pr_hashtags := py "#" ++ platform;
             pr_enhanced := false;
             pr_smart_cropped := smart_crop_enabled |}, w')
    /\ width img2 = tw /\ height img2 = th
    /\ files w' (OUTPUT_FOLDER ++ output_filename env platform format ts)
       = Some (ImageFile img2 (output_params format))
    /\ files w' (caption_path env platform ts)
       = Some (TextFile
                 (py "Image analysis not available. Gemini model not loaded."
                  ++ [newline; newline] ++ py "#" ++ platform))
    /\ files w' (original_path env format)
       = match remove_fault env (original_path env format) with
         | None => None
         | Some _ => Some (ImageFile (Image (next_id w) md wd ht) no_params)
         end
    /\ (forall q,
          str_eqb q (original_path env format) = false ->
          str_eqb q (caption_path env platform ts) = false ->
          str_eqb q (OUTPUT_FOLDER ++ output_filename env platform format ts)
          = false ->
          files w' q = files w q).
Proof.
  intros Hready Hts Hopen Hwd Hht Hwh Hhw Hrf Hreg Hs1 Hs2 Hwf.
  assert (Hlow : dict_get SOCIAL_MEDIA_SIZES (lower platform) = Some (tw, th)).
  { destruct (registry_entry _ _ _ Hreg) as (-> & _). exact Hreg. }
  destruct (pipeline_body_no_model locate env image_bytes platform format
              smart_crop_enabled AI_MODELS w ts md wd ht tw th
              Hready Hts Hopen Hwd Hht Hwh Hhw Hrf Hlow Hs1 Hs2 Hwf)
    as (img2 & w' & B & Ew & Eh & Fp & Fc & Fo & Fr).
  exists img2, w'. unfold process_image_complete_with, try_except.
  rewrite B. unfold registered_size. rewrite Hreg.
  repeat (split; [first [reflexivity | assumption]|]). exact Fr.
Qed.

Lemma run_without_model_witness :
  exists img2 w',
    process_image_complete demo_env demo_blob (py "linkedin") (py "PNG")
      false false f0 (Some models_not_loaded) empty_world
    = (Ok {| pr_error := None;
             pr_platform := display_name (py "linkedin");
             pr_size := (1200, 627);
             pr_optimized_image :=
               Some (py "/media/optimized/"
                     ++ output_filename demo_env (py "linkedin") (py "PNG")
                          demo_timestamp);
             pr_caption_text :=
               py "Image analysis not available. Gemini model not loaded.";
             pr_hashtags := py "#" ++ py "linkedin";
             pr_enhanced := false;
             pr_smart_cropped := false |}, w')
    /\ width img2 = 1200 /\ height img2 = 627
    /\ files w' (OUTPUT_FOLDER
                 ++ output_filename demo_env (py "linkedin") (py "PNG")
                      demo_timestamp)
       = Some (ImageFile img2 (output_params (py "PNG")))
    /\ files w' (caption_path demo_env (py "linkedin") demo_timestamp)
       = Some (TextFile
                 (py "Image analysis not available. Gemini model not loaded."
                  ++ [newline; newline] ++ py "#" ++ py "linkedin"))
    /\ files w' (original_path demo_env (py "PNG"))
       = match remove_fault demo_env (original_path demo_env (py "PNG")) with
         | None => None
         | Some _ => Some (ImageFile (Image (next_id empty_world) (py "RGB")
                                        1920 1080) no_params)
         end
    /\ (forall q,
          str_eqb q (original_path demo_env (py "PNG")) = false ->
          str_eqb q (caption_path demo_env (py "linkedin") demo_timestamp)
          = false ->
          str_eqb q (OUTPUT_FOLDER
                     ++ output_filename demo_env (py "linkedin") (py "PNG")
                          demo_timestamp) = false ->
          files w' q = files empty_world q).
Proof.
  apply (run_without_model (process_with_gemini demo_env) demo_env demo_blob
           (py "linkedin") (py "PNG") false false f0 (Some models_not_loaded)
           empty_world demo_timestamp (py "RGB") 1920 1080 1200 627).
  - reflexivity.
  - vm_compute. reflexivity.
  - reflexivity.
  - lia.
  - lia.
  - lia.
  - lia.
  - intros i size. reflexivity.
  - reflexivity.
  - reflexivity.
  - intros img. reflexivity.
  - reflexivity.
Defined.

(** X11. A platform name that is registered only after lower-casing, such
    as [Instagram].  Without a loaded model and without faults, for an
    upload that decodes to an image whose sides are positive and below
    2^31 and whose aspect ratio is at most 65536 to 1 either way, the run
    goes through every step: the image of the registered size is stored
    and the sidecar is written.  Only the final look-up of the size under
    the name as it was given fails, so the call returns the error record
    with the message [Processing failed: '<platform>'] and the size
    (0, 0), and the files it wrote stay. *)
Theorem mixed_case_platform_fails_after_writing locate env image_bytes
    platform format smart_crop_enabled enhance_image_enabled confidence
    AI_MODELS w ts md wd ht tw th :
  models_ready AI_MODELS = false ->
  rbind (float_mul_int (time_time env) 1000) int_of_float = Ok ts ->
  Image_open env image_bytes = Ok (md, wd, ht) ->
  0 < wd < 2 ^ 31 -> 0 < ht < 2 ^ 31 ->
  wd <= 65536 * ht -> ht <= 65536 * wd ->
  (forall i size, resize_fault env i size = None) ->
  dict_get SOCIAL_MEDIA_SIZES platform = None ->
  dict_get SOCIAL_MEDIA_SIZES (lower platform) = Some (tw, th) ->
  save_fault env (Image (next_id w) md wd ht) (original_path env format)
    no_params = None ->
  (forall img,
     save_fault env img
       (path_join OUTPUT_FOLDER (output_filename env platform format ts))
       (output_params format) = None) ->
  write_fault env (caption_path env platform ts) = None ->
  exists r img2 w',
    process_image_complete_with locate env image_bytes platform format
      smart_crop_enabled enhance_image_enabled confidence AI_MODELS w
    = (Ok r, w')
    /\ pr_error r = Some (py "Processing failed: '" ++ platform ++ py "'")
    /\ pr_size r = (0, 0)
    /\ pr_optimized_image r = None
    /\ files w' (OUTPUT_FOLDER ++ output_filename env platform format ts)
       = Some (ImageFile img2 (output_params format))
    /\ width img2 = tw /\ height img2 = th
    /\ files w' (caption_path env platform ts)
       = Some (TextFile
                 (py "Image analysis not available. Gemini model not loaded."
                  ++ [newline; newline] ++ py "#" ++ platform)).
Proof.
  intros Hready Hts Hopen Hwd Hht Hwh Hhw Hrf Hnone Hlow Hs1 Hs2 Hwf.
  destruct (pipeline_body_no_model locate env image_bytes platform format
              smart_crop_enabled AI_MODELS w ts md wd ht tw th
              Hready Hts Hopen Hwd Hht Hwh Hhw Hrf Hlow Hs1 Hs2 Hwf)
    as (img2 & w' & B & Ew & Eh & Fp & Fc & _).
  exists (error_record platform (Exn KeyError (py "'" ++ platform ++ py "'"))),
    img2, w'.
  unfold process_image_complete_with, try_except.
  rewrite B. unfold registered_size. rewrite Hnone.
  split; [reflexivity|].
  split; [reflexivity|].
  split; [cbn [pr_size error_record]; now rewrite Hnone|].
  split; [reflexivity|].
  repeat (split; [assumption|]). exact Fc.
Qed.

Lemma mixed_case_platform_fails_after_writing_witness :
  exists r img2 w',
    process_image_complete demo_env demo_blob (py "Instagram") (py "JPEG")
      true false f0 None empty_world
    = (Ok r, w')
    /\ pr_error r = Some (py "Processing failed: '" ++ py "Instagram" ++ py "'")
    /\ pr_size r = (0, 0)
    /\ pr_optimized_image r = None
    /\ files w' (OUTPUT_FOLDER
                 ++ output_filename demo_env (py "Instagram") (py "JPEG")
                      demo_timestamp)
       = Some (ImageFile img2 (output_params (py "JPEG")))
    /\ width img2 = 1080 /\ height img2 = 1080
    /\ files w' (caption_path demo_env (py "Instagram") demo_timestamp)
       = Some (TextFile
                 (py "Image analysis not available. Gemini model not loaded."
                  ++ [newline; newline] ++ py "#" ++ py "Instagram")).
Proof.
  apply (mixed_case_platform_fails_after_writing (process_with_gemini demo_env)
           demo_env demo_blob (py "Instagram") (py "JPEG") true false f0 None
           empty_world demo_timestamp (py "RGB") 1920 1080 1080 1080).
  - reflexivity.
  - vm_compute. reflexivity.
  - reflexivity.
  - lia.
  - lia.
  - lia.
  - lia.
  - intros i size. reflexivity.
  - reflexivity.
  - reflexivity.
  - reflexivity.
  - intros img. reflexivity.
  - reflexivity.
Defined.

(* ================================================================== *)
(** * Part XV: what every run of [process_image_complete] leaves *)
(* ================================================================== *)

(** [smart_crop_gemini] returns, and touches no file. *)
Lemma smart_crop_gemini_files img bb w :
  exists img' w',
    smart_crop_gemini img bb w = (Ok img', w') /\ files w' = files w.
Proof.
  unfold smart_crop_gemini, try_except.
  destruct (_ || _); [unfold ret; eauto|].
  unfold bind, lift.
  destruct (crop_window img bb) as [[[[x1 y1] x2] y2]|e]; [|unfold ret; eauto].
  destruct (invalid_window (x1, y1, x2, y2)); [unfold ret; eauto|].
  unfold pil_fromarray_slice, new_image. eauto.
Qed.

(** STEP 2 returns, and touches no file; it reports a crop only when
    cropping was asked for. *)
Lemma smart_crop_step_total enabled img bb w :
  exists img1 cropped w1,
    smart_crop_step enabled img bb w = (Ok (img1, cropped), w1)
    /\ files w1 = files w
    /\ (cropped = true -> enabled = true).
Proof.
  unfold smart_crop_step.
  destruct (enabled && _) eqn:E.
  - apply andb_true_iff in E as [-> _]. unfold try_except, bind.
    destruct (smart_crop_gemini_files img bb w) as (img' & w' & -> & F).
    destruct (negb (same_object img' img)); unfold ret; eauto 7.
  - unfold ret. exists img, false, w. repeat split. discriminate.
Qed.

(** STEP 1 with the locator of the module returns, and leaves the world
    as it is. *)
Lemma locate_step_gemini_total env path AI_MODELS platform w :
  exists t,
    locate_step (process_with_gemini env) path AI_MODELS platform w = (Ok t, w).
Proof.
  destruct (locate_step (process_with_gemini env) path AI_MODELS platform w)
    as [[t|e] w1] eqn:L.
  - pose proof (locate_step_gemini_world _ _ _ _ _ _ _ L) as ->. eauto.
  - exfalso. unfold locate_step in L.
    destruct AI_MODELS as [m|]; [|discriminate].
    destruct (models_ready (Some m)); [|discriminate].
    unfold try_except in L.
    destruct (process_with_gemini env path m platform w) as [[t|e0] w2];
      discriminate.
Qed.

(** X12. A platform name in ASCII whose lower-case form is not registered
    is found out only at STEP 3, after the upload was decoded and its
    temporary copy written.  The call returns the error record with the message
    [Processing failed: Unsupported platform: <platform>]; the temporary
    copy stays on disk, and no other file is created or changed. *)
Theorem unsupported_platform_leaves_temporary_copy env image_bytes platform
    format smart_crop_enabled enhance_image_enabled confidence AI_MODELS w
    ts md wd ht :
  is_ascii platform = true ->
  rbind (float_mul_int (time_time env) 1000) int_of_float = Ok ts ->
  Image_open env image_bytes = Ok (md, wd, ht) ->
  save_fault env (Image (next_id w) md wd ht) (original_path env format)
    no_params = None ->
  dict_get SOCIAL_MEDIA_SIZES (lower platform) = None ->
  exists w',
    process_image_complete env image_bytes platform format smart_crop_enabled
      enhance_image_enabled confidence AI_MODELS w
    = (Ok (error_record platform
             (Exn ValueError (py "Unsupported platform: " ++ platform))), w')
    /\ files w' (original_path env format)
       = Some (ImageFile (Image (next_id w) md wd ht) no_params)
    /\ (forall q, str_eqb q (original_path env format) = false ->
          files w' q = files w q).
Proof.
  intros _ Hts Hopen Hs1 Hnone.
  set (img0 := Image (next_id w) md wd ht) in *.
  set (orig := original_path env format) in *.
  set (wb := set_file orig (Some (ImageFile img0 no_params))
               (World (files w) (N.succ (next_id w)))).
  destruct (locate_step_gemini_total env orig AI_MODELS platform wb)
    as ([[cap bb] tags] & Eloc).
  destruct (smart_crop_step_total smart_crop_enabled img0 bb wb)
    as (img1 & cropped & wc & Ecrop & Fc & _).
  exists wc. split; [|split].
  - unfold process_image_complete.
    apply process_image_complete_with_error.
    unfold pipeline_body.
    rewrite (bind_lift_ok _ _ _ _ Hts).
    rewrite (bind_ok _ _ _ _ _ (pil_open_ok env image_bytes w md wd ht Hopen)).
    fold img0. fold orig.
    rewrite (bind_ok _ _ _ _ _ (pil_save_ok env img0 orig no_params _ Hs1)).
    fold wb.
    rewrite (bind_ok _ _ _ _ _ Eloc). cbv beta iota.
    rewrite (bind_ok _ _ _ _ _ Ecrop). cbv beta iota.
    apply bind_raise. now apply optimize_for_platform_unsupported.
  - rewrite Fc. unfold wb. cbn [files set_file]. now rewrite str_eqb_refl.
  - intros q Hq. rewrite Fc. unfold wb. cbn [files set_file]. now rewrite Hq.
Qed.

Lemma unsupported_platform_leaves_temporary_copy_witness :
  exists w',
    process_image_complete demo_env demo_blob (py "tiktok") (py "JPEG") true
      false f0 (Some (demo_models reply_two_lines)) empty_world
    = (Ok (error_record (py "tiktok")
             (Exn ValueError (py "Unsupported platform: " ++ py "tiktok"))), w')
    /\ files w' (original_path demo_env (py "JPEG"))
       = Some (ImageFile (Image (next_id empty_world) (py "RGB") 1920 1080)
                 no_params)
    /\ (forall q, str_eqb q (original_path demo_env (py "JPEG")) = false ->
          files w' q = files empty_world q).
Proof.
  apply (unsupported_platform_leaves_temporary_copy demo_env demo_blob
           (py "tiktok") (py "JPEG") true false f0
           (Some (demo_models reply_two_lines)) empty_world demo_timestamp
           (py "RGB") 1920 1080).
  - reflexivity.
  - vm_compute. reflexivity.
  - reflexivity.
  - reflexivity.
  - reflexivity.
Defined.

(** ** Successful runs *)

(** The sidecar of a successful run was encoded, and the temporary copy
    was removed if [os.remove] did not fail. *)
Lemma pipeline_body_written locate env image_bytes platform format
    smart_crop_enabled AI_MODELS w r w' :
  pipeline_body locate env image_bytes platform format smart_crop_enabled
    AI_MODELS w = (Ok r, w') ->
  existsb is_surrogate (sidecar_text (pr_caption_text r) (pr_hashtags r)) = false
  /\ (remove_fault env (original_path env format) = None ->
      files w' (original_path env format) = None).
Proof.
  unfold pipeline_body. intros H.
  apply bind_lift_inv in H as (ts & Ets & H).
  apply bind_inv in H as (img0 & wa & Eopen & H).
  apply bind_inv in H as ([] & wb & Esave & H).
  apply bind_inv in H as ([[cap bb] tags] & wc & Eloc & H).
  apply bind_inv in H as ([img1 cropped] & wd & Ecrop & H).
  apply bind_inv in H as (img2 & we & Eopt & H).
  apply bind_lift_inv in H as (caption & Ecap & H).
  apply bind_lift_inv in H as (hashtags & Etag & H).
  apply bind_inv in H as ([] & wf & Eout & H).
  apply bind_inv in H as ([] & wg & Etxt & H).
  apply bind_inv in H as (present & wh & Ex & H).
  apply bind_inv in H as ([] & wi & Erm & H).
  apply bind_lift_inv in H as (size & Esz & H).
  unfold ret in H. injection H as <- <-. cbn [pr_caption_text pr_hashtags].
  split.
  - unfold write_text, encode_decode_utf8 in Etxt.
    destruct (write_fault env _); [discriminate|].
    destruct (existsb is_surrogate (sidecar_text caption hashtags));
      [discriminate | reflexivity].
  - intros Hrm. unfold path_exists in Ex. injection Ex as <- <-.
    destruct (files wg (original_path env format)) as [f|] eqn:F.
    + unfold try_except, os_remove in Erm. rewrite Hrm, F in Erm.
      injection Erm as <-. cbn [files set_file]. now rewrite str_eqb_refl.
    + unfold ret in Erm. injection Erm as <-. exact F.
Qed.

(** What [sanitize_text] returned, when the result can be encoded. *)
Lemma sanitize_text_inv v s :
  sanitize_text v = Ok s -> existsb is_surrogate s = false ->
  v = JStr s \/ (truthy v = false /\ s = []).
Proof.
  unfold sanitize_text. destruct (truthy v) eqn:T; cbn [negb].
  2:{ intros [= <-] _. auto. }
  destruct v; try discriminate.
  unfold encode_decode_utf8.
  destruct (existsb is_surrogate s0) eqn:E.
  - cbn [is_UnicodeError exn_cls]. intros [= <-].
    rewrite replace_keeps_surrogates. congruence.
  - intros [= <-] _. auto.
Qed.

(** The image a successful body stored, and the size in its record. *)
Lemma stored_image_of_success locate env image_bytes platform format
    smart_crop_enabled AI_MODELS w r w' :
  pipeline_body locate env image_bytes platform format smart_crop_enabled
    AI_MODELS w = (Ok r, w') ->
  exists ts img2,
    pr_optimized_image r
    = Some (py "/media/optimized/" ++ output_filename env platform format ts)
    /\ files w' (path_join OUTPUT_FOLDER (output_filename env platform format ts))
       = Some (ImageFile img2 (output_params format))
    /\ pr_size r = (width img2, height img2)
    /\ dict_get SOCIAL_MEDIA_SIZES platform = Some (pr_size r)
    /\ pr_enhanced r = false
    /\ (pr_smart_cropped r = true -> smart_crop_enabled = true).
Proof.
  intros B.
  apply pipeline_body_inv in B
    as (ts & img0 & wa & cap & bb & tags & wc & img1 & cropped & wd & img2 & we
        & caption & hashtags & size & _ & _ & _ & _ & Ecrop & Eopt & _ & _
        & Esz & Hfiles & ->).
  exists ts, img2. cbn [pr_optimized_image pr_size pr_enhanced pr_smart_cropped].
  unfold registered_size in Esz.
  destruct (dict_get SOCIAL_MEDIA_SIZES platform) as [[tw th]|] eqn:Hreg;
    [|discriminate].
  injection Esz as <-.
  destruct (registry_entry _ _ _ Hreg) as (Hlow & _).
  assert (Hreg' : dict_get SOCIAL_MEDIA_SIZES (lower platform) = Some (tw, th))
    by (now rewrite Hlow).
  destruct (run_paths env platform format ts _ Hreg')
    as (ro & rc & rp & Eo & Ec & Ep & _).
  apply optimize_for_platform_inv in Eopt
    as (tw' & th' & Hreg'' & Ew & Eh & _).
  rewrite Hreg' in Hreg''. injection Hreg'' as <- <-.
  split; [reflexivity|]. split; [|split; [now rewrite Ew, Eh|]].
  - rewrite Hfiles by (rewrite Eo, Ep; now apply str_eqb_heads).
    cbn [files set_file].
    replace (str_eqb _ (caption_path env platform ts)) with false
      by (symmetry; rewrite Ec, Ep; now apply str_eqb_heads).
    now rewrite str_eqb_refl.
  - split; [reflexivity|]. split; [reflexivity|].
    intros ->. destruct smart_crop_enabled; [reflexivity|].
    unfold smart_crop_step in Ecrop. cbn [andb] in Ecrop.
    unfold ret in Ecrop. now injection Ecrop.
Qed.

(** X13. Every success record describes what is on disk.  The image it
    names exists under the output folder after the run, was saved with
    the parameters of the requested format, and has exactly the size the
    record reports, which is the registered size of the platform.  The
    temporary copy of the upload is gone unless [os.remove] failed.  The
    record never reports an enhancement, and reports a smart crop only
    when smart cropping was asked for. *)
Theorem success_record_describes_store locate env image_bytes platform format
    smart_crop_enabled enhance_image_enabled confidence AI_MODELS w r w' :
  process_image_complete_with locate env image_bytes platform format
    smart_crop_enabled enhance_image_enabled confidence AI_MODELS w
  = (Ok r, w') ->
  pr_error r = None ->
  exists ts img2,
    pr_optimized_image r
    = Some (py "/media/optimized/" ++ output_filename env platform format ts)
    /\ files w' (path_join OUTPUT_FOLDER (output_filename env platform format ts))
       = Some (ImageFile img2 (output_params format))
    /\ pr_size r = (width img2, height img2)
    /\ dict_get SOCIAL_MEDIA_SIZES platform = Some (pr_size r)
    /\ (remove_fault env (original_path env format) = None ->
        files w' (original_path env format) = None)
    /\ pr_enhanced r = false
    /\ (pr_smart_cropped r = true -> smart_crop_enabled = true).
Proof.
  intros Hcall Hok.
  pose proof (process_image_complete_with_success _ _ _ _ _ _ _ _ _ _ _ _
                Hcall Hok) as B.
  destruct (pipeline_body_written _ _ _ _ _ _ _ _ _ _ B) as (_ & Hrm).
  destruct (stored_image_of_success _ _ _ _ _ _ _ _ _ _ B)
    as (ts & img2 & A1 & A2 & A3 & A4 & A5 & A6).
  exists ts, img2. repeat (split; [assumption|]). exact A6.
Qed.

Lemma success_record_describes_store_witness :
  exists ts img2,
    pr_optimized_image (record_of run_two_lines)
    = Some (py "/media/optimized/"
            ++ output_filename demo_env (py "instagram") (py "JPEG") ts)
    /\ files (snd run_two_lines)
         (path_join OUTPUT_FOLDER
            (output_filename demo_env (py "instagram") (py "JPEG") ts))
       = Some (ImageFile img2 (output_params (py "JPEG")))
    /\ pr_size (record_of run_two_lines) = (width img2, height img2)
    /\ dict_get SOCIAL_MEDIA_SIZES (py "instagram")
       = Some (pr_size (record_of run_two_lines))
    /\ (remove_fault demo_env (original_path demo_env (py "JPEG")) = None ->
        files (snd run_two_lines) (original_path demo_env (py "JPEG")) = None)
    /\ pr_enhanced (record_of run_two_lines) = false
    /\ (pr_smart_cropped (record_of run_two_lines) = true -> true = true).
Proof.
  apply (success_record_describes_store (process_with_gemini demo_env) demo_env
           demo_blob (py "instagram") (py "JPEG") true false f0
           (Some (demo_models reply_two_lines)) empty_world
           (record_of run_two_lines) (snd run_two_lines)).
  - vm_compute. reflexivity.
  - vm_compute. reflexivity.
Defined.

(** X14. The texts of a success record are the locator's own.  A run
    succeeds only if the sidecar could be encoded, so the caption and the
    hashtags of a success record hold no surrogate, and each is the text
    STEP 1 produced, character for character, or empty where STEP 1
    produced a value Python takes for false: the replacement branch of
    [sanitize_text] never contributes to a success record. *)
Theorem success_texts_are_the_locators locate env image_bytes platform format
    smart_crop_enabled enhance_image_enabled confidence AI_MODELS w r w' :
  process_image_complete_with locate env image_bytes platform format
    smart_crop_enabled enhance_image_enabled confidence AI_MODELS w
  = (Ok r, w') ->
  pr_error r = None ->
  existsb is_surrogate (pr_caption_text r) = false
  /\ existsb is_surrogate (pr_hashtags r) = false
  /\ exists img0 wa wc cap bb tags,
       pil_open env image_bytes w = (Ok img0, wa)
       /\ locate_step locate (original_path env format) AI_MODELS platform
            (set_file (original_path env format)
               (Some (ImageFile img0 no_params)) wa)
          = (Ok (cap, bb, tags), wc)
       /\ (cap = JStr (pr_caption_text r)
           \/ truthy cap = false /\ pr_caption_text r = [])
       /\ (tags = JStr (pr_hashtags r)
           \/ truthy tags = false /\ pr_hashtags r = []).
Proof.
  intros Hcall Hok.
  pose proof (process_image_complete_with_success _ _ _ _ _ _ _ _ _ _ _ _
                Hcall Hok) as B.
  destruct (pipeline_body_written _ _ _ _ _ _ _ _ _ _ B) as (Henc & _).
  apply pipeline_body_inv in B
    as (ts & img0 & wa & cap & bb & tags & wc & img1 & cropped & wd & img2 & we
        & caption & hashtags & size & _ & Eopen & _ & Eloc & _ & _ & Ecap
        & Etag & _ & _ & ->).
  cbn [pr_caption_text pr_hashtags] in *.
  unfold sidecar_text in Henc. rewrite !existsb_app in Henc.
  apply orb_false_iff in Henc as [Hc Henc].
  apply orb_false_iff in Henc as [_ Ht].
  split; [exact Hc|]. split; [exact Ht|].
  exists img0, wa, wc, cap, bb, tags.
  split; [exact Eopen|]. split; [exact Eloc|].
  split; [exact (sanitize_text_inv _ _ Ecap Hc) | exact (sanitize_text_inv _ _ Etag Ht)].
Qed.

Lemma success_texts_are_the_locators_witness :
  existsb is_surrogate (pr_caption_text (record_of run_empty_object)) = false
  /\ existsb is_surrogate (pr_hashtags (record_of run_empty_object)) = false
  /\ exists img0 wa wc cap bb tags,
       pil_open demo_env demo_blob empty_world = (Ok img0, wa)
       /\ locate_step (process_with_gemini demo_env)
            (original_path demo_env (py "JPEG"))
            (Some (demo_models reply_empty_object)) (py "instagram")
            (set_file (original_path demo_env (py "JPEG"))
               (Some (ImageFile img0 no_params)) wa)
          = (Ok (cap, bb, tags), wc)
       /\ (cap = JStr (pr_caption_text (record_of run_empty_object))
           \/ truthy cap = false
              /\ pr_caption_text (record_of run_empty_object) = [])
       /\ (tags = JStr (pr_hashtags (record_of run_empty_object))
           \/ truthy tags = false
              /\ pr_hashtags (record_of run_empty_object) = []).
Proof.
  apply (success_texts_are_the_locators (process_with_gemini demo_env) demo_env
           demo_blob (py "instagram") (py "JPEG") true false f0
           (Some (demo_models reply_empty_object)) empty_world
           (record_of run_empty_object) (snd run_empty_object)).
  - vm_compute. reflexivity.
  - vm_compute. reflexivity.
Defined.

(* ================================================================== *)
(** * Part XVI: [load_models] and the endpoints *)
(* ================================================================== *)

(** X15. The dictionary [load_models] returns always has the flag
    [gemini_loaded], and the flag is true exactly when the handle
    [gemini] is there, which is exactly when a key was given and both
    calls of the library succeeded.  So a dictionary from [load_models]
    that counts as loaded never lacks the handle [process_with_gemini]
    looks up. *)
Theorem load_models_flag_and_handle genai api_key :
  let m := load_models genai api_key in
  gemini_loaded m = Some (loaded m)
  /\ (loaded m = true <-> exists g, gemini m = Some g)
  /\ (loaded m = true <->
      exists k g,
        api_key = Some k /\ k <> []
        /\ configure genai k = None
        /\ GenerativeModel genai (py "gemini-1.5-pro") = Ok g)
  /\ models_ready (Some m) = loaded m.
Proof.
  unfold load_models, key_given.
  destruct api_key as [[|c k]|].
  - cbn. repeat split; try discriminate.
    + intros (g & H). discriminate.
    + intros (k & g & [= <-] & H & _). now destruct H.
  - destruct (configure genai (c :: k)) as [e|] eqn:C.
    + cbn. repeat split; try discriminate.
      * intros (g & H). discriminate.
      * intros (k' & g & [= <-] & _ & H & _). congruence.
    + cbn [rbind].
      destruct (GenerativeModel genai (py "gemini-1.5-pro")) as [g|e] eqn:G.
      * cbn. repeat split; eauto.
        intros _. exists (c :: k), g. repeat split; auto. discriminate.
      * cbn. repeat split; try discriminate.
        -- intros (g & H). discriminate.
        -- intros (k' & g & _ & _ & _ & H). discriminate.
  - cbn. repeat split; try discriminate.
    + intros (g & H). discriminate.
    + intros (k & g & H & _). discriminate.
Qed.

(** ** [process_image] *)

(** A call of the pipeline returns the record of its body, or the error
    record of the exception its body raised. *)
Lemma process_image_complete_cases env image_bytes platform format
    smart_crop_enabled enhance_image_enabled confidence AI_MODELS w :
  exists r w',
    process_image_complete env image_bytes platform format smart_crop_enabled
      enhance_image_enabled confidence AI_MODELS w = (Ok r, w')
    /\ ((pr_error r = None
         /\ pipeline_body (process_with_gemini env) env image_bytes platform
              format smart_crop_enabled AI_MODELS w = (Ok r, w'))
        \/ exists e, r = error_record platform e).
Proof.
  unfold process_image_complete, process_image_complete_with, try_except.
  destruct (pipeline_body _ _ _ _ _ _ _ w) as [[r|e] w'] eqn:B.
  - exists r, w'. split; [reflexivity|]. left. split; [|reflexivity].
    apply pipeline_body_inv in B.
    destruct B as (? & ? & ? & ? & ? & ? & ? & ? & ? & ? & ? & ? & ? & ? & ?
                   & B).
    decompose [and] B. subst r. reflexivity.
  - exists (error_record platform e), w'. split; [reflexivity|]. right. eauto.
Qed.

(** The size in the record of a call on a registered platform. *)
Lemma record_size_registered env image_bytes platform format
    smart_crop_enabled enhance_image_enabled confidence AI_MODELS w r w' size :
  dict_get SOCIAL_MEDIA_SIZES platform = Some size ->
  process_image_complete env image_bytes platform format smart_crop_enabled
    enhance_image_enabled confidence AI_MODELS w = (Ok r, w') ->
  pr_size r = size.
Proof.
  intros Hreg Hcall.
  destruct (process_image_complete_cases env image_bytes platform format
              smart_crop_enabled enhance_image_enabled confidence AI_MODELS w)
    as (r0 & w0 & E & D);
    rewrite Hcall in E; injection E as <- <-; destruct D as [[_ B] | (e & ->)].
  - apply pipeline_body_inv in B.
    destruct B as (? & ? & ? & ? & ? & ? & ? & ? & ? & ? & ? & ? & ? & ? & sz
                   & B).
    decompose [and] B. subst r. cbn [pr_size].
    unfold registered_size in *. rewrite Hreg in *. congruence.
  - cbn [pr_size error_record]. now rewrite Hreg.
Qed.

(** X16. The endpoint [POST /process-image/] always returns a response,
    with status 200, 400 or 500.  An upload of another content type, or a
    platform that is not a key of the registry as it is written, is
    refused with status 400 before anything is read or written.  A body
    that cannot be read gives status 500 with the display name and the
    registered size, and nothing written.  Otherwise the body is the
    record of [process_image_complete], sent with status 200 when it has
    no error and 400 when it has one; its size is always the registered
    size of the platform, never the placeholder (0, 0). *)
Theorem process_image_responses env AI_MODELS file platform format
    smart_crop_enabled enhance_image_enabled confidence w :
  exists resp w',
    process_image env AI_MODELS file platform format smart_crop_enabled
      enhance_image_enabled confidence w = (Ok resp, w')
    /\ match response_content resp with
       | ErrorContent _ =>
           status_code resp = 400 /\ w' = w
           /\ ((forall t, content_type file = Some t -> In t valid_types -> False)
               \/ dict_get SOCIAL_MEDIA_SIZES platform = None)
       | FailureContent _ name size =>
           status_code resp = 500 /\ w' = w
           /\ (exists e, read file = Raise e)
           /\ name = display_name platform
           /\ dict_get SOCIAL_MEDIA_SIZES platform = Some size
       | ResultContent r =>
           status_code resp
           = match pr_error r with Some _ => 400 | None => 200 end
           /\ dict_get SOCIAL_MEDIA_SIZES platform = Some (pr_size r)
           /\ exists image_bytes,
                read file = Ok image_bytes
                /\ process_image_complete env image_bytes platform format
                     smart_crop_enabled enhance_image_enabled confidence
                     (Some AI_MODELS) w = (Ok r, w')
       end.
Proof.
  unfold process_image.
  destruct (match content_type file with
            | Some t => existsb (str_eqb t) valid_types
            | None => false
            end) eqn:T; cbn [negb].
  2:{ do 2 eexists. split; [reflexivity|]. cbn.
      repeat split. left. intros t Ht Hin. rewrite Ht in T.
      assert (existsb (str_eqb t) valid_types = true); [|congruence].
      apply existsb_exists. exists t. split; [exact Hin | apply str_eqb_refl]. }
  destruct (dict_get SOCIAL_MEDIA_SIZES platform) as [size|] eqn:Hreg;
    cbn [negb].
  2:{ do 2 eexists. split; [reflexivity|]. cbn. auto. }
  unfold try_except.
  destruct (read file) as [image_bytes|e] eqn:R.
  - rewrite bind_lift_ok with (a := image_bytes) by reflexivity.
    destruct (process_image_complete_cases env image_bytes platform format
                smart_crop_enabled enhance_image_enabled confidence
                (Some AI_MODELS) w) as (r & w' & E & _).
    rewrite (bind_ok _ _ _ _ _ E).
    pose proof (record_size_registered _ _ _ _ _ _ _ _ _ _ _ _ Hreg E) as Hs.
    destruct (pr_error r) as [msg|] eqn:Er; unfold ret;
      do 2 eexists; (split; [reflexivity|]); cbn; rewrite Er, Hs; eauto.
  - rewrite bind_lift_raise with (e := e) by reflexivity.
    unfold registered_size. rewrite Hreg.
    rewrite bind_lift_ok with (a := size) by reflexivity.
    unfold ret. do 2 eexists. split; [reflexivity|]. cbn. eauto 6.
Qed.

(** ** [serve_optimized_image] *)

Lemma split_aux_not_nil sep s skip cur : split_aux sep s skip cur <> [].
Proof.
  revert skip cur. induction s as [|c s IH]; intros skip cur; cbn [split_aux].
  - discriminate.
  - destruct skip; [|apply IH]. destruct (startswith sep (c :: s)).
    + discriminate.
    + apply IH.
Qed.

Lemma last_item_cons {A : Type} (a : A) l :
  l <> [] -> last_item (a :: l) = last_item l.
Proof.
  intros H. unfold last_item. cbn [rev].
  destruct (rev l) as [|x r] eqn:E; [|reflexivity].
  apply (f_equal (@rev A)) in E. rewrite rev_involutive in E. now destruct H.
Qed.

Lemma split_dot_no_dot b cur :
  no_dot b = true -> split_aux [46%N] b O cur = [rev cur ++ b].
Proof.
  revert cur. induction b as [|c b IH]; intros cur H.
  - cbn. now rewrite app_nil_r.
  - cbn [no_dot forallb] in H. apply andb_true_iff in H as [Hc Hb].
    apply negb_true_iff in Hc. cbn [split_aux startswith].
    rewrite N.eqb_sym, Hc. cbn [andb]. rewrite (IH _ Hb). cbn [rev].
    now rewrite <- app_assoc.
Qed.

(** The text after the last full stop. *)
Lemma split_dot_last x b cur :
  no_dot b = true ->
  last_item (split_aux [46%N] (x ++ 46%N :: b) O cur) = Ok b.
Proof.
  intros Hb. revert cur. induction x as [|c x IH]; intros cur.
  - cbn [app split_aux startswith]. rewrite N.eqb_refl. cbn [andb].
    cbn [List.length Nat.sub].
    rewrite last_item_cons by apply split_aux_not_nil.
    rewrite split_dot_no_dot by exact Hb. reflexivity.
  - cbn [app split_aux startswith].
    destruct (46 =? c)%N; cbn [andb].
    + cbn [List.length Nat.sub].
      rewrite last_item_cons by apply split_aux_not_nil. apply IH.
    + apply IH.
Qed.

Lemma to_lower_idempotent c : to_lower (to_lower c) = to_lower c.
Proof.
  unfold to_lower. destruct (is_upper c) eqn:U; [|now rewrite U].
  unfold is_upper in *. apply andb_true_iff in U as [A B].
  apply N.leb_le in A. apply N.leb_le in B.
  replace (c + 32 <=? 90)%N with false by (symmetry; apply N.leb_gt; lia).
  now rewrite andb_false_r.
Qed.

Lemma lower_idempotent s : lower (lower s) = lower s.
Proof.
  unfold lower. rewrite map_map. apply map_ext. exact to_lower_idempotent.
Qed.

Lemma no_dot_lower s : no_dot (lower s) = no_dot s.
Proof.
  unfold no_dot, lower. induction s as [|c s IH]; [reflexivity|].
  cbn [map forallb]. rewrite IH. f_equal. f_equal.
  unfold to_lower. destruct (is_upper c) eqn:U; [|reflexivity].
  unfold is_upper in U. apply andb_true_iff in U as [A B].
  apply N.leb_le in A. apply N.leb_le in B.
  replace (c + 32 =? 46)%N with false by (symmetry; apply N.eqb_neq; lia).
  replace (c =? 46)%N with false by (symmetry; apply N.eqb_neq; lia).
  reflexivity.
Qed.

(** X17. What a success record names can be served.  After a successful
    run for a format without a full stop, [serve_optimized_image] on the
    file name of the record's [optimized_image] does not raise the 404
    error: it returns the response for the stored image, which has the
    size the record reports, with the media type [image/] followed by the
    lower-cased format, and [image/jpeg] for the format [jpg]. *)
Theorem served_after_success locate env image_bytes platform format
    smart_crop_enabled enhance_image_enabled confidence AI_MODELS w r w' :
  process_image_complete_with locate env image_bytes platform format
    smart_crop_enabled enhance_image_enabled confidence AI_MODELS w
  = (Ok r, w') ->
  pr_error r = None ->
  no_dot format = true ->
  exists filename img2,
    pr_optimized_image r = Some (py "/media/optimized/" ++ filename)
    /\ serve_optimized_image filename w'
       = (Ok (FileResponse (path_join OUTPUT_FOLDER filename)
                (if str_eqb (lower format) (py "jpg") then py "image/jpeg"
                 else py "image/" ++ lower format)), w')
    /\ files w' (path_join OUTPUT_FOLDER filename)
       = Some (ImageFile img2 (output_params format))
    /\ pr_size r = (width img2, height img2).
Proof.
  intros Hcall Hok Hdot.
  pose proof (process_image_complete_with_success _ _ _ _ _ _ _ _ _ _ _ _
                Hcall Hok) as B.
  destruct (stored_image_of_success _ _ _ _ _ _ _ _ _ _ B)
    as (ts & img2 & A1 & A2 & A3 & _).
  exists (output_filename env platform format ts), img2.
  split; [exact A1|]. split; [|split; [exact A2 | exact A3]].
  unfold serve_optimized_image.
  unfold bind at 1. unfold path_exists at 1. rewrite A2. cbn [negb].
  assert (L : last_item (split (py ".") (output_filename env platform format ts))
              = Ok (lower format)).
  { unfold split, output_filename.
    replace (platform ++ py "_" ++ uuid4 env ++ py "_" ++ str_of_int ts
             ++ py "." ++ lower format)
      with ((platform ++ py "_" ++ uuid4 env ++ py "_" ++ str_of_int ts)
            ++ 46%N :: lower format)
      by (now rewrite <- !app_assoc).
    apply split_dot_last. now rewrite no_dot_lower. }
  rewrite L. cbn [rbind]. rewrite lower_idempotent.
  reflexivity.
Qed.

Lemma served_after_success_witness :
  exists filename img2,
    pr_optimized_image (record_of run_two_lines)
    = Some (py "/media/optimized/" ++ filename)
    /\ serve_optimized_image filename (snd run_two_lines)
       = (Ok (FileResponse (path_join OUTPUT_FOLDER filename)
                (if str_eqb (lower (py "JPEG")) (py "jpg") then py "image/jpeg"
                 else py "image/" ++ lower (py "JPEG"))), snd run_two_lines)
    /\ files (snd run_two_lines) (path_join OUTPUT_FOLDER filename)
       = Some (ImageFile img2 (output_params (py "JPEG")))
    /\ pr_size (record_of run_two_lines) = (width img2, height img2).
Proof.
  apply (served_after_success (process_with_gemini demo_env) demo_env
           demo_blob (py "instagram") (py "JPEG") true false f0
           (Some (demo_models reply_two_lines)) empty_world
           (record_of run_two_lines) (snd run_two_lines)).
  - vm_compute. reflexivity.
  - vm_compute. reflexivity.
  - reflexivity.
Defined.

(** X18. A server started without an API key answers a well-formed
    request.  With the models [load_models] returns for no key, an upload
    of an accepted content type whose body reads and decodes to an image
    with sides positive and below 2^31 and an aspect ratio of at most
    65536 to 1 either way, a registered platform, and no fault in
    resizing, saving and writing, [process_image] answers with status 200
    and the success record that carries the fixed caption and the
    registered size. *)
Theorem process_image_without_key genai env file platform format
    smart_crop_enabled enhance_image_enabled confidence w
    t image_bytes ts md wd ht tw th :
  content_type file = Some t -> In t valid_types ->
  read file = Ok image_bytes ->
  rbind (float_mul_int (time_time env) 1000) int_of_float = Ok ts ->
  Image_open env image_bytes = Ok (md, wd, ht) ->
  0 < wd < 2 ^ 31 -> 0 < ht < 2 ^ 31 ->
  wd <= 65536 * ht -> ht <= 65536 * wd ->
  (forall i size, resize_fault env i size = None) ->
  dict_get SOCIAL_MEDIA_SIZES platform = Some (tw, th) ->
  save_fault env (Image (next_id w) md wd ht) (original_path env format)
    no_params = None ->
  (forall img,
     save_fault env img
       (path_join OUTPUT_FOLDER (output_filename env platform format ts))
       (output_params format) = None) ->
  write_fault env (caption_path env platform ts) = None ->
  exists w',
    process_image env (load_models genai None) file platform format
      smart_crop_enabled enhance_image_enabled confidence w
    = (Ok {| status_code := 200;
             response_content :=
               ResultContent
                 {| pr_error := None;
                    pr_platform := display_name platform;
                    pr_size := (tw, th);
                    pr_optimized_image :=
                      Some (py "/media/optimized/"
                            ++ output_filename env platform format ts);
                    pr_caption_text :=
                      py "Image analysis not available. Gemini model not loaded.";
                    pr_hashtags := py "#" ++ platform;
                    pr_enhanced := false;
                    pr_smart_cropped := smart_crop_enabled |} |}, w').
Proof.
  intros Ht Hin Hread Hts Hopen Hwd Hht Hwh Hhw Hrf Hreg Hs1 Hs2 Hwf.
  assert (Hlow : dict_get SOCIAL_MEDIA_SIZES (lower platform) = Some (tw, th)).
  { destruct (registry_entry _ _ _ Hreg) as (-> & _). exact Hreg. }
  destruct (pipeline_body_no_model (process_with_gemini env) env image_bytes
              platform format smart_crop_enabled
              (Some (load_models genai None)) w ts md wd ht tw th
              eq_refl Hts Hopen Hwd Hht Hwh Hhw Hrf Hlow Hs1 Hs2 Hwf)
    as (img2 & w' & B & _).
  exists w'. unfold process_image. rewrite Ht.
  assert (V : existsb (str_eqb t) valid_types = true).
  { apply existsb_exists. exists t. split; [exact Hin | apply str_eqb_refl]. }
  rewrite V, Hreg. cbn [negb]. unfold try_except.
  rewrite (bind_lift_ok _ _ _ _ Hread).
  unfold process_image_complete, process_image_complete_with, try_except.
  unfold bind at 1. rewrite B. unfold registered_size. rewrite Hreg.
  reflexivity.
Qed.

Lemma process_image_without_key_witness :
  exists w',
    process_image demo_env (load_models demo_genai None) demo_upload
      (py "pinterest") (py "PNG") true false f0 empty_world
    = (Ok {| status_code := 200;
             response_content :=
               ResultContent
                 {| pr_error := None;
                    pr_platform := display_name (py "pinterest");
                    pr_size := (1000, 1500);
                    pr_optimized_image :=
                      Some (py "/media/optimized/"
                            ++ output_filename demo_env (py "pinterest")
                                 (py "PNG") demo_timestamp);
                    pr_caption_text :=
                      py "Image analysis not available. Gemini model not loaded.";
                    pr_hashtags := py "#" ++ py "pinterest";
                    pr_enhanced := false;
                    pr_smart_cropped := true |} |}, w').
Proof.
  apply (process_image_without_key demo_genai demo_env demo_upload
           (py "pinterest") (py "PNG") true false f0 empty_world
           (py "image/jpeg") demo_blob demo_timestamp (py "RGB") 1920 1080
           1000 1500).
  - reflexivity.
  - left. reflexivity.
  - reflexivity.
  - vm_compute. reflexivity.
  - reflexivity.
  - lia.
  - lia.
  - lia.
  - lia.
  - intros i size. reflexivity.
  - reflexivity.
  - reflexivity.
  - intros img. reflexivity.
  - reflexivity.
Defined.
